(** * uptimekuma-webhook-tgbot: the webhook relay of [main.go]

    A shallow embedding of the request pipeline of [main.go]
    (authenticate, read and bound the body, decode JSON permissively,
    compose the notification text, dispatch it to the Telegram API, map the
    outcome to an HTTP response), of the MarkdownV2 build of the composer
    that the repository carries next to it, and the properties of the
    specification stated over them.

    Go strings are byte strings: they are modelled as [string], one [ascii]
    per byte, so that [String.length] is Go's [len]. *)

From Stdlib Require Import ZArith NArith Ascii String List Lia DecimalString.
From Stdlib Require Import Floats.PrimFloat Floats.FloatOps Floats.SpecFloat.
From stdpp Require Import base option list strings gmap.

#[local] Set Warnings "-register-all,-notation-for-abbreviation".
#[local] Open Scope Z_scope.

(** ** Bytes and strings of the Go runtime *)

(** The line feed written by [builder.WriteByte('\n')]. *)
Definition nl : string := String "010"%char EmptyString.

(** The double quote, for the JSON texts of the handler. *)
Definition dquote : string := String "034"%char EmptyString.

Definition byteval (c : ascii) : N := N_of_ascii c.

Definition isEmpty (s : string) : bool :=
  match s with
  | EmptyString => true
  | String _ _ => false
  end.

(** The first [n] bytes of [s], all of [s] when it is shorter: [s[:n]], and
    what [io.LimitReader] lets through. *)
Fixpoint strTake (n : nat) (s : string) : string :=
  match n, s with
  | S k, String c r => String c (strTake k r)
  | _, _ => EmptyString
  end.

Fixpoint strMap (f : ascii -> ascii) (s : string) : string :=
  match s with
  | EmptyString => EmptyString
  | String c r => String (f c) (strMap f r)
  end.

Fixpoint strAll (p : ascii -> bool) (s : string) : bool :=
  match s with
  | EmptyString => true
  | String c r => p c && strAll p r
  end.

Fixpoint strHas (p : ascii -> bool) (s : string) : bool :=
  match s with
  | EmptyString => false
  | String c r => p c || strHas p r
  end.

(** *** [strings.TrimSpace]

    White space is [unicode.IsSpace]: the six ASCII bytes of Go's
    [asciiSpace] table (tab, line feed, vertical tab, form feed, carriage
    return, space) and the runes U+0085, U+00A0, U+1680, U+2000..U+200A,
    U+2028, U+2029, U+202F, U+205F and U+3000.  A rune read from a Go string
    is white space exactly when the bytes at that place are the UTF-8
    encoding of one of them: ill-formed bytes decode to U+FFFD, which is not
    white space. *)

Definition isSpace2 (a b : ascii) : bool :=
  (byteval a =? 194)%N && ((byteval b =? 133)%N || (byteval b =? 160)%N).

Definition isSpace3 (a b c : ascii) : bool :=
  ((byteval a =? 225)%N && (byteval b =? 154)%N && (byteval c =? 128)%N)
  || ((byteval a =? 226)%N && (byteval b =? 128)%N
      && (((128 <=? byteval c)%N && (byteval c <=? 138)%N)
          || (byteval c =? 168)%N || (byteval c =? 169)%N || (byteval c =? 175)%N))
  || ((byteval a =? 226)%N && (byteval b =? 129)%N && (byteval c =? 159)%N)
  || ((byteval a =? 227)%N && (byteval b =? 128)%N && (byteval c =? 128)%N).

(** [s] is the encoding of exactly one white-space rune. *)
Definition isSpaceRune (s : string) : bool :=
  match s with
  | String a EmptyString => Ascii.is_space a
  | String a (String b EmptyString) => isSpace2 a b
  | String a (String b (String c EmptyString)) => isSpace3 a b c
  | _ => false
  end.

(** [strings.TrimLeftFunc(s, unicode.IsSpace)]: drop white-space runes from
    the front until the first rune that is none. *)
Fixpoint trimLeft (s : string) : string :=
  match s with
  | EmptyString => EmptyString
  | String a s1 =>
      if Ascii.is_space a then trimLeft s1
      else match s1 with
           | EmptyString => s
           | String b s2 =>
               if isSpace2 a b then trimLeft s2
               else match s2 with
                    | EmptyString => s
                    | String c s3 => if isSpace3 a b c then trimLeft s3 else s
                    end
           end
  end.

(** [strings.TrimRightFunc(s, unicode.IsSpace)]: drop white-space runes from
    the back.  By recursion on the string: once the tail is trimmed to [r],
    the first byte can only go if it completes, with all of [r], one
    white-space rune. *)
Fixpoint trimRight (s : string) : string :=
  match s with
  | EmptyString => EmptyString
  | String a s1 =>
      let r := trimRight s1 in
      if isSpaceRune (String a r) then EmptyString else String a r
  end.

Definition TrimSpace (s : string) : string := trimRight (trimLeft s).

(** A string made of white-space runes only. *)
Inductive spaceOnly : string -> Prop :=
| spaceOnly_nil : spaceOnly EmptyString
| spaceOnly_rune r s :
    isSpaceRune r = true -> spaceOnly s -> spaceOnly (r +:+ s).

(** *** [strings.ToUpper], [strings.ToLower], [strings.Contains]

    Go maps ASCII-only strings byte by byte and hands every other string to
    [strings.Map] with the Unicode case tables.  The tables are not part of
    the repository: they are the two fields of this class. *)
Class UnicodeTables := {
  mapToUpper : string -> string;
  mapToLower : string -> string
}.

Definition isASCIIByte (c : ascii) : bool := (byteval c <? 128)%N.
Definition isASCII (s : string) : bool := strAll isASCIIByte s.

Definition upperByte (c : ascii) : ascii :=
  if (97 <=? byteval c)%N && (byteval c <=? 122)%N
  then ascii_of_N (byteval c - 32) else c.

Definition lowerByte (c : ascii) : ascii :=
  if (65 <=? byteval c)%N && (byteval c <=? 90)%N
  then ascii_of_N (byteval c + 32) else c.

Definition ToUpper `{UnicodeTables} (s : string) : string :=
  if isASCII s then strMap upperByte s else mapToUpper s.

Definition ToLower `{UnicodeTables} (s : string) : string :=
  if isASCII s then strMap lowerByte s else mapToLower s.

Fixpoint HasPrefix (s prefix : string) : bool :=
  match prefix, s with
  | EmptyString, _ => true
  | String p ps, String c cs => if Ascii.eqb c p then HasPrefix cs ps else false
  | String _ _, EmptyString => false
  end.

Fixpoint Contains (s substr : string) : bool :=
  HasPrefix s substr
  || match s with
     | EmptyString => false
     | String _ r => Contains r substr
     end.

(** *** [fmt.Sprintf("%.0f", v)] on a [float64]

    The exact value [m * 2^e] of a finite float is rounded to an integer,
    ties to even, and printed in decimal; the sign is kept, also on zero. *)
Definition roundHalfEven (m : positive) (e : Z) : Z :=
  if 0 <=? e then Z.pos m * 2 ^ e
  else
    let d := 2 ^ (- e) in
    let q := Z.pos m / d in
    let r := Z.pos m mod d in
    if 2 * r <? d then q
    else if d <? 2 * r then q + 1
    else if Z.even q then q else q + 1.

Definition decimal (n : Z) : string := NilZero.string_of_uint (N.to_uint (Z.to_N n)).

Definition signText (negative : bool) : string :=
  if negative then "-" else EmptyString.

Definition formatFloat0 (f : float) : string :=
  match Prim2SF f with
  | S754_nan => "NaN"
  | S754_infinity false => "+Inf"
  | S754_infinity true => "-Inf"
  | S754_zero s => signText s +:+ "0"
  | S754_finite s m e => signText s +:+ decimal (roundHalfEven m e)
  end.

(** ** Data model *)

(** A Go [any] as [encoding/json] and the composer see it.  [Number] is
    [json.Number], the literal text of a JSON number; a map may be the nil
    map ([None]). *)
Inductive any : Type :=
| Nil
| Bool (b : bool)
| Number (literal : string)
| Float64 (f : float)
| Str (s : string)
| Slice (l : list any)
| Map (m : option (gmap string any)).

(** [map[string]any], nil or not. *)
Notation gomap := (option (gmap string any)).

(** [v, ok := m[key]]; reading the nil map finds nothing. *)
Definition mapIndex (m : gomap) (key : string) : option any :=
  m ≫= (λ g, g !! key).

(** The type switch that ends [nestedString] and [stringFromMap]. *)
Definition scalarString (v : any) : string :=
  match v with
  | Str s => TrimSpace s
  | Number literal => literal
  | Float64 f => TrimSpace (formatFloat0 f)
  | _ => EmptyString
  end.

Fixpoint descend (current : any) (keys : list string) : option any :=
  match keys with
  | [] => Some current
  | key :: rest =>
      match current with
      | Map m =>
          match mapIndex m key with
          | Some v => descend v rest
          | None => None
          end
      | _ => None
      end
  end.

Definition nestedString (payload : gomap) (keys : list string) : string :=
  match descend (Map payload) keys with
  | Some v => scalarString v
  | None => EmptyString
  end.

Definition stringFromMap (payload : gomap) (key : string) : string :=
  match payload with
  | None => EmptyString
  | Some g =>
      match g !! key with
      | Some v => scalarString v
      | None => EmptyString
      end
  end.

(** ** Message Composer ([main.go]) *)

Definition maxRaw : nat := 3900.

Definition fallbackRaw (raw : string) : string :=
  let trimmed := TrimSpace raw in
  if isEmpty trimmed then EmptyString
  else if (maxRaw <? String.length trimmed)%nat then strTake maxRaw trimmed +:+ "..."
  else trimmed.

(** One guarded group of writes:
    [if v != "" { WriteString(label); WriteString(shown); WriteByte('\n') }]. *)
Definition writeLine (builder label v shown : string) : string :=
  if isEmpty v then builder else builder +:+ label +:+ shown +:+ nl.

Section Composer.
Context `{UnicodeTables}.

(** The builder of [buildTelegramMessage] after its six guarded groups. *)
Definition buildFields (payload : gomap) : string :=
  let builder := EmptyString in
  let monitorName := nestedString payload ["monitor"; "name"] in
  let builder := writeLine builder "Monitor: " monitorName monitorName in
  let status := stringFromMap payload "status" in
  let builder := writeLine builder "Status: " status (ToUpper status) in
  let reason := stringFromMap payload "incidentReason" in
  let reason := if isEmpty reason then stringFromMap payload "msg" else reason in
  let builder := writeLine builder "Reason: " reason reason in
  let monitorURL := nestedString payload ["monitor"; "url"] in
  let builder := writeLine builder "URL: " monitorURL monitorURL in
  let timestamp := stringFromMap payload "time" in
  let builder := writeLine builder "Time: " timestamp timestamp in
  let ping := stringFromMap payload "ping" in
  writeLine builder "Ping: " ping ping.

Definition buildTelegramMessage (payload : gomap) (raw : string) : string :=
  let text := TrimSpace (buildFields payload) in
  if isEmpty text then fallbackRaw raw
  else
    let rawText := fallbackRaw raw in
    if isEmpty rawText then text
    else text +:+ nl +:+ "---" +:+ nl +:+ rawText.
End Composer.

(** ** Notification Dispatcher *)

Record telegramClient := {
  baseURL : string;
  botToken : string;
  chatID : string;
  requestTimeout : Z
}.

(** The request handed to [c.httpClient.Do].  [reqBody] is the object that
    [json.Marshal] encodes; it holds strings and a boolean, on which
    [json.Marshal] does not fail. *)
Record httpRequest := {
  reqMethod : string;
  reqURL : string;
  reqHeader : gmap string string;
  reqBody : gmap string any
}.

Record httpResponse := {
  StatusCode : Z;
  respBody : string
}.

(** The errors [sendMessage] returns, by the message that builds them. *)
Inductive sendError : Type :=
| ErrEmptyMessage                          (* telegram message is empty *)
| ErrCreateRequest                         (* create telegram request *)
| ErrRequestFailed                         (* telegram request failed *)
| ErrStatus (code : Z) (excerpt : string)  (* telegram API returned status *)
| ErrDecodeResponse                        (* decode telegram response *)
| ErrAPI (description : string).           (* telegram API error *)

(** What the handler and the dispatcher call outside the repository:
    [encoding/json] on the inbound body (with [UseNumber]; [None] is a decode
    error, which leaves the payload as it was), [net/http] building and
    sending the outbound request under the request context ([None] is a
    transport error, a timeout included), and [encoding/json] on the
    provider's answer, giving its [ok] and [description] fields. *)
Class Runtime := {
  jsonDecode : string -> option gomap;
  newRequestOK : string -> bool;
  httpDo : httpRequest -> option httpResponse;
  decodeAPIResponse : string -> option (bool * string)
}.

Definition StatusMultipleChoices : Z := 300.

Section Dispatcher.
Context `{Runtime}.

(** [(c *telegramClient) sendMessage]: the error returned ([None] is nil)
    and the requests handed to the HTTP client. *)
Definition sendMessage (c : telegramClient) (text : string)
  : option sendError * list httpRequest :=
  if isEmpty (TrimSpace text) then (Some ErrEmptyMessage, [])
  else
    let endpoint := baseURL c +:+ "/bot" +:+ botToken c +:+ "/sendMessage" in
    let payload : gmap string any :=
      <["chat_id" := Str (chatID c)]>
        (<["text" := Str text]>
           (<["disable_web_page_preview" := Bool true]> ∅)) in
    if negb (newRequestOK endpoint) then (Some ErrCreateRequest, [])
    else
      let req := {| reqMethod := "POST";
                    reqURL := endpoint;
                    reqHeader := <["Content-Type" := "application/json"]> ∅;
                    reqBody := payload |} in
      match httpDo req with
      | None => (Some ErrRequestFailed, [req])
      | Some resp =>
          if StatusMultipleChoices <=? StatusCode resp
          then (Some (ErrStatus (StatusCode resp)
                                (TrimSpace (strTake 512 (respBody resp)))), [req])
          else
            match decodeAPIResponse (respBody resp) with
            | None => (Some ErrDecodeResponse, [req])
            | Some (ok, description) =>
                if ok then (None, [req])
                else (Some (ErrAPI (if isEmpty description
                                    then "unknown error" else description)), [req])
            end
      end.
End Dispatcher.

(** ** Request Handler *)

Definition maxPayloadBytes : Z := Z.shiftl 1 20.

Record config := {
  listenAddr : string;
  webhookToken : string;
  telegramBotToken : string;
  telegramChatID : string;
  telegramBaseURL : string;
  cfgRequestTimeout : Z
}.

(** An inbound request: its method, its header (canonical keys), the bytes
    its body delivers, whether the body then ends in a read error instead
    of end-of-file, and whether that error is returned by the very [Read]
    that delivers the last bytes (an [io.Reader] may return it with them,
    or by the call after; the field has no meaning for a body that does
    not fail). *)
Record request := {
  Method : string;
  Header : gmap string string;
  Body : string;
  BodyFails : bool;
  FailsWithData : bool
}.

Record response := {
  Status : Z;
  RespHeader : gmap string string;
  RespBody : string
}.

Inductive logEntry : Type :=
| LogReadFailed                 (* failed to read request body *)
| LogInvalidJSON                (* invalid JSON payload *)
| LogSendFailed (e : sendError). (* failed to send telegram message *)

(** What one run of the handler leaves behind: the response written, the
    lines logged, and the outbound requests made. *)
Record outcome := {
  resp : response;
  logged : list logEntry;
  calls : list httpRequest
}.

(** [r.Header.Get(key)]. *)
Definition headerGet (h : gmap string string) (key : string) : string :=
  default EmptyString (h !! key).

(** [http.Error(w, msg, code)] on a response whose header is [h]. *)
Definition httpError (h : gmap string string) (msg : string) (code : Z) : response :=
  {| Status := code;
     RespHeader := <["X-Content-Type-Options" := "nosniff"]>
                     (<["Content-Type" := "text/plain; charset=utf-8"]> h);
     RespBody := msg +:+ nl |}.

(** [io.ReadAll(io.LimitReader(r.Body, maxPayloadBytes))]: the limit reader
    hands on what the [Read] of the body returns, bytes and error, until
    [maxPayloadBytes] bytes went through, and from then on reports
    end-of-file without asking the body again.  So a read error is met when
    it comes before the cap is reached, or together with the bytes that
    reach it; what the body holds or does beyond the cap is never seen. *)
Definition readBody (r : request) : option string :=
  let size := Z.of_nat (String.length (Body r)) in
  if maxPayloadBytes <? size
  then Some (strTake (Z.to_nat maxPayloadBytes) (Body r))
  else if BodyFails r && ((size <? maxPayloadBytes) || FailsWithData r)
       then None
       else Some (Body r).

Definition StatusAccepted : Z := 202.
Definition StatusBadRequest : Z := 400.
Definition StatusUnauthorized : Z := 401.
Definition StatusMethodNotAllowed : Z := 405.
Definition StatusBadGateway : Z := 502.

Definition okBody : string := "{" +:+ dquote +:+ "ok" +:+ dquote +:+ ":true}".

Section Handler.
Context `{UnicodeTables} `{Runtime}.

Definition webhookHandler (cfg : config) (client : telegramClient) (r : request)
  : outcome :=
  let expectedAuthHeader := "Bearer " +:+ webhookToken cfg in
  if negb (String.eqb (Method r) "POST") then
    {| resp := httpError (<["Allow" := "POST"]> ∅) "method not allowed"
                         StatusMethodNotAllowed;
       logged := []; calls := [] |}
  else if negb (String.eqb (headerGet (Header r) "Authorization") expectedAuthHeader) then
    {| resp := httpError ∅ "unauthorized" StatusUnauthorized;
       logged := []; calls := [] |}
  else
    match readBody r with
    | None =>
        {| resp := httpError ∅ "failed to read body" StatusBadRequest;
           logged := [LogReadFailed]; calls := [] |}
    | Some body =>
        if (String.length body =? 0)%nat then
          {| resp := httpError ∅ "empty body" StatusBadRequest;
             logged := []; calls := [] |}
        else
          let decoded :=
            match jsonDecode body with
            | Some p => (p, [])
            | None => (Some ∅, [LogInvalidJSON])
            end in
          let payload := decoded.1 in
          let message := buildTelegramMessage payload body in
          let sent := sendMessage client message in
          match sent.1 with
          | Some e =>
              {| resp := httpError ∅ "failed to forward notification" StatusBadGateway;
                 logged := decoded.2 ++ [LogSendFailed e];
                 calls := sent.2 |}
          | None =>
              {| resp := {| Status := StatusAccepted;
                            RespHeader := <["Content-Type" := "application/json"]> ∅;
                            RespBody := okBody |};
                 logged := decoded.2;
                 calls := sent.2 |}
          end
    end.
End Handler.

(** ** The MarkdownV2 build of the composer

    The repository carries a second build of [main.go], listed after the
    README, that sends the text with [parse_mode] MarkdownV2.  Its reader,
    dispatcher and handler are those above; its composer decorates the lines
    and escapes the values. *)
Module MarkdownV2.

(** The eighteen bytes of the replacer in [escapeMarkdown]. *)
Definition specialChars : string := "*_`[]()~>#+-=|{}.!".

Definition isSpecial (c : ascii) : bool := strHas (Ascii.eqb c) specialChars.

Definition backslash : ascii := "\"%char.

(** [strings.NewReplacer(...).Replace(text)]: every old string is one byte,
    so each byte of the text is replaced on its own. *)
Fixpoint escapeMarkdown (text : string) : string :=
  match text with
  | EmptyString => EmptyString
  | String c r =>
      if isSpecial c then String backslash (String c (escapeMarkdown r))
      else String c (escapeMarkdown r)
  end.

(** The [switch strings.ToLower(status)] of the status line. *)
Definition statusEmoji (lowered : string) : string :=
  if String.eqb lowered "up" then "✅"
  else if String.eqb lowered "down" then "❌"
  else if String.eqb lowered "maintenance" then "🔧"
  else if String.eqb lowered "pending" then "⏳"
  else "ℹ️".

(** One guarded group of writes: nothing when [v] is empty. *)
Definition writeSegment (builder v pre shown post : string) : string :=
  if isEmpty v then builder else builder +:+ pre +:+ shown +:+ post.

Definition rawSection : string := "📄 *原始数据*:" +:+ nl +:+ "```json" +:+ nl.

Section Composer.
Context `{UnicodeTables}.

Definition isTest (msg : string) : bool :=
  Contains (ToLower msg) "testing" || Contains (ToLower msg) "test".

Definition header (msg : string) : string :=
  if isTest msg then "🧪 *Uptime Kuma 测试通知*" +:+ nl +:+ nl
  else "🔔 *Uptime Kuma 监控通知*" +:+ nl +:+ nl.

Definition buildFields (payload : gomap) : string :=
  let msg := stringFromMap payload "msg" in
  let builder := header msg in
  let monitorName := nestedString payload ["monitor"; "name"] in
  let builder := writeSegment builder monitorName
                   "📊 *监控名称*: `" (escapeMarkdown monitorName) ("`" +:+ nl) in
  let status := stringFromMap payload "status" in
  let builder := writeSegment builder status
                   (statusEmoji (ToLower status) +:+ " *状态*: *")
                   (escapeMarkdown (ToUpper status)) ("*" +:+ nl) in
  let reason := stringFromMap payload "incidentReason" in
  let reason := if isEmpty reason then msg else reason in
  let builder := writeSegment builder reason
                   "❗ *原因*: " (escapeMarkdown reason) nl in
  let monitorURL := nestedString payload ["monitor"; "url"] in
  let builder := writeSegment builder monitorURL
                   "🔗 *监控地址*: " (escapeMarkdown monitorURL) nl in
  let timestamp := stringFromMap payload "time" in
  let builder := writeSegment builder timestamp
                   "🕐 *时间*: `" (escapeMarkdown timestamp) ("`" +:+ nl) in
  let ping := stringFromMap payload "ping" in
  writeSegment builder ping
    "⚡ *响应时间*: `" (escapeMarkdown ping) (" ms`" +:+ nl).

Definition buildTelegramMessage (payload : gomap) (raw : string) : string :=
  let text := TrimSpace (buildFields payload) in
  if isEmpty text then
    "📋 *Uptime Kuma 通知*" +:+ nl +:+ nl +:+ rawSection
      +:+ fallbackRaw raw +:+ nl +:+ "```"
  else
    let rawText := fallbackRaw raw in
    if isEmpty rawText then text
    else text +:+ nl +:+ nl +:+ rawSection +:+ rawText +:+ nl +:+ "```".
End Composer.
End MarkdownV2.

(** ** Configuration and startup *)

(** [s[n:]] for [n <= len(s)]. *)
Fixpoint strDrop (n : nat) (s : string) : string :=
  match n, s with
  | S k, String _ r => strDrop k r
  | _, _ => s
  end.

(** [strings.HasSuffix]. *)
Definition HasSuffix (s suffix : string) : bool :=
  (String.length suffix <=? String.length s)%nat
  && String.eqb (strDrop (String.length s - String.length suffix) s) suffix.

(** [strings.TrimSuffix]. *)
Definition TrimSuffix (s suffix : string) : string :=
  if HasSuffix s suffix
  then strTake (String.length s - String.length suffix) s
  else s.

(** [strings.Index(s, sep)] for a separator of one byte: the place of its
    first occurrence, [None] for Go's -1. *)
Fixpoint indexByte (c : ascii) (s : string) : option nat :=
  match s with
  | EmptyString => None
  | String a r => if Ascii.eqb a c then Some 0%nat else S <$> indexByte c r
  end.

(** What the configuration code calls outside the repository:
    [time.ParseDuration] (the duration in nanoseconds, [None] for an error),
    [strconv.Unquote] ([None] for an error) and whether [os.Setenv] accepts a
    name and a value (the system call refuses some, a NUL byte for one). *)
Class Platform := {
  parseDuration : string -> option Z;
  unquote : string -> option string;
  setenvOK : string -> string -> bool
}.

(** [os.Getenv] on the environment [env]. *)
Definition Getenv (env : gmap string string) (key : string) : string :=
  default EmptyString (env !! key).

Definition getEnv (env : gmap string string) (key fallback : string) : string :=
  match env !! key with
  | Some value =>
      let value := TrimSpace value in
      if isEmpty value then fallback else value
  | None => fallback
  end.

Definition defaultTelegramAPIURL : string := "https://api.telegram.org".
Definition defaultListenAddr : string := ":8080".

(** [10 * time.Second], in nanoseconds. *)
Definition defaultRequestTimeout : Z := 10 * 1000000000.

(** The errors [loadConfig] returns. *)
Inductive configError : Type :=
| ErrWebhookTokenRequired   (* WEBHOOK_AUTH_TOKEN is required *)
| ErrBotTokenRequired       (* TELEGRAM_BOT_TOKEN is required *)
| ErrChatIDRequired         (* TELEGRAM_CHAT_ID is required *)
| ErrInvalidTimeout         (* invalid REQUEST_TIMEOUT *)
| ErrTimeoutNotPositive.    (* REQUEST_TIMEOUT must be positive *)

(** The errors [loadDotEnv] returns. *)
Inductive dotEnvError : Type :=
| ErrOpen                   (* open <path> *)
| ErrSet (key : string)     (* set <key> *)
| ErrRead.                  (* read <path> *)

(** The file [loadDotEnv] opens, as the code sees it: absent, not to be
    opened, or the lines its [bufio.Scanner] yields one after the other, with
    whether the scan then ends in an error ([scanner.Err()]). *)
Inductive dotEnvFile : Type :=
| FileNotExist
| FileOpenFails
| FileLines (lines : list string) (scanFails : bool).

Section Startup.
Context `{Platform}.

Definition loadConfig (env : gmap string string) : config + configError :=
  let listen := getEnv env "LISTEN_ADDR" defaultListenAddr in
  let base := getEnv env "TELEGRAM_API_BASE_URL" defaultTelegramAPIURL in
  let webhook := TrimSpace (Getenv env "WEBHOOK_AUTH_TOKEN") in
  let bot := TrimSpace (Getenv env "TELEGRAM_BOT_TOKEN") in
  let chat := TrimSpace (Getenv env "TELEGRAM_CHAT_ID") in
  let cfg timeout :=
    {| listenAddr := listen; webhookToken := webhook; telegramBotToken := bot;
       telegramChatID := chat; telegramBaseURL := base;
       cfgRequestTimeout := timeout |} in
  if isEmpty webhook then inr ErrWebhookTokenRequired
  else if isEmpty bot then inr ErrBotTokenRequired
  else if isEmpty chat then inr ErrChatIDRequired
  else
    let timeoutStr := TrimSpace (Getenv env "REQUEST_TIMEOUT") in
    if isEmpty timeoutStr then inl (cfg defaultRequestTimeout)
    else
      match parseDuration timeoutStr with
      | None => inr ErrInvalidTimeout
      | Some timeout =>
          if timeout <=? 0 then inr ErrTimeoutNotPositive else inl (cfg timeout)
      end.

(** The value [loadDotEnv] gives to [os.Setenv]: the text after the
    separator, unquoted when it is quoted and [strconv.Unquote] accepts it. *)
Definition dotEnvValue (value : string) : string :=
  if (1 <? String.length value)%nat
     && ((HasPrefix value dquote && HasSuffix value dquote)
         || (HasPrefix value "'" && HasSuffix value "'"))
  then match unquote value with
       | Some unquoted => unquoted
       | None => value
       end
  else value.

(** The name and the value one line of the file asks for, [None] for a line
    the loop of [loadDotEnv] skips before it looks at the environment. *)
Definition dotEnvLine (text : string) : option (string * string) :=
  let line := TrimSpace text in
  if isEmpty line || HasPrefix line "#" then None
  else
    let line := if HasPrefix line "export " then TrimSpace (strDrop 7 line) else line in
    match indexByte "=" line with
    | None => None
    | Some sep =>
        let key := TrimSpace (strTake sep line) in
        if isEmpty key then None
        else Some (key, dotEnvValue (TrimSpace (strDrop (S sep) line)))
    end.

(** The scanning loop of [loadDotEnv]: the environment it leaves and the
    error that stopped it, if one did. *)
Fixpoint loadLines (lines : list string) (env : gmap string string)
  : gmap string string * option dotEnvError :=
  match lines with
  | [] => (env, None)
  | text :: rest =>
      match dotEnvLine text with
      | None => loadLines rest env
      | Some (key, value) =>
          match env !! key with
          | Some _ => loadLines rest env
          | None =>
              if setenvOK key value then loadLines rest (<[key := value]> env)
              else (env, Some (ErrSet key))
          end
      end
  end.

Definition loadDotEnv (file : dotEnvFile) (env : gmap string string)
  : gmap string string * option dotEnvError :=
  match file with
  | FileNotExist => (env, None)
  | FileOpenFails => (env, Some ErrOpen)
  | FileLines lines scanFails =>
      let loaded := loadLines lines env in
      match loaded.2 with
      | Some e => loaded
      | None => if scanFails then (loaded.1, Some ErrRead) else loaded
      end
  end.

(** The client [main] builds from the configuration. *)
Definition newClient (cfg : config) : telegramClient :=
  {| baseURL := TrimSuffix (telegramBaseURL cfg) "/";
     botToken := telegramBotToken cfg;
     chatID := telegramChatID cfg;
     requestTimeout := cfgRequestTimeout cfg |}.

(** [main] up to the point where it serves: the warning logged for the
    file, and the configuration and client the handler is built from, or
    the configuration error the process dies of. *)
Definition startup (file : dotEnvFile) (env : gmap string string)
  : option dotEnvError * (config * telegramClient + configError) :=
  let loaded := loadDotEnv file env in
  (loaded.2,
   match loadConfig loaded.1 with
   | inl cfg => inl (cfg, newClient cfg)
   | inr e => inr e
   end).
End Startup.

(** * Vocabulary of the properties *)

(** A byte that no trimming removes: ASCII and not white space. *)
Definition keeper (c : ascii) : bool := isASCIIByte c && negb (Ascii.is_space c).

(** A byte that can be part of a white-space rune. *)
Definition spaceByte (c : ascii) : bool := Ascii.is_space c || (128 <=? byteval c)%N.

(** The first byte of a white-space rune of two or three bytes. *)
Definition spaceLead (c : ascii) : bool :=
  (byteval c =? 194)%N || (byteval c =? 225)%N || (byteval c =? 226)%N
  || (byteval c =? 227)%N.

(** No white-space rune starts [s]: [trimLeft] has nothing to drop. *)
Definition stuck (s : string) : bool :=
  match s with
  | EmptyString => true
  | String a s1 =>
      negb (Ascii.is_space a)
      && match s1 with
         | EmptyString => true
         | String b s2 =>
             negb (isSpace2 a b)
             && match s2 with
                | EmptyString => true
                | String c _ => negb (isSpace3 a b c)
                end
         end
  end.

(** A white-space rune ends [s]. *)
Definition endsInSpace (s : string) : Prop :=
  exists p r, s = p +:+ r /\ isSpaceRune r = true.

Fixpoint strCount (p : ascii -> bool) (s : string) : nat :=
  match s with
  | EmptyString => 0
  | String c r => (if p c then 1 else 0) + strCount p r
  end.

(** The characters of a text in UTF-8: the bytes that continue no
    character ([utf8.RuneCountInString] on well-formed text). *)
Definition isContinuation (c : ascii) : bool :=
  (128 <=? byteval c)%N && (byteval c <? 192)%N.

Definition runeCount (s : string) : nat := strCount (fun c => negb (isContinuation c)) s.

(** One line the composer may write: its label, the value extracted for it
    (the line is written when it is not empty) and the text shown after the
    label. *)
Record line := {
  label : string;
  value : string;
  shown : string
}.

Definition plainLine (l v : string) : line := {| label := l; value := v; shown := v |}.

Definition present (f : line) : bool := negb (isEmpty (value f)).

Definition lineText (f : line) : string := label f +:+ shown f +:+ nl.

(** The lines, written one after the other as the builder does. *)
Definition linesText (ls : list line) : string :=
  fold_left (fun builder f => builder +:+ lineText f) ls EmptyString.

(** The heads of the six labels: the label without the blank that ends it. *)
Definition labelHeads : list string :=
  ["Monitor:"; "Status:"; "Reason:"; "URL:"; "Time:"; "Ping:"].

Definition isDigit (c : ascii) : bool := (48 <=? byteval c)%N && (byteval c <=? 57)%N.

(** The decimal point and the exponent marks of a number's text. *)
Definition isNumberMark (c : ascii) : bool :=
  Ascii.eqb c "." || Ascii.eqb c "e" || Ascii.eqb c "E".

(** A number written as an integer: digits, after an optional minus sign. *)
Definition integerLiteral (lit : string) : bool :=
  match lit with
  | String "-" r => negb (isEmpty r) && strAll isDigit r
  | _ => negb (isEmpty lit) && strAll isDigit lit
  end.

Definition digitValue (c : ascii) : Z := Z.of_N (byteval c) - 48.

(** The digits at the front of [s], read after [acc]: their value, how many
    they are, and what follows them. *)
Fixpoint readDigits (s : string) (acc : Z) (count : nat) : Z * nat * string :=
  match s with
  | EmptyString => (acc, count, s)
  | String c r =>
      if isDigit c then readDigits r (10 * acc + digitValue c) (S count)
      else (acc, count, s)
  end.

(** The value of a JSON number literal (minus sign, digits, optional
    fraction, optional exponent) as a pair [(m, e)] standing for
    [m * 10^e]; [None] when the text is no such literal. *)
Definition numberLiteralValue (lit : string) : option (Z * Z) :=
  let '(negative, s) :=
    match lit with
    | String "-" r => (true, r)
    | _ => (false, lit)
    end in
  let '(whole, n1, s1) := readDigits s 0 0 in
  let '(mant, n2, s2) :=
    match s1 with
    | String "." r => readDigits r whole 0
    | _ => (whole, 0%nat, s1)
    end in
  let fractionOK :=
    match s1 with
    | String "." _ => negb (n2 =? 0)%nat
    | _ => true
    end in
  let '(expo, exponentOK, s3) :=
    match s2 with
    | String c r =>
        if Ascii.eqb c "e" || Ascii.eqb c "E" then
          let '(eneg, r1) :=
            match r with
            | String "-" r' => (true, r')
            | String "+" r' => (false, r')
            | _ => (false, r)
            end in
          let '(e, n3, r2) := readDigits r1 0 0 in
          ((if eneg : bool then - e else e), negb (n3 =? 0)%nat, r2)
        else (0, true, s2)
    | EmptyString => (0, true, s2)
    end in
  if negb (n1 =? 0)%nat && fractionOK && exponentOK && isEmpty s3
  then Some ((if negative : bool then - mant else mant), expo - Z.of_nat n2)
  else None.

(** The integer a number literal denotes, when it denotes one. *)
Definition wholeNumber (lit : string) : option Z :=
  match numberLiteralValue lit with
  | Some (m, e) =>
      if 0 <=? e then Some (m * 10 ^ e)
      else if m mod 10 ^ (- e) =? 0 then Some (m / 10 ^ (- e))
      else None
  | None => None
  end.

Definition accepted : response :=
  {| Status := StatusAccepted;
     RespHeader := <["Content-Type" := "application/json"]> ∅;
     RespBody := okBody |}.

(** The last step of the handler: the outcome of the dispatch mapped to the
    response, after the lines [logs] logged so far. *)
Definition respond (logs : list logEntry) (sent : option sendError * list httpRequest)
  : outcome :=
  match sent.1 with
  | Some e =>
      {| resp := httpError ∅ "failed to forward notification" StatusBadGateway;
         logged := logs ++ [LogSendFailed e];
         calls := sent.2 |}
  | None => {| resp := accepted; logged := logs; calls := sent.2 |}
  end.

(** The payload the composer receives: the decoded one, or the empty map
    the handler starts from when decoding fails. *)
Definition decodedPayload `{Runtime} (body : string) : gomap * list logEntry :=
  match jsonDecode body with
  | Some p => (p, [])
  | None => (Some ∅, [LogInvalidJSON])
  end.

(** Every special byte of [s] stands right after a backslash; [prev] tells
    whether the byte before [s] is one. *)
Fixpoint escapedFrom (prev : bool) (s : string) : bool :=
  match s with
  | EmptyString => true
  | String c r =>
      (negb (MarkdownV2.isSpecial c) || prev)
      && escapedFrom (Ascii.eqb c MarkdownV2.backslash) r
  end.

Definition escaped (s : string) : bool := escapedFrom false s.

(** The text with the backslash before each special byte taken away. *)
Fixpoint unescapeMarkdown (s : string) : string :=
  match s with
  | EmptyString => EmptyString
  | String c r =>
      if Ascii.eqb c MarkdownV2.backslash then
        match r with
        | String d r' =>
            if MarkdownV2.isSpecial d then String d (unescapeMarkdown r')
            else String c (unescapeMarkdown r)
        | EmptyString => String c EmptyString
        end
      else String c (unescapeMarkdown r)
  end.

(** One decorated line of the MarkdownV2 composer: what is written before
    the value, the value extracted, its escaped text, what is written
    after. *)
Record segment := {
  segPre : string;
  segValue : string;
  segShown : string;
  segPost : string
}.

Definition segmentText (g : segment) : string :=
  segPre g +:+ segShown g +:+ segPost g.

Definition segmentPresent (g : segment) : bool := negb (isEmpty (segValue g)).

Definition segmentsText (start : string) (gs : list segment) : string :=
  fold_left (fun builder g => builder +:+ segmentText g) gs start.

Definition escapedSegment (pre v post : string) : segment :=
  {| segPre := pre; segValue := v; segShown := MarkdownV2.escapeMarkdown v;
     segPost := post |}.

(** The five markers of the status line. *)
Definition statusMarkers : list string := ["✅"; "❌"; "🔧"; "⏳"; "ℹ️"].

Section Places.
Context `{UnicodeTables}.

(** The six places of [buildTelegramMessage], in the order of the code. *)
Definition fieldSlots (payload : gomap) : list line :=
  let status := stringFromMap payload "status" in
  let reason := stringFromMap payload "incidentReason" in
  let reason := if isEmpty reason then stringFromMap payload "msg" else reason in
  [ plainLine "Monitor: " (nestedString payload ["monitor"; "name"]);
    {| label := "Status: "; value := status; shown := ToUpper status |};
    plainLine "Reason: " reason;
    plainLine "URL: " (nestedString payload ["monitor"; "url"]);
    plainLine "Time: " (stringFromMap payload "time");
    plainLine "Ping: " (stringFromMap payload "ping") ].

Definition presentLines (payload : gomap) : list line :=
  List.filter present (fieldSlots payload).

Definition statusSegment (status : string) : segment :=
  {| segPre := MarkdownV2.statusEmoji (ToLower status) +:+ " *状态*: *";
     segValue := status;
     segShown := MarkdownV2.escapeMarkdown (ToUpper status);
     segPost := "*" +:+ nl |}.

(** The six places of the MarkdownV2 [buildTelegramMessage], in the order
    of the code. *)
Definition segmentSlots (payload : gomap) : list segment :=
  let msg := stringFromMap payload "msg" in
  let reason := stringFromMap payload "incidentReason" in
  let reason := if isEmpty reason then msg else reason in
  [ escapedSegment "📊 *监控名称*: `" (nestedString payload ["monitor"; "name"])
                   ("`" +:+ nl);
    statusSegment (stringFromMap payload "status");
    escapedSegment "❗ *原因*: " reason nl;
    escapedSegment "🔗 *监控地址*: " (nestedString payload ["monitor"; "url"]) nl;
    escapedSegment "🕐 *时间*: `" (stringFromMap payload "time") ("`" +:+ nl);
    escapedSegment "⚡ *响应时间*: `" (stringFromMap payload "ping") (" ms`" +:+ nl) ].

Definition presentSegments (payload : gomap) : list segment :=
  List.filter segmentPresent (segmentSlots payload).
End Places.

(** ** Vocabulary of the further properties *)

(** The path [keys] leads from the value [from] to the value [to]: each key
    is looked up in a map that holds it. *)
Inductive reaches : any -> list string -> any -> Prop :=
| reaches_here v : reaches v [] v
| reaches_step (g : gmap string any) key v rest w :
    g !! key = Some v -> reaches v rest w ->
    reaches (Map (Some g)) (key :: rest) w.

(** The endpoint and the request of [sendMessage]. *)
Definition endpointOf (c : telegramClient) : string :=
  baseURL c +:+ "/bot" +:+ botToken c +:+ "/sendMessage".

Definition telegramRequest (c : telegramClient) (text : string) : httpRequest :=
  {| reqMethod := "POST";
     reqURL := endpointOf c;
     reqHeader := <["Content-Type" := "application/json"]> ∅;
     reqBody := <["chat_id" := Str (chatID c)]>
                  (<["text" := Str text]>
                     (<["disable_web_page_preview" := Bool true]> ∅)) |}.

(** The six variables [loadConfig] reads. *)
Definition configKeys : list string :=
  ["LISTEN_ADDR"; "TELEGRAM_API_BASE_URL"; "WEBHOOK_AUTH_TOKEN";
   "TELEGRAM_BOT_TOKEN"; "TELEGRAM_CHAT_ID"; "REQUEST_TIMEOUT"].

(** A variable that is set to more than white space. *)
Definition setAndNotBlank (env : gmap string string) (key : string) : Prop :=
  exists v, env !! key = Some v /\ ~ spaceOnly v.

(** The text the MarkdownV2 composer writes after its test [text == ""]. *)
Definition emptyPayloadTemplate (raw : string) : string :=
  "📋 *Uptime Kuma 通知*" +:+ nl +:+ nl +:+ MarkdownV2.rawSection
  +:+ fallbackRaw raw +:+ nl +:+ "```".

Section Assignments.
Context `{Platform}.

(** The value that the first line of [lines] naming [key] asks for. *)
Fixpoint firstAssignment (key : string) (lines : list string) : option string :=
  match lines with
  | [] => None
  | text :: rest =>
      match dotEnvLine text with
      | Some (k, v) => if String.eqb k key then Some v else firstAssignment key rest
      | None => firstAssignment key rest
      end
  end.
End Assignments.

(** ** Concrete runtimes and requests for the examples *)

(** Case tables for the examples, which extract ASCII text only: the
    tables are consulted on no string of theirs. *)
Definition asciiTables : UnicodeTables := {| mapToUpper := id; mapToLower := id |}.

(** The body of the README's smoke test. *)
Definition demoBody : string :=
  "{" +:+ dquote +:+ "monitor" +:+ dquote +:+ ":{" +:+ dquote +:+ "name" +:+ dquote
  +:+ ":" +:+ dquote +:+ "Demo" +:+ dquote +:+ "}," +:+ dquote +:+ "status" +:+ dquote
  +:+ ":" +:+ dquote +:+ "up" +:+ dquote +:+ "," +:+ dquote +:+ "msg" +:+ dquote
  +:+ ":" +:+ dquote +:+ "All good" +:+ dquote +:+ "}".

Definition demoPayload : gomap :=
  Some (<["monitor" := Map (Some (<["name" := Str "Demo"]> ∅))]>
          (<["status" := Str "up"]> (<["msg" := Str "All good"]> ∅))).

(** A decoder that knows the smoke-test body and fails on every other one,
    as [encoding/json] does on the bodies of the examples (white space, or a
    run of the letter a). *)
Definition demoDecode (body : string) : option gomap :=
  if String.eqb body demoBody then Some demoPayload else None.

(** A provider that answers every request with [status] and [body]. *)
Definition provider (status : Z) (body : string) (ok : bool) : Runtime :=
  {| jsonDecode := demoDecode;
     newRequestOK := fun _ => true;
     httpDo := fun _ => Some {| StatusCode := status; respBody := body |};
     decodeAPIResponse := fun _ => Some (ok, EmptyString) |}.

Definition providerOK : Runtime := provider 200 okBody true.
Definition provider500 : Runtime := provider 500 "Internal Server Error" false.

Definition demoConfig : config :=
  {| listenAddr := ":8080"; webhookToken := "tkn"; telegramBotToken := "123:abc";
     telegramChatID := "42"; telegramBaseURL := "https://api.telegram.org";
     cfgRequestTimeout := 10000000000 |}.

Definition demoClient : telegramClient :=
  {| baseURL := "https://api.telegram.org"; botToken := "123:abc"; chatID := "42";
     requestTimeout := 10000000000 |}.

Definition postRequest (auth : option string) (body : string) : request :=
  {| Method := "POST";
     Header := match auth with
               | Some a => <["Authorization" := a]> ∅
               | None => ∅
               end;
     Body := body;
     BodyFails := false;
     FailsWithData := false |}.

(** Tab, line feed, space and a no-break space (U+00A0). *)
Definition blanks : string :=
  String "009" (String "010" (String " " (String "194" (String "160" EmptyString)))).

(** A body of one byte more than the cap. *)
Definition oversizedBody : string :=
  String.concat EmptyString (repeat "a" (Z.to_nat (maxPayloadBytes + 1))).

Definition oversizedRequest : request := postRequest (Some "Bearer tkn") oversizedBody.

(** An authenticated POST whose body is exactly as long as the cap and ends
    in a read error, returned with the last bytes or after them. *)
Definition cappedRequest (withData : bool) : request :=
  {| Method := "POST";
     Header := <["Authorization" := "Bearer tkn"]> ∅;
     Body := strTake (Z.to_nat maxPayloadBytes) oversizedBody;
     BodyFails := true;
     FailsWithData := withData |}.

(** A platform for the examples.  Durations are written as a number of
    seconds followed by the letter s, and [os.Setenv] accepts every name and
    value.  [strconv.Unquote] is given on the quoted texts whose content is
    plain, that is ASCII with no backslash, no line feed and no quote of the
    same kind: in double quotes such a text is its content; in single
    quotes it is a rune literal, which Go refuses when the content is more
    than one rune, so [demoUnquote] refuses a content of two bytes or more.
    On other texts (escapes, back quotes, runes of several bytes) Go may
    accept where this stand-in refuses; no example uses one. *)
Definition demoParseDuration (text : string) : option Z :=
  match readDigits text 0 0 with
  | (n, S _, "s") => Some (n * 1000000000)
  | _ => None
  end.

Definition plainContent (quote : ascii) (s : string) : bool :=
  strAll (fun c => isASCIIByte c && negb (Ascii.eqb c "\") && negb (Ascii.eqb c "010")
                   && negb (Ascii.eqb c quote)) s.

Definition demoUnquote (text : string) : option string :=
  match text with
  | String quote rest =>
      let content := strTake (String.length rest - 1) rest in
      if HasSuffix rest (String quote EmptyString) && plainContent quote content then
        if Ascii.eqb quote "034" then Some content
        else if Ascii.eqb quote "'" && (String.length content <=? 1)%nat then Some content
        else None
      else None
  | EmptyString => None
  end.

Definition demoPlatform : Platform :=
  {| parseDuration := demoParseDuration;
     unquote := demoUnquote;
     setenvOK := fun _ _ => true |}.

(** [strings.Repeat]. *)
Fixpoint strRepeat (n : nat) (s : string) : string :=
  match n with
  | O => EmptyString
  | S k => s +:+ strRepeat k s
  end.

(** A message with white space on both sides. *)
Definition paddedPayload : gomap :=
  Some (<["msg" := Str (blanks +:+ "x y" +:+ blanks)]> ∅).

Definition demoEnv : gmap string string :=
  <["WEBHOOK_AUTH_TOKEN" := " tkn "]>
    (<["TELEGRAM_BOT_TOKEN" := "123:abc"]> (<["TELEGRAM_CHAT_ID" := "42"]> ∅)).

Definition demoDotEnv : dotEnvFile :=
  FileLines
    [ "# relay settings";
      "";
      "export WEBHOOK_AUTH_TOKEN=from-file";
      "REQUEST_TIMEOUT = 5s";
      "LISTEN_ADDR='0.0.0.0:9000'";
      "no separator here";
      "REQUEST_TIMEOUT=7s" ]
    false.

(** A platform whose [os.Setenv] refuses a NUL byte, as the system call
    does. *)
Definition nulPlatform : Platform :=
  {| parseDuration := demoParseDuration;
     unquote := demoUnquote;
     setenvOK := fun key value =>
       negb (strHas (Ascii.eqb Ascii.zero) key || strHas (Ascii.eqb Ascii.zero) value) |}.

(** * Properties *)

(** Case analysis on which of the six places an element of a list of six
    is. *)
Ltac each_place H :=
  simpl in H; destruct H as [<-|[<-|[<-|[<-|[<-|[<-|[]]]]]]].

(** ** Strings *)

Lemma isEmpty_true (s : string) : isEmpty s = true <-> s = EmptyString.
Proof. destruct s; simpl; split; congruence. Qed.

Lemma isEmpty_false (s : string) : isEmpty s = false <-> s <> EmptyString.
Proof. destruct s; simpl; split; congruence. Qed.

Lemma app_cons_str (c : ascii) (s t : string) :
  String c s +:+ t = String c (s +:+ t).
Proof. reflexivity. Qed.

Lemma app_nil_str (t : string) : EmptyString +:+ t = t.
Proof. reflexivity. Qed.

Lemma app_empty_r (s : string) : s +:+ EmptyString = s.
Proof.
  induction s as [|c s IH]; [reflexivity|].
  now rewrite app_cons_str, IH.
Qed.

Lemma app_assoc_str (a b c : string) : (a +:+ b) +:+ c = a +:+ (b +:+ c).
Proof.
  induction a as [|x a IH]; [reflexivity|].
  now rewrite !app_cons_str, IH.
Qed.

Lemma app_length_str (a b : string) :
  String.length (a +:+ b) = (String.length a + String.length b)%nat.
Proof.
  induction a as [|x a IH]; [reflexivity|].
  rewrite app_cons_str. simpl. now rewrite IH.
Qed.

Lemma strAll_app (p : ascii -> bool) (a b : string) :
  strAll p (a +:+ b) = strAll p a && strAll p b.
Proof.
  induction a as [|x a IH]; [reflexivity|].
  rewrite app_cons_str. simpl. rewrite IH. now rewrite andb_assoc.
Qed.

Lemma strHas_app (p : ascii -> bool) (a b : string) :
  strHas p (a +:+ b) = strHas p a || strHas p b.
Proof.
  induction a as [|x a IH]; [reflexivity|].
  rewrite app_cons_str. simpl. rewrite IH. now rewrite orb_assoc.
Qed.

Lemma strTake_length (n : nat) (s : string) :
  (n <= String.length s)%nat -> String.length (strTake n s) = n.
Proof.
  revert s. induction n as [|n IH]; intros s Hn; [reflexivity|].
  destruct s as [|c s]; simpl in *; [lia|].
  rewrite IH; [reflexivity | lia].
Qed.

Lemma strTake_length_le (n : nat) (s : string) :
  (String.length (strTake n s) <= n)%nat.
Proof.
  revert s. induction n as [|n IH]; intros s; [simpl; lia|].
  destruct s as [|c s]; simpl; [lia|]. specialize (IH s). lia.
Qed.

Lemma strTake_all (n : nat) (s : string) :
  (String.length s <= n)%nat -> strTake n s = s.
Proof.
  revert s. induction n as [|n IH]; intros s Hn.
  - destruct s; simpl in *; [reflexivity | lia].
  - destruct s as [|c s]; simpl in *; [reflexivity|].
    rewrite IH; [reflexivity | lia].
Qed.

Lemma strTake_idem (n : nat) (s : string) : strTake n (strTake n s) = strTake n s.
Proof. apply strTake_all, strTake_length_le. Qed.

Lemma strTake_strDrop (n : nat) (s : string) : strTake n s +:+ strDrop n s = s.
Proof.
  revert s. induction n as [|n IH]; intros s; [now destruct s|].
  destruct s as [|c s]; [reflexivity|]. simpl. now rewrite app_cons_str, IH.
Qed.

Lemma strDrop_length (n : nat) (s : string) :
  String.length (strDrop n s) = (String.length s - n)%nat.
Proof.
  revert s. induction n as [|n IH]; intros s; [destruct s; simpl; lia|].
  destruct s as [|c s]; [reflexivity|]. simpl. apply IH.
Qed.

(** ** White space *)

Lemma keeper_not_spaceByte (c : ascii) : keeper c = true -> spaceByte c = false.
Proof.
  unfold keeper, spaceByte, isASCIIByte. intros Hk.
  apply andb_prop in Hk as [Hlt Hns].
  apply negb_true_iff in Hns. rewrite Hns. simpl.
  apply N.ltb_lt in Hlt. apply N.leb_gt. exact Hlt.
Qed.

Lemma byteval_inj (a : ascii) (n : N) : byteval a = n -> a = ascii_of_N n.
Proof. intros <-. unfold byteval. now rewrite ascii_N_embedding. Qed.

Lemma isSpace2_first (a b : ascii) :
  isSpace2 a b = true -> Ascii.is_space a = false /\ (128 <=? byteval a)%N = true.
Proof.
  unfold isSpace2. intros Hs. apply andb_prop in Hs as [Ha _].
  apply N.eqb_eq, byteval_inj in Ha. subst a. now vm_compute.
Qed.

Lemma isSpace2_second (a b : ascii) :
  isSpace2 a b = true -> (128 <=? byteval b)%N = true.
Proof.
  unfold isSpace2. intros Hs. apply andb_prop in Hs as [_ Hb].
  apply orb_prop in Hb as [Hb|Hb]; apply N.eqb_eq in Hb; rewrite Hb; reflexivity.
Qed.

Lemma isSpace3_first (a b c : ascii) :
  isSpace3 a b c = true ->
  Ascii.is_space a = false /\ (128 <=? byteval a)%N = true /\ isSpace2 a b = false.
Proof.
  unfold isSpace3, isSpace2. intros Hs.
  repeat (apply orb_prop in Hs as [Hs|Hs]);
    repeat (apply andb_prop in Hs as [Hs ?]);
    apply N.eqb_eq in Hs; pose proof (byteval_inj _ _ Hs) as ->;
    repeat split; reflexivity.
Qed.

Lemma isSpace3_rest (a b c : ascii) :
  isSpace3 a b c = true ->
  (128 <=? byteval b)%N = true /\ (128 <=? byteval c)%N = true.
Proof.
  unfold isSpace3. intros Hs.
  repeat (apply orb_prop in Hs as [Hs|Hs]);
    repeat (apply andb_prop in Hs as [Hs ?]);
    repeat match goal with
           | E : (_ =? _)%N = true |- _ => apply N.eqb_eq in E; rewrite E
           | E : (_ || _) = true |- _ => apply orb_prop in E as [E|E]
           | E : (_ && _) = true |- _ => apply andb_prop in E as [E ?]
           end;
    split; try reflexivity; assumption.
Qed.

Lemma isSpaceRune_spaceBytes (r : string) :
  isSpaceRune r = true -> strAll spaceByte r = true.
Proof.
  destruct r as [|a [|b [|c [|d r]]]]; simpl; try discriminate; intros Hr.
  - unfold spaceByte. now rewrite Hr.
  - destruct (isSpace2_first _ _ Hr) as [_ Ha].
    pose proof (isSpace2_second _ _ Hr) as Hb.
    unfold spaceByte. rewrite Ha, Hb, !orb_true_r. reflexivity.
  - destruct (isSpace3_first _ _ _ Hr) as (_ & Ha & _).
    destruct (isSpace3_rest _ _ _ Hr) as [Hb Hc].
    unfold spaceByte. rewrite Ha, Hb, Hc, !orb_true_r. reflexivity.
Qed.

Lemma keeper_no_rune (p : string) (c : ascii) (s : string) :
  keeper c = true -> isSpaceRune (p +:+ String c s) = false.
Proof.
  intros Hk. destruct (isSpaceRune (p +:+ String c s)) eqn:E; [|reflexivity].
  apply isSpaceRune_spaceBytes in E. rewrite strAll_app in E.
  apply andb_prop in E as [_ E]. simpl in E. apply andb_prop in E as [E _].
  rewrite (keeper_not_spaceByte _ Hk) in E. discriminate.
Qed.

Lemma keeper_head_no_rune (c : ascii) (s : string) :
  keeper c = true -> isSpaceRune (String c s) = false.
Proof. exact (keeper_no_rune EmptyString c s). Qed.

Lemma keeper_inside_no_rune (a : ascii) (p : string) (c : ascii) (s : string) :
  keeper c = true -> isSpaceRune (String a (p +:+ String c s)) = false.
Proof. exact (keeper_no_rune (String a p) c s). Qed.

Lemma trimLeft_cons (a : ascii) (s1 : string) :
  trimLeft (String a s1) =
  if Ascii.is_space a then trimLeft s1
  else match s1 with
       | EmptyString => String a s1
       | String b s2 =>
           if isSpace2 a b then trimLeft s2
           else match s2 with
                | EmptyString => String a s1
                | String c s3 => if isSpace3 a b c then trimLeft s3 else String a s1
                end
       end.
Proof. reflexivity. Qed.

Lemma trimRight_cons (a : ascii) (s1 : string) :
  trimRight (String a s1) =
  if isSpaceRune (String a (trimRight s1)) then EmptyString
  else String a (trimRight s1).
Proof. reflexivity. Qed.

Lemma trimLeft_rune (r s : string) :
  isSpaceRune r = true -> trimLeft (r +:+ s) = trimLeft s.
Proof.
  intros Hr. destruct r as [|a [|b [|c [|d r]]]]; simpl in Hr; try discriminate;
    rewrite ?app_cons_str, app_nil_str, trimLeft_cons.
  - now rewrite Hr.
  - destruct (isSpace2_first _ _ Hr) as [Ha _]. now rewrite Ha, Hr.
  - destruct (isSpace3_first _ _ _ Hr) as (Ha & _ & Hab). now rewrite Ha, Hab, Hr.
Qed.

Lemma trimLeft_spaceOnly (s : string) : spaceOnly s -> trimLeft s = EmptyString.
Proof.
  induction 1 as [|r s Hr _ IH]; [reflexivity|].
  now rewrite trimLeft_rune.
Qed.

(** White space only is trimmed to nothing. *)
Lemma TrimSpace_spaceOnly (s : string) : spaceOnly s -> TrimSpace s = EmptyString.
Proof. intros Hs. unfold TrimSpace. now rewrite trimLeft_spaceOnly. Qed.

Lemma trimLeft_keeper (c : ascii) (s : string) :
  keeper c = true -> trimLeft (String c s) = String c s.
Proof.
  intros Hk. pose proof (keeper_not_spaceByte _ Hk) as Hsb.
  unfold spaceByte in Hsb. apply orb_false_elim in Hsb as [Hs Hhi].
  rewrite trimLeft_cons, Hs.
  destruct s as [|b s2]; [reflexivity|].
  destruct (isSpace2 c b) eqn:E2.
  { destruct (isSpace2_first _ _ E2) as [_ Hc]. congruence. }
  destruct s2 as [|d s3]; [reflexivity|].
  destruct (isSpace3 c b d) eqn:E3; [|reflexivity].
  destruct (isSpace3_first _ _ _ E3) as (_ & Hc & _). congruence.
Qed.

(** Trimming from the right stops at the last keeper at the latest. *)
Lemma trimRight_keeps (p : string) (c : ascii) (s : string) :
  keeper c = true -> exists t, trimRight (p +:+ String c s) = p +:+ String c t.
Proof.
  intros Hk. induction p as [|a p [t Ht]].
  - rewrite app_nil_str, trimRight_cons.
    rewrite (keeper_head_no_rune c _ Hk). now exists (trimRight s).
  - rewrite app_cons_str, trimRight_cons, Ht.
    rewrite (keeper_inside_no_rune a p c t Hk). now exists t.
Qed.

Lemma TrimSpace_keeps (c : ascii) (p : string) (d : ascii) (s : string) :
  keeper c = true -> keeper d = true ->
  exists t, TrimSpace (String c (p +:+ String d s)) = String c (p +:+ String d t).
Proof.
  intros Hc Hd. unfold TrimSpace. rewrite (trimLeft_keeper _ _ Hc).
  exact (trimRight_keeps (String c p) d s Hd).
Qed.

Lemma TrimSpace_keeper_head (c : ascii) (s : string) :
  keeper c = true -> exists t, TrimSpace (String c s) = String c t.
Proof.
  intros Hc. unfold TrimSpace. rewrite (trimLeft_keeper _ _ Hc).
  exact (trimRight_keeps EmptyString c s Hc).
Qed.

Lemma trimRight_keepers (s : string) : strAll keeper s = true -> trimRight s = s.
Proof.
  induction s as [|a s IH]; [reflexivity|]. simpl strAll. intros Hs.
  apply andb_prop in Hs as [Ha Hs].
  rewrite trimRight_cons, (IH Hs).
  now rewrite (keeper_head_no_rune a s Ha).
Qed.

Lemma TrimSpace_keepers (s : string) : strAll keeper s = true -> TrimSpace s = s.
Proof.
  intros Hs. unfold TrimSpace. destruct s as [|a s]; [reflexivity|].
  pose proof Hs as Hs'. simpl in Hs'. apply andb_prop in Hs' as [Ha _].
  rewrite (trimLeft_keeper _ _ Ha). now apply trimRight_keepers.
Qed.

Lemma spaceOnly_app (u v : string) : spaceOnly u -> spaceOnly v -> spaceOnly (u +:+ v).
Proof.
  induction 1 as [|r s Hr _ IH]; intros Hv; [exact Hv|].
  rewrite app_assoc_str. constructor; auto.
Qed.

Lemma trimRight_split (s : string) :
  exists w, spaceOnly w /\ s = trimRight s +:+ w.
Proof.
  induction s as [|a s (w & Hw & Hs)].
  - exists EmptyString. split; [constructor | reflexivity].
  - rewrite trimRight_cons.
    destruct (isSpaceRune (String a (trimRight s))) eqn:E.
    + exists (String a (trimRight s) +:+ w). split.
      * now constructor.
      * rewrite app_cons_str, app_nil_str. now rewrite <- Hs.
    + exists w. split; [exact Hw|]. rewrite app_cons_str. now rewrite <- Hs.
Qed.

Lemma trimLeft_split_upto (n : nat) (s : string) :
  (String.length s <= n)%nat -> exists w, spaceOnly w /\ s = w +:+ trimLeft s.
Proof.
  revert s. induction n as [|n IH]; intros s Hn.
  { destruct s; simpl in Hn; [|lia]. exists EmptyString. split; [constructor|reflexivity]. }
  destruct s as [|a s1].
  { exists EmptyString. split; [constructor|reflexivity]. }
  simpl in Hn. rewrite trimLeft_cons.
  destruct (Ascii.is_space a) eqn:Ea.
  { destruct (IH s1) as (w & Hw & Hs); [lia|].
    exists (String a EmptyString +:+ w). split; [now constructor|].
    exact (f_equal (String a) Hs). }
  destruct s1 as [|b s2].
  { exists EmptyString. split; [constructor|reflexivity]. }
  simpl in Hn. destruct (isSpace2 a b) eqn:Eb.
  { destruct (IH s2) as (w & Hw & Hs); [lia|].
    exists (String a (String b EmptyString) +:+ w). split; [now constructor|].
    exact (f_equal (fun x => String a (String b x)) Hs). }
  destruct s2 as [|c s3].
  { exists EmptyString. split; [constructor|reflexivity]. }
  simpl in Hn. destruct (isSpace3 a b c) eqn:Ec.
  { destruct (IH s3) as (w & Hw & Hs); [lia|].
    exists (String a (String b (String c EmptyString)) +:+ w). split; [now constructor|].
    exact (f_equal (fun x => String a (String b (String c x))) Hs). }
  exists EmptyString. split; [constructor|reflexivity].
Qed.

(** [TrimSpace] returns nothing exactly on white space. *)
Lemma TrimSpace_empty_iff (s : string) : TrimSpace s = EmptyString <-> spaceOnly s.
Proof.
  split; [|apply TrimSpace_spaceOnly].
  unfold TrimSpace. intros Ht.
  destruct (trimLeft_split_upto (String.length s) s) as (w1 & Hw1 & Hs); [lia|].
  destruct (trimRight_split (trimLeft s)) as (w2 & Hw2 & Hr).
  rewrite Ht, app_nil_str in Hr. rewrite Hs, Hr. now apply spaceOnly_app.
Qed.

(** Trimming removes white space, at the two ends, and nothing else. *)
Lemma TrimSpace_split (s : string) :
  exists w1 w2, spaceOnly w1 /\ spaceOnly w2 /\ s = w1 +:+ TrimSpace s +:+ w2.
Proof.
  destruct (trimLeft_split_upto (String.length s) s) as (w1 & Hw1 & Hs); [lia|].
  destruct (trimRight_split (trimLeft s)) as (w2 & Hw2 & Hr).
  exists w1, w2. split; [exact Hw1|]. split; [exact Hw2|].
  unfold TrimSpace. now rewrite <- Hr.
Qed.

Lemma isSpace2_lead (a b : ascii) : isSpace2 a b = true -> spaceLead a = true.
Proof.
  unfold isSpace2, spaceLead. intros Hs. apply andb_prop in Hs as [-> _]. reflexivity.
Qed.

Lemma isSpace3_lead (a b c : ascii) : isSpace3 a b c = true -> spaceLead a = true.
Proof.
  unfold isSpace3, spaceLead. intros Hs.
  repeat (apply orb_prop in Hs as [Hs|Hs]);
    repeat (apply andb_prop in Hs as [Hs ?]);
    rewrite Hs; rewrite ?orb_true_r; reflexivity.
Qed.

(** A first byte that is no white space and starts no white-space rune
    stays where it is. *)
Lemma TrimSpace_head (c : ascii) (s : string) :
  Ascii.is_space c = false -> spaceLead c = false ->
  exists t, TrimSpace (String c s) = String c t.
Proof.
  intros Hs Hl.
  assert (Hleft : trimLeft (String c s) = String c s).
  { rewrite trimLeft_cons, Hs. destruct s as [|b s2]; [reflexivity|].
    destruct (isSpace2 c b) eqn:E2.
    { apply isSpace2_lead in E2. congruence. }
    destruct s2 as [|d s3]; [reflexivity|].
    destruct (isSpace3 c b d) eqn:E3; [|reflexivity].
    apply isSpace3_lead in E3. congruence. }
  unfold TrimSpace. rewrite Hleft, trimRight_cons.
  assert (Hrune : isSpaceRune (String c (trimRight s)) = false).
  { destruct (trimRight s) as [|b [|d [|e r]]]; simpl; [exact Hs| | |reflexivity].
    - destruct (isSpace2 c b) eqn:E2; [|reflexivity].
      apply isSpace2_lead in E2. congruence.
    - destruct (isSpace3 c b d) eqn:E3; [|reflexivity].
      apply isSpace3_lead in E3. congruence. }
  rewrite Hrune. now exists (trimRight s).
Qed.

Lemma TrimSpace_head_keeps (c : ascii) (p : string) (d : ascii) (s : string) :
  Ascii.is_space c = false -> spaceLead c = false -> keeper d = true ->
  exists t, TrimSpace (String c (p +:+ String d s)) = String c (p +:+ String d t).
Proof.
  intros Hs Hl Hd.
  destruct (TrimSpace_head c (p +:+ String d s) Hs Hl) as [t0 Ht0].
  unfold TrimSpace in *.
  assert (Hleft : trimLeft (String c (p +:+ String d s)) = String c (p +:+ String d s)).
  { rewrite trimLeft_cons, Hs. destruct (p +:+ String d s) as [|b s2]; [reflexivity|].
    destruct (isSpace2 c b) eqn:E2.
    { apply isSpace2_lead in E2. congruence. }
    destruct s2 as [|e s3]; [reflexivity|].
    destruct (isSpace3 c b e) eqn:E3; [|reflexivity].
    apply isSpace3_lead in E3. congruence. }
  rewrite Hleft. exact (trimRight_keeps (String c p) d s Hd).
Qed.

Lemma trimLeft_length (s : string) :
  (String.length (trimLeft s) <= String.length s)%nat.
Proof.
  destruct (trimLeft_split_upto (String.length s) s) as (w & _ & Hs); [lia|].
  rewrite Hs at 2. rewrite app_length_str. lia.
Qed.

Lemma trimRight_length (s : string) :
  (String.length (trimRight s) <= String.length s)%nat.
Proof.
  destruct (trimRight_split s) as (w & _ & Hs).
  rewrite Hs at 2. rewrite app_length_str. lia.
Qed.

Lemma TrimSpace_length (s : string) :
  (String.length (TrimSpace s) <= String.length s)%nat.
Proof.
  unfold TrimSpace. pose proof (trimRight_length (trimLeft s)).
  pose proof (trimLeft_length s). lia.
Qed.

Lemma stuck_fixed (s : string) : stuck s = true -> trimLeft s = s.
Proof.
  destruct s as [|a [|b [|c s3]]]; [reflexivity|..]; simpl stuck; intros Hs;
    rewrite trimLeft_cons.
  - rewrite andb_true_r in Hs. apply negb_true_iff in Hs. now rewrite Hs.
  - apply andb_prop in Hs as [Ha Hb]. rewrite andb_true_r in Hb.
    apply negb_true_iff in Ha, Hb. now rewrite Ha, Hb.
  - apply andb_prop in Hs as [Ha Hs]. apply andb_prop in Hs as [Hb Hc].
    apply negb_true_iff in Ha, Hb, Hc. now rewrite Ha, Hb, Hc.
Qed.

Lemma trimLeft_stuck_upto (n : nat) (s : string) :
  (String.length s <= n)%nat -> stuck (trimLeft s) = true.
Proof.
  revert s. induction n as [|n IH]; intros s Hn.
  { destruct s; simpl in Hn; [reflexivity | lia]. }
  destruct s as [|a s1]; [reflexivity|].
  simpl in Hn. rewrite trimLeft_cons.
  destruct (Ascii.is_space a) eqn:Ea; [apply IH; lia|].
  destruct s1 as [|b s2]; [simpl; now rewrite Ea|].
  simpl in Hn. destruct (isSpace2 a b) eqn:Eb; [apply IH; lia|].
  destruct s2 as [|c s3]; [simpl; now rewrite Ea, Eb|].
  simpl in Hn. destruct (isSpace3 a b c) eqn:Ec; [apply IH; lia|].
  simpl. now rewrite Ea, Eb, Ec.
Qed.

Lemma trimLeft_stuck (s : string) : stuck (trimLeft s) = true.
Proof. apply (trimLeft_stuck_upto (String.length s)). lia. Qed.

Lemma stuck_prefix (r w : string) : stuck (r +:+ w) = true -> stuck r = true.
Proof.
  destruct r as [|a [|b [|c r3]]]; [reflexivity|..];
    rewrite ?app_cons_str, ?app_nil_str; simpl stuck; intros Hs.
  - apply andb_prop in Hs as [-> _]. reflexivity.
  - apply andb_prop in Hs as [-> Hs]. simpl.
    destruct w; [exact Hs|]. apply andb_prop in Hs as [-> _]. reflexivity.
  - exact Hs.
Qed.

Lemma trimRight_idem (s : string) : trimRight (trimRight s) = trimRight s.
Proof.
  induction s as [|a s IH]; [reflexivity|].
  rewrite trimRight_cons.
  destruct (isSpaceRune (String a (trimRight s))) eqn:E; [reflexivity|].
  now rewrite trimRight_cons, IH, E.
Qed.

(** A trimmed text has nothing left to trim. *)
Lemma TrimSpace_idem (s : string) : TrimSpace (TrimSpace s) = TrimSpace s.
Proof.
  unfold TrimSpace.
  destruct (trimRight_split (trimLeft s)) as (w & _ & Hs).
  assert (Hst : stuck (trimRight (trimLeft s)) = true).
  { apply (stuck_prefix _ w). rewrite <- Hs. apply trimLeft_stuck. }
  rewrite (stuck_fixed _ Hst). apply trimRight_idem.
Qed.

Lemma TrimSpace_not_blank (s : string) :
  TrimSpace s <> EmptyString -> ~ spaceOnly (TrimSpace s).
Proof.
  intros Hne Hs. apply TrimSpace_empty_iff in Hs. rewrite TrimSpace_idem in Hs.
  contradiction.
Qed.

Lemma TrimSpace_strAll (p : ascii -> bool) (s : string) :
  strAll p s = true -> strAll p (TrimSpace s) = true.
Proof.
  destruct (TrimSpace_split s) as (w1 & w2 & _ & _ & Hs).
  intros Hp. rewrite Hs, !strAll_app in Hp.
  apply andb_prop in Hp as [_ Hp]. now apply andb_prop in Hp as [Hp _].
Qed.

Lemma TrimSpace_fixed (s : string) :
  stuck s = true -> trimRight s = s -> TrimSpace s = s.
Proof. intros Hl Hr. unfold TrimSpace. now rewrite (stuck_fixed s Hl). Qed.

Lemma TrimSpace_fixed_parts (s : string) :
  TrimSpace s = s -> stuck s = true /\ trimRight s = s.
Proof.
  intros Hs. split.
  - rewrite <- Hs. unfold TrimSpace.
    destruct (trimRight_split (trimLeft s)) as (w & _ & Hw).
    apply (stuck_prefix _ w). rewrite <- Hw. apply trimLeft_stuck.
  - rewrite <- Hs at 1. unfold TrimSpace. rewrite trimRight_idem. exact Hs.
Qed.

(** A text that [trimRight] leaves as it is ends in no white-space rune. *)
Lemma trimRight_fixed_end (s : string) :
  trimRight s = s -> ~ endsInSpace s.
Proof.
  intros Hs (p & r & Heq & Hr). subst s. induction p as [|a p IH].
  - rewrite app_nil_str in Hs. destruct r as [|a r]; [discriminate|].
    rewrite trimRight_cons in Hs.
    destruct (isSpaceRune (String a (trimRight r))) eqn:E; [discriminate|].
    injection Hs as Hs. rewrite Hs in E. congruence.
  - rewrite app_cons_str, trimRight_cons in Hs.
    destruct (isSpaceRune (String a (trimRight (p +:+ r)))); [discriminate|].
    injection Hs as Hs. exact (IH Hs).
Qed.

(** ** The lines of the composed text *)

Section Lines.
Context `{UnicodeTables}.

(** The builder holds exactly the lines of the places whose value is not
    empty. *)
Lemma buildFields_lines (payload : gomap) :
  buildFields payload = linesText (presentLines payload).
Proof.
  unfold buildFields, presentLines, fieldSlots, writeLine, linesText, present,
    plainLine, lineText.
  cbn [List.filter value label shown].
  destruct (isEmpty (nestedString payload ["monitor"; "name"]));
    destruct (isEmpty (stringFromMap payload "status"));
    destruct (isEmpty (if isEmpty (stringFromMap payload "incidentReason")
                       then stringFromMap payload "msg"
                       else stringFromMap payload "incidentReason"));
    destruct (isEmpty (nestedString payload ["monitor"; "url"]));
    destruct (isEmpty (stringFromMap payload "time"));
    destruct (isEmpty (stringFromMap payload "ping"));
    reflexivity.
Qed.

Lemma presentLines_value (payload : gomap) :
  Forall (fun f => value f <> EmptyString) (presentLines payload).
Proof.
  apply List.Forall_forall. intros f Hf.
  apply List.filter_In in Hf as [_ Hp].
  unfold present in Hp. apply negb_true_iff in Hp. now apply isEmpty_false.
Qed.
End Lines.

Lemma linesText_acc (ls : list line) (acc : string) :
  fold_left (fun builder f => builder +:+ lineText f) ls acc = acc +:+ linesText ls.
Proof.
  unfold linesText. revert acc. induction ls as [|f ls IH]; intros acc.
  - simpl. now rewrite app_empty_r.
  - simpl. rewrite IH, (IH (EmptyString +:+ lineText f)), app_nil_str.
    now rewrite app_assoc_str.
Qed.

Lemma linesText_cons (f : line) (ls : list line) :
  linesText (f :: ls) = lineText f +:+ linesText ls.
Proof.
  unfold linesText at 1. simpl. now rewrite linesText_acc, app_nil_str.
Qed.

Section Layout.
Context `{UnicodeTables}.

(** A text with a line in it starts, once trimmed, with the head of the
    label of its first line. *)
Lemma text_starts_with_label (payload : gomap) :
  presentLines payload <> [] ->
  exists l rest, In l labelHeads
                 /\ TrimSpace (buildFields payload) = l +:+ rest.
Proof.
  intros Hne. rewrite buildFields_lines.
  destruct (presentLines payload) as [|f ls] eqn:E; [congruence|].
  assert (Hf : In f (fieldSlots payload)).
  { assert (Hin : In f (presentLines payload)) by (rewrite E; now left).
    unfold presentLines in Hin. now apply List.filter_In in Hin as [Hin _]. }
  rewrite linesText_cons. unfold lineText.
  set (tail := linesText ls).
  unfold fieldSlots in Hf. each_place Hf; cbn [label shown plainLine].
  - destruct (TrimSpace_keeps "M" "onitor" ":"
                (" " +:+ nestedString payload ["monitor"; "name"] +:+ nl +:+ tail))
      as [t Ht]; [reflexivity..|].
    exists "Monitor:", t. split; [simpl; tauto|].
    rewrite !app_assoc_str. exact Ht.
  - destruct (TrimSpace_keeps "S" "tatus" ":"
                (" " +:+ ToUpper (stringFromMap payload "status") +:+ nl +:+ tail))
      as [t Ht]; [reflexivity..|].
    exists "Status:", t. split; [simpl; tauto|].
    rewrite !app_assoc_str. exact Ht.
  - set (reason := if isEmpty (stringFromMap payload "incidentReason")
                   then stringFromMap payload "msg"
                   else stringFromMap payload "incidentReason").
    destruct (TrimSpace_keeps "R" "eason" ":" (" " +:+ reason +:+ nl +:+ tail))
      as [t Ht]; [reflexivity..|].
    exists "Reason:", t. split; [simpl; tauto|].
    rewrite !app_assoc_str. exact Ht.
  - destruct (TrimSpace_keeps "U" "RL" ":"
                (" " +:+ nestedString payload ["monitor"; "url"] +:+ nl +:+ tail))
      as [t Ht]; [reflexivity..|].
    exists "URL:", t. split; [simpl; tauto|].
    rewrite !app_assoc_str. exact Ht.
  - destruct (TrimSpace_keeps "T" "ime" ":"
                (" " +:+ stringFromMap payload "time" +:+ nl +:+ tail))
      as [t Ht]; [reflexivity..|].
    exists "Time:", t. split; [simpl; tauto|].
    rewrite !app_assoc_str. exact Ht.
  - destruct (TrimSpace_keeps "P" "ing" ":"
                (" " +:+ stringFromMap payload "ping" +:+ nl +:+ tail))
      as [t Ht]; [reflexivity..|].
    exists "Ping:", t. split; [simpl; tauto|].
    rewrite !app_assoc_str. exact Ht.
Qed.

Lemma text_not_empty (payload : gomap) :
  presentLines payload <> [] -> isEmpty (TrimSpace (buildFields payload)) = false.
Proof.
  intros Hne. destruct (text_starts_with_label payload Hne) as (l & rest & Hl & ->).
  each_place Hl; reflexivity.
Qed.

Lemma text_empty (payload : gomap) :
  presentLines payload = [] -> buildFields payload = EmptyString.
Proof. intros Hnil. now rewrite buildFields_lines, Hnil. Qed.
End Layout.

(** ** The dispatcher's guard *)

(** C8. For every text that is empty or consists only of white space, the
    dispatcher's [sendMessage] fails at once with its local error ("telegram
    message is empty") and hands no request to the HTTP client: no outbound
    call is made. *)
Theorem C8_blank_text_fails_fast `{Runtime} (c : telegramClient) (text : string) :
  spaceOnly text -> sendMessage c text = (Some ErrEmptyMessage, []).
Proof.
  intros Hs. unfold sendMessage.
  now rewrite (TrimSpace_spaceOnly _ Hs).
Qed.

Lemma C8_blank_text_witness :
  spaceOnly blanks
  /\ @sendMessage providerOK demoClient blanks = (Some ErrEmptyMessage, []).
Proof.
  assert (Hb : spaceOnly blanks) by (apply TrimSpace_empty_iff; reflexivity).
  split; [exact Hb|].
  exact (@C8_blank_text_fails_fast providerOK demoClient blanks Hb).
Defined.

(** The guard of [sendMessage] fires on white space only: any other text
    reaches the construction of the request. *)
Lemma sendMessage_guard_exact `{Runtime} (c : telegramClient) (text : string) :
  sendMessage c text = (Some ErrEmptyMessage, []) -> spaceOnly text.
Proof.
  unfold sendMessage. intros Hsend. apply TrimSpace_empty_iff.
  destruct (TrimSpace text) as [|a t]; [reflexivity|]. simpl in Hsend.
  destruct (newRequestOK _); simpl in Hsend; [|discriminate].
  destruct (httpDo _) as [r|]; [|discriminate].
  destruct (StatusMultipleChoices <=? StatusCode r); [discriminate|].
  destruct (decodeAPIResponse _) as [[[] d]|]; discriminate.
Qed.

(** ** Extraction *)

Lemma stringFromMap_blank (g : gmap string any) (key s k : string) :
  spaceOnly s ->
  stringFromMap (Some (<[key := Str s]> g)) k = stringFromMap (Some (delete key g)) k.
Proof.
  intros Hs. unfold stringFromMap.
  destruct (decide (key = k)) as [->|Hne].
  - rewrite lookup_insert_eq, lookup_delete_eq. simpl. now apply TrimSpace_spaceOnly.
  - now rewrite lookup_insert_ne, lookup_delete_ne.
Qed.

Lemma descend_blank (s : string) (rest : list string) :
  spaceOnly s ->
  match descend (Str s) rest with
  | Some v => scalarString v
  | None => EmptyString
  end = EmptyString.
Proof.
  intros Hs. destruct rest as [|k rest]; simpl; [|reflexivity].
  now apply TrimSpace_spaceOnly.
Qed.

Lemma nestedString_blank (g : gmap string any) (key s : string) (keys : list string) :
  spaceOnly s ->
  nestedString (Some (<[key := Str s]> g)) keys = nestedString (Some (delete key g)) keys.
Proof.
  intros Hs. unfold nestedString. destruct keys as [|k rest]; [reflexivity|].
  simpl. destruct (decide (key = k)) as [->|Hne].
  - rewrite lookup_insert_eq, lookup_delete_eq. now apply descend_blank.
  - now rewrite lookup_insert_ne, lookup_delete_ne.
Qed.

Lemma stringFromMap_monitor_blank (g mon : gmap string any) (key s k : string) :
  stringFromMap (Some (<["monitor" := Map (Some (<[key := Str s]> mon))]> g)) k
  = stringFromMap (Some (<["monitor" := Map (Some (delete key mon))]> g)) k.
Proof.
  unfold stringFromMap. destruct (decide ("monitor" = k)) as [<-|Hne].
  - now rewrite !lookup_insert_eq.
  - now rewrite !lookup_insert_ne.
Qed.

Lemma nestedString_monitor_blank (g mon : gmap string any) (key s : string)
    (keys : list string) :
  spaceOnly s ->
  nestedString (Some (<["monitor" := Map (Some (<[key := Str s]> mon))]> g)) keys
  = nestedString (Some (<["monitor" := Map (Some (delete key mon))]> g)) keys.
Proof.
  intros Hs. unfold nestedString. destruct keys as [|k1 rest]; [reflexivity|].
  simpl. destruct (decide ("monitor" = k1)) as [<-|Hne].
  - rewrite !lookup_insert_eq. destruct rest as [|k2 rest]; [reflexivity|].
    simpl. destruct (decide (key = k2)) as [->|Hne2].
    + rewrite lookup_insert_eq, lookup_delete_eq. now apply descend_blank.
    + now rewrite lookup_insert_ne, lookup_delete_ne.
  - now rewrite !lookup_insert_ne.
Qed.

(** The composed text depends on the payload through its extractions only. *)
Lemma buildTelegramMessage_ext `{UnicodeTables} (p q : gomap) (raw : string) :
  (forall k, stringFromMap p k = stringFromMap q k) ->
  (forall keys, nestedString p keys = nestedString q keys) ->
  buildTelegramMessage p raw = buildTelegramMessage q raw.
Proof.
  intros Hs Hn. unfold buildTelegramMessage, buildFields.
  now rewrite !Hs, !Hn.
Qed.

Lemma ToUpper_ascii_not_empty `{UnicodeTables} (s : string) :
  isASCII s = true -> s <> EmptyString -> ToUpper s <> EmptyString.
Proof.
  intros Ha Hs. unfold ToUpper. rewrite Ha.
  destruct s as [|c s]; [congruence | discriminate].
Qed.

Lemma fieldSlots_shown `{UnicodeTables} (payload : gomap) (f : line) :
  In f (fieldSlots payload) -> shown f = value f \/ shown f = ToUpper (value f).
Proof.
  unfold fieldSlots. intros Hf. each_place Hf; simpl; auto.
Qed.

(** C10. A string value is trimmed of white space when it is extracted, and
    a value that is empty after trimming counts as absent: the payload
    composes to the same text as the payload without the key, so its
    labelled line is left out.  The builder holds the lines of the non-empty
    values and nothing else, each a label followed by a value that is not
    empty. *)
Theorem C10_blank_values_are_absent `{UnicodeTables} :
  (forall (g : gmap string any) (key s : string),
      g !! key = Some (Str s) -> stringFromMap (Some g) key = TrimSpace s)
  /\ (forall (g mon : gmap string any) (key s : string),
         g !! "monitor" = Some (Map (Some mon)) -> mon !! key = Some (Str s) ->
         nestedString (Some g) ["monitor"; key] = TrimSpace s)
  /\ (forall (g : gmap string any) (key s raw : string),
         spaceOnly s ->
         buildTelegramMessage (Some (<[key := Str s]> g)) raw
         = buildTelegramMessage (Some (delete key g)) raw)
  /\ (forall (g mon : gmap string any) (key s raw : string),
         spaceOnly s ->
         buildTelegramMessage
           (Some (<["monitor" := Map (Some (<[key := Str s]> mon))]> g)) raw
         = buildTelegramMessage
             (Some (<["monitor" := Map (Some (delete key mon))]> g)) raw)
  /\ (forall payload : gomap,
         buildFields payload = linesText (presentLines payload)
         /\ Forall (fun f => value f <> EmptyString
                             /\ (isASCII (value f) = true -> shown f <> EmptyString))
                   (presentLines payload)).
Proof.
  repeat split.
  - intros g key s Hg. unfold stringFromMap. now rewrite Hg.
  - intros g mon key s Hg Hm. unfold nestedString. simpl. rewrite Hg. simpl.
    now rewrite Hm.
  - intros g key s raw Hs. apply buildTelegramMessage_ext.
    + intros k. now apply stringFromMap_blank.
    + intros keys. now apply nestedString_blank.
  - intros g mon key s raw Hs. apply buildTelegramMessage_ext.
    + intros k. apply stringFromMap_monitor_blank.
    + intros keys. now apply nestedString_monitor_blank.
  - apply buildFields_lines.
  - apply List.Forall_forall. intros f Hf.
    pose proof (presentLines_value payload) as Hv.
    rewrite List.Forall_forall in Hv. specialize (Hv f Hf).
    split; [exact Hv|]. intros Ha.
    apply List.filter_In in Hf as [Hf _].
    destruct (fieldSlots_shown payload f Hf) as [-> | ->]; [exact Hv|].
    now apply ToUpper_ascii_not_empty.
Qed.

Lemma C10_blank_values_witness :
  spaceOnly blanks
  /\ @buildTelegramMessage asciiTables
       (Some (<["msg" := Str blanks]> (<["status" := Str " up "]> ∅))) "{}"
     = "Status: UP" +:+ nl +:+ "---" +:+ nl +:+ "{}".
Proof.
  assert (Hb : spaceOnly blanks) by (apply TrimSpace_empty_iff; reflexivity).
  split; [exact Hb|].
  destruct (@C10_blank_values_are_absent asciiTables) as (_ & _ & Habsent & _).
  rewrite (Habsent _ "msg" blanks "{}" Hb). vm_compute. reflexivity.
Defined.

(** ** Numbers *)

Lemma isDigit_keeper (c : ascii) : isDigit c = true -> keeper c = true.
Proof.
  destruct c as [[] [] [] [] [] [] [] []]; vm_compute; congruence.
Qed.

Lemma isDigit_no_mark (c : ascii) : isDigit c = true -> isNumberMark c = false.
Proof.
  destruct c as [[] [] [] [] [] [] [] []]; vm_compute; congruence.
Qed.

Lemma digits_no_mark (s : string) :
  strAll isDigit s = true -> strHas isNumberMark s = false.
Proof.
  induction s as [|c s IH]; [reflexivity|]. simpl. intros Hs.
  apply andb_prop in Hs as [Hc Hs]. now rewrite (isDigit_no_mark _ Hc), (IH Hs).
Qed.

Lemma digits_keepers (s : string) :
  strAll isDigit s = true -> strAll keeper s = true.
Proof.
  induction s as [|c s IH]; [reflexivity|]. simpl. intros Hs.
  apply andb_prop in Hs as [Hc Hs]. now rewrite (isDigit_keeper _ Hc), (IH Hs).
Qed.

Lemma integerLiteral_no_mark (lit : string) :
  integerLiteral lit = true -> strHas isNumberMark lit = false.
Proof.
  unfold integerLiteral. intros Hl.
  assert (Hcases : (exists r, lit = String "-" r /\ strAll isDigit r = true)
                   \/ strAll isDigit lit = true).
  { destruct lit as [|c r]; [discriminate|].
    destruct (Ascii.eqb_spec c "-") as [->|Hc].
    - left. exists r. apply andb_prop in Hl as [_ Hl]. now split.
    - right. destruct c as [[] [] [] [] [] [] [] []];
        try (now apply andb_prop in Hl as [_ Hl]); now contradiction Hc. }
  destruct Hcases as [(r & -> & Hr)|Hd].
  - simpl. now apply digits_no_mark.
  - now apply digits_no_mark.
Qed.

Lemma string_of_uint_digits (d : Decimal.uint) :
  strAll isDigit (NilEmpty.string_of_uint d) = true.
Proof. induction d; simpl; auto. Qed.

Lemma decimal_digits (n : Z) : strAll isDigit (decimal n) = true.
Proof.
  unfold decimal, NilZero.string_of_uint.
  destruct (N.to_uint (Z.to_N n)) eqn:E; try reflexivity;
    rewrite <- E; apply string_of_uint_digits.
Qed.

(** [%.0f] writes a sign and digits, or one of the three names of the values
    that are no numbers. *)
Lemma formatFloat0_shape (f : float) :
  In (formatFloat0 f) ["NaN"; "+Inf"; "-Inf"]
  \/ exists sign digits,
      In sign [EmptyString; "-"] /\ strAll isDigit digits = true
      /\ formatFloat0 f = sign +:+ digits.
Proof.
  unfold formatFloat0. destruct (Prim2SF f) as [s|s| |s m e].
  - right. exists (signText s), "0". destruct s; simpl; auto.
  - left. destruct s; simpl; auto.
  - left. simpl; auto.
  - right. exists (signText s), (decimal (roundHalfEven m e)).
    split; [destruct s; simpl; auto|]. split; [apply decimal_digits | reflexivity].
Qed.

Lemma formatFloat0_plain (f : float) :
  strAll keeper (formatFloat0 f) = true
  /\ strHas isNumberMark (formatFloat0 f) = false.
Proof.
  destruct (formatFloat0_shape f) as [Hname|(sign & digits & Hsign & Hd & ->)].
  - simpl in Hname. destruct Hname as [<-|[<-|[<-|[]]]]; split; reflexivity.
  - rewrite strAll_app, strHas_app, (digits_keepers _ Hd), (digits_no_mark _ Hd).
    simpl in Hsign. destruct Hsign as [<-|[<-|[]]]; split; reflexivity.
Qed.

(** The claim as the specification words it fails on a whole number written
    with an exponent: the literal 1e3 denotes 1000 and is rendered with its
    exponent, as the body spelled it. *)
Lemma C9_exponent_literal_kept :
  wholeNumber "1e3" = Some 1000
  /\ stringFromMap (Some (<["ping" := Number "1e3"]> ∅)) "ping" = "1e3"
  /\ strHas isNumberMark
       (stringFromMap (Some (<["ping" := Number "1e3"]> ∅)) "ping") = true
  /\ @buildTelegramMessage asciiTables (Some (<["ping" := Number "1e3"]> ∅)) "{}"
     = "Ping: 1e3" +:+ nl +:+ "---" +:+ nl +:+ "{}".
Proof. repeat split; vm_compute; reflexivity. Qed.

(** C9 (amended). A JSON number, kept by the decoder as the text of its
    literal, is rendered as exactly that text, with nothing added or
    removed: a number written as an integer renders without a decimal point
    and without an exponent.  A [float64] is rendered by [%.0f], which
    writes neither a decimal point nor an exponent. *)
Theorem C9_numbers_render_as_written :
  (forall (g : gmap string any) (key lit : string),
      g !! key = Some (Number lit) -> stringFromMap (Some g) key = lit)
  /\ (forall (g mon : gmap string any) (key lit : string),
         g !! "monitor" = Some (Map (Some mon)) -> mon !! key = Some (Number lit) ->
         nestedString (Some g) ["monitor"; key] = lit)
  /\ (forall (g : gmap string any) (key lit : string),
         g !! key = Some (Number lit) -> integerLiteral lit = true ->
         strHas isNumberMark (stringFromMap (Some g) key) = false)
  /\ (forall (g : gmap string any) (key : string) (f : float),
         g !! key = Some (Float64 f) ->
         stringFromMap (Some g) key = formatFloat0 f
         /\ strHas isNumberMark (formatFloat0 f) = false).
Proof.
  split; [|split; [|split]].
  - intros g key lit Hg. unfold stringFromMap. now rewrite Hg.
  - intros g mon key lit Hg Hm. unfold nestedString. simpl. rewrite Hg. simpl.
    now rewrite Hm.
  - intros g key lit Hg Hl. unfold stringFromMap. rewrite Hg. simpl.
    now apply integerLiteral_no_mark.
  - intros g key f Hg. split; [|apply formatFloat0_plain].
    unfold stringFromMap. rewrite Hg. simpl.
    apply TrimSpace_keepers, formatFloat0_plain.
Qed.

Lemma C9_numbers_render_witness :
  integerLiteral "120" = true
  /\ stringFromMap (Some (<["ping" := Number "120"]> ∅)) "ping" = "120"
  /\ strHas isNumberMark (stringFromMap (Some (<["ping" := Number "120"]> ∅)) "ping")
     = false
  /\ stringFromMap (Some (<["ping" := Float64 120.5%float]> ∅)) "ping" = "120".
Proof.
  destruct C9_numbers_render_as_written as (Hlit & _ & Hint & Hfloat).
  split; [reflexivity|]. split; [apply Hlit; reflexivity|].
  split; [apply (Hint _ "ping" "120"); reflexivity|].
  destruct (Hfloat (<["ping" := Float64 120.5%float]> ∅) "ping" 120.5%float) as [-> _];
    reflexivity.
Defined.

(** ** The handler *)

Section HandlerFacts.
Context `{UnicodeTables} `{Runtime}.
Variables (cfg : config) (client : telegramClient).

Lemma handler_not_post (r : request) :
  Method r <> "POST" ->
  webhookHandler cfg client r =
  {| resp := httpError (<["Allow" := "POST"]> ∅) "method not allowed"
                       StatusMethodNotAllowed;
     logged := []; calls := [] |}.
Proof.
  intros Hm. unfold webhookHandler.
  apply String.eqb_neq in Hm. now rewrite Hm.
Qed.

Lemma handler_unauthorized (r : request) :
  Method r = "POST" ->
  headerGet (Header r) "Authorization" <> "Bearer " +:+ webhookToken cfg ->
  webhookHandler cfg client r =
  {| resp := httpError ∅ "unauthorized" StatusUnauthorized;
     logged := []; calls := [] |}.
Proof.
  intros Hm Ha. unfold webhookHandler.
  rewrite Hm, String.eqb_refl. simpl negb.
  apply String.eqb_neq in Ha. now rewrite Ha.
Qed.

Lemma handler_read (r : request) :
  Method r = "POST" ->
  headerGet (Header r) "Authorization" = "Bearer " +:+ webhookToken cfg ->
  webhookHandler cfg client r =
  match readBody r with
  | None =>
      {| resp := httpError ∅ "failed to read body" StatusBadRequest;
         logged := [LogReadFailed]; calls := [] |}
  | Some body =>
      if (String.length body =? 0)%nat then
        {| resp := httpError ∅ "empty body" StatusBadRequest;
           logged := []; calls := [] |}
      else
        respond (decodedPayload body).2
                (sendMessage client (buildTelegramMessage (decodedPayload body).1 body))
  end.
Proof.
  intros Hm Ha. unfold webhookHandler.
  rewrite Hm, Ha, !String.eqb_refl. simpl negb. cbv iota.
  destruct (readBody r) as [body|]; [|reflexivity].
  destruct (String.length body =? 0)%nat; [reflexivity|].
  unfold respond, decodedPayload, accepted.
  destruct (jsonDecode body); reflexivity.
Qed.

Lemma handler_dispatch (r : request) (body : string) :
  Method r = "POST" ->
  headerGet (Header r) "Authorization" = "Bearer " +:+ webhookToken cfg ->
  readBody r = Some body -> body <> EmptyString ->
  webhookHandler cfg client r =
  respond (decodedPayload body).2
          (sendMessage client (buildTelegramMessage (decodedPayload body).1 body)).
Proof.
  intros Hm Ha Hr Hb. rewrite (handler_read r Hm Ha), Hr.
  destruct body; [congruence | reflexivity].
Qed.

Lemma sendMessage_provider_fails (text : string) :
  (forall req, exists answer,
      httpDo req = Some answer /\ StatusMultipleChoices <= StatusCode answer) ->
  exists e, (sendMessage client text).1 = Some e.
Proof.
  intros Hp. unfold sendMessage.
  destruct (isEmpty (TrimSpace text)); [eauto|].
  destruct (newRequestOK _); simpl; [|eauto].
  match goal with |- context [httpDo ?req] => destruct (Hp req) as (a & -> & Hs) end.
  apply Z.leb_le in Hs. rewrite Hs. eauto.
Qed.

Lemma composed_empty_payload (raw : string) :
  buildTelegramMessage (Some ∅) raw = fallbackRaw raw.
Proof. reflexivity. Qed.
End HandlerFacts.

(** C4. The handler maps every request to its response as follows: a
    method other than POST gives 405 with the header Allow: POST; a POST
    whose Authorization header is not "Bearer " followed by the configured
    token, the absent header included, gives 401 whatever the body is, with
    no outbound call; once the request reaches the dispatcher, its success
    gives 202 with the body [{"ok":true}] and its failure gives 502, which is
    what happens when the provider answers with a status of 300 or more
    (500, say). *)
Theorem C4_response_mapping `{UnicodeTables} `{Runtime}
    (cfg : config) (client : telegramClient) (r : request) :
  (Method r <> "POST" ->
   webhookHandler cfg client r =
   {| resp := httpError (<["Allow" := "POST"]> ∅) "method not allowed" 405;
      logged := []; calls := [] |}
   /\ RespHeader (resp (webhookHandler cfg client r)) !! "Allow" = Some "POST")
  /\ (Method r = "POST" ->
      headerGet (Header r) "Authorization" <> "Bearer " +:+ webhookToken cfg ->
      webhookHandler cfg client r =
      {| resp := httpError ∅ "unauthorized" 401; logged := []; calls := [] |})
  /\ (Method r = "POST" -> Header r !! "Authorization" = None ->
      Status (resp (webhookHandler cfg client r)) = 401
      /\ calls (webhookHandler cfg client r) = [])
  /\ (forall body : string,
         Method r = "POST" ->
         headerGet (Header r) "Authorization" = "Bearer " +:+ webhookToken cfg ->
         readBody r = Some body -> body <> EmptyString ->
         let sent :=
           sendMessage client (buildTelegramMessage (decodedPayload body).1 body) in
         calls (webhookHandler cfg client r) = sent.2
         /\ (sent.1 = None ->
             resp (webhookHandler cfg client r) =
             {| Status := 202;
                RespHeader := <["Content-Type" := "application/json"]> ∅;
                RespBody := "{" +:+ dquote +:+ "ok" +:+ dquote +:+ ":true}" |})
         /\ (forall e, sent.1 = Some e ->
                       Status (resp (webhookHandler cfg client r)) = 502)
         /\ ((forall req, exists answer,
                 httpDo req = Some answer /\ 300 <= StatusCode answer) ->
             Status (resp (webhookHandler cfg client r)) = 502)).
Proof.
  split; [|split; [|split]].
  - intros Hm. rewrite (handler_not_post cfg client r Hm). split; reflexivity.
  - intros Hm Ha. now apply handler_unauthorized.
  - intros Hm Hnone.
    rewrite (handler_unauthorized cfg client r Hm); [split; reflexivity|].
    unfold headerGet. rewrite Hnone. discriminate.
  - intros body Hm Ha Hr Hb sent.
    rewrite (handler_dispatch cfg client r body Hm Ha Hr Hb). fold sent.
    unfold respond. repeat split.
    + destruct sent.1; reflexivity.
    + intros ->. reflexivity.
    + intros e ->. reflexivity.
    + intros Hp. destruct (sendMessage_provider_fails client
                             (buildTelegramMessage (decodedPayload body).1 body) Hp)
        as [e He].
      fold sent in He. now rewrite He.
Qed.

Lemma C4_response_mapping_witness :
  (Status (resp (@webhookHandler asciiTables providerOK demoConfig demoClient
                   {| Method := "GET"; Header := ∅; Body := demoBody;
                      BodyFails := false; FailsWithData := false |})) = 405)
  /\ (Status (resp (@webhookHandler asciiTables providerOK demoConfig demoClient
                      (postRequest (Some "Bearer wrong") demoBody))) = 401)
  /\ (resp (@webhookHandler asciiTables providerOK demoConfig demoClient
              (postRequest (Some "Bearer tkn") demoBody)) = accepted)
  /\ (Status (resp (@webhookHandler asciiTables provider500 demoConfig demoClient
                      (postRequest (Some "Bearer tkn") demoBody))) = 502).
Proof.
  split; [|split; [|split]].
  - destruct (@C4_response_mapping asciiTables providerOK demoConfig demoClient
                {| Method := "GET"; Header := ∅; Body := demoBody;
                   BodyFails := false; FailsWithData := false |})
      as (H405 & _).
    destruct H405 as [-> _]; [discriminate | reflexivity].
  - destruct (@C4_response_mapping asciiTables providerOK demoConfig demoClient
                (postRequest (Some "Bearer wrong") demoBody)) as (_ & H401 & _).
    rewrite H401; [reflexivity | reflexivity | vm_compute; discriminate].
  - destruct (@C4_response_mapping asciiTables providerOK demoConfig demoClient
                (postRequest (Some "Bearer tkn") demoBody)) as (_ & _ & _ & Hd).
    destruct (Hd demoBody) as (_ & H202 & _);
      [reflexivity | reflexivity | reflexivity | discriminate |].
    apply H202. vm_compute. reflexivity.
  - destruct (@C4_response_mapping asciiTables provider500 demoConfig demoClient
                (postRequest (Some "Bearer tkn") demoBody)) as (_ & _ & _ & Hd).
    destruct (Hd demoBody) as (_ & _ & _ & H502);
      [reflexivity | reflexivity | reflexivity | discriminate |].
    apply H502. intros req. eexists. split; [reflexivity|]. simpl. lia.
Defined.

(** C5. A body that is not empty and fails JSON decoding does not stop the
    request: the payload stays the empty object, whose composed text is the
    raw fallback built from the body's bytes, that text is handed to the
    dispatcher, and the response is the one the dispatch's outcome maps
    to. *)
Theorem C5_decode_failure_degrades `{UnicodeTables} `{Runtime}
    (cfg : config) (client : telegramClient) (r : request) (body : string) :
  Method r = "POST" ->
  headerGet (Header r) "Authorization" = "Bearer " +:+ webhookToken cfg ->
  readBody r = Some body -> body <> EmptyString ->
  jsonDecode body = None ->
  (decodedPayload body).1 = Some ∅
  /\ buildTelegramMessage (decodedPayload body).1 body = fallbackRaw body
  /\ webhookHandler cfg client r =
     respond [LogInvalidJSON] (sendMessage client (fallbackRaw body)).
Proof.
  intros Hm Ha Hr Hb Hd.
  rewrite (handler_dispatch cfg client r body Hm Ha Hr Hb).
  unfold decodedPayload. rewrite Hd. simpl.
  rewrite composed_empty_payload. repeat split.
Qed.

Lemma C5_decode_failure_witness :
  jsonDecode (Runtime := providerOK) "not json" = None
  /\ (let o := @webhookHandler asciiTables providerOK demoConfig demoClient
                 (postRequest (Some "Bearer tkn") "not json") in
      Status (resp o) = 202
      /\ logged o = [LogInvalidJSON]
      /\ (reqBody <$> calls o) =
         [ <["chat_id" := Str "42"]>
             (<["text" := Str "not json"]>
                (<["disable_web_page_preview" := Bool true]> ∅)) ]).
Proof.
  split; [reflexivity|].
  destruct (@C5_decode_failure_degrades asciiTables providerOK demoConfig demoClient
              (postRequest (Some "Bearer tkn") "not json") "not json")
    as (_ & _ & ->); [reflexivity | reflexivity | reflexivity | discriminate | reflexivity |].
  repeat split.
Defined.




(** ** The cap on the body *)

Lemma readBody_oversized (r : request) :
  maxPayloadBytes < Z.of_nat (String.length (Body r)) ->
  readBody r = Some (strTake (Z.to_nat maxPayloadBytes) (Body r)).
Proof.
  intros Hlen. unfold readBody. cbv zeta.
  destruct (Z.ltb_spec maxPayloadBytes (Z.of_nat (String.length (Body r)))); [reflexivity|lia].
Qed.

Lemma maxPayloadBytes_pos : 0 <= maxPayloadBytes.
Proof. vm_compute. discriminate. Qed.

(** The claim as the specification words it fails on a body of 1 MiB and
    one byte: the handler answers 202 and makes an outbound call, whose text
    is cut from the first bytes of the body. *)
Lemma C3_oversized_body_is_forwarded :
  maxPayloadBytes < Z.of_nat (String.length (Body oversizedRequest))
  /\ (let o := @webhookHandler asciiTables providerOK demoConfig demoClient
                 oversizedRequest in
      Status (resp o) = 202 /\ length (calls o) = 1%nat).
Proof. vm_compute. repeat split; congruence. Qed.

(** C3 (amended). A body longer than the cap of 1 MiB is not rejected for
    its length: the handler reads its first 1048576 bytes and treats the
    request exactly as the request whose body is those bytes. *)
Theorem C3_oversized_body_truncated `{UnicodeTables} `{Runtime}
    (cfg : config) (client : telegramClient) (r : request) :
  maxPayloadBytes < Z.of_nat (String.length (Body r)) ->
  maxPayloadBytes = 1048576
  /\ readBody r = Some (strTake (Z.to_nat maxPayloadBytes) (Body r))
  /\ webhookHandler cfg client r =
     webhookHandler cfg client
       {| Method := Method r; Header := Header r;
          Body := strTake (Z.to_nat maxPayloadBytes) (Body r);
          BodyFails := false; FailsWithData := false |}.
Proof.
  intros Hlen. split; [reflexivity|]. split.
  { exact (readBody_oversized r Hlen). }
  pose proof maxPayloadBytes_pos as Hpos.
  assert (Hread : readBody r = Some (strTake (Z.to_nat maxPayloadBytes) (Body r)))
    by now apply readBody_oversized.
  assert (Hread' : readBody {| Method := Method r; Header := Header r;
                               Body := strTake (Z.to_nat maxPayloadBytes) (Body r);
                               BodyFails := false; FailsWithData := false |}
                   = Some (strTake (Z.to_nat maxPayloadBytes) (Body r))).
  { unfold readBody. cbn [Body BodyFails FailsWithData]. cbv zeta.
    rewrite strTake_length by lia. rewrite Z2Nat.id by exact Hpos.
    now rewrite Z.ltb_irrefl. }
  unfold webhookHandler. rewrite Hread, Hread'. reflexivity.
Qed.

Lemma C3_oversized_body_witness :
  maxPayloadBytes < Z.of_nat (String.length (Body oversizedRequest))
  /\ @webhookHandler asciiTables providerOK demoConfig demoClient oversizedRequest =
     @webhookHandler asciiTables providerOK demoConfig demoClient
       {| Method := Method oversizedRequest; Header := Header oversizedRequest;
          Body := strTake (Z.to_nat maxPayloadBytes) (Body oversizedRequest);
          BodyFails := false; FailsWithData := false |}.
Proof.
  assert (Hlen : maxPayloadBytes < Z.of_nat (String.length (Body oversizedRequest)))
    by (vm_compute; reflexivity).
  split; [exact Hlen|].
  exact (proj2 (proj2 (@C3_oversized_body_truncated asciiTables providerOK
                         demoConfig demoClient oversizedRequest Hlen))).
Defined.

(** ** Escaping and markers *)

Section Segments.
Context `{UnicodeTables}.

Lemma markdown_buildFields_segments (payload : gomap) :
  MarkdownV2.buildFields payload =
  segmentsText (MarkdownV2.header (stringFromMap payload "msg"))
               (presentSegments payload).
Proof.
  unfold MarkdownV2.buildFields, presentSegments, segmentSlots,
    MarkdownV2.writeSegment, segmentsText, segmentPresent, escapedSegment,
    statusSegment, segmentText.
  cbn [List.filter segValue segPre segShown segPost].
  destruct (isEmpty (nestedString payload ["monitor"; "name"]));
    destruct (isEmpty (stringFromMap payload "status"));
    destruct (isEmpty (if isEmpty (stringFromMap payload "incidentReason")
                       then stringFromMap payload "msg"
                       else stringFromMap payload "incidentReason"));
    destruct (isEmpty (nestedString payload ["monitor"; "url"]));
    destruct (isEmpty (stringFromMap payload "time"));
    destruct (isEmpty (stringFromMap payload "ping"));
    reflexivity.
Qed.

Lemma segmentSlots_shown (payload : gomap) (g : segment) :
  In g (segmentSlots payload) ->
  segShown g = MarkdownV2.escapeMarkdown (segValue g)
  \/ segShown g = MarkdownV2.escapeMarkdown (ToUpper (segValue g)).
Proof.
  unfold segmentSlots. intros Hg. each_place Hg; simpl; auto.
Qed.

Lemma segmentSlots_labels (payload : gomap) (g : segment) :
  In g (segmentSlots payload) -> escaped (segPre g) = false.
Proof.
  unfold segmentSlots. intros Hg. each_place Hg; try reflexivity.
  cbn [segPre statusSegment]. unfold MarkdownV2.statusEmoji.
  destruct (String.eqb _ "up"); [reflexivity|].
  destruct (String.eqb _ "down"); [reflexivity|].
  destruct (String.eqb _ "maintenance"); [reflexivity|].
  destruct (String.eqb _ "pending"); reflexivity.
Qed.
End Segments.

Lemma escapeMarkdown_escapedFrom (v : string) (prev : bool) :
  escapedFrom prev (MarkdownV2.escapeMarkdown v) = true.
Proof.
  revert prev. induction v as [|c v IH]; intros prev; [reflexivity|].
  simpl. destruct (MarkdownV2.isSpecial c) eqn:Ec.
  - simpl. rewrite Ec, IH. reflexivity.
  - simpl. rewrite Ec, IH. reflexivity.
Qed.

Lemma unescape_escapeMarkdown (v : string) :
  unescapeMarkdown (MarkdownV2.escapeMarkdown v) = v.
Proof.
  induction v as [|c v IH]; [reflexivity|].
  simpl. destruct (MarkdownV2.isSpecial c) eqn:Ec.
  - simpl. now rewrite Ec, IH.
  - simpl. destruct (Ascii.eqb c MarkdownV2.backslash) eqn:Eb; [|now rewrite IH].
    rewrite IH. destruct v as [|d v]; [reflexivity|].
    simpl. destruct (MarkdownV2.isSpecial d) eqn:Ed; [reflexivity|].
    now rewrite Ed.
Qed.

Lemma segmentsText_acc (gs : list segment) (start : string) :
  segmentsText start gs = start +:+ segmentsText EmptyString gs.
Proof.
  unfold segmentsText. revert start. induction gs as [|g gs IH]; intros start.
  - simpl. now rewrite app_empty_r.
  - simpl. rewrite IH, (IH (EmptyString +:+ segmentText g)), app_nil_str.
    now rewrite app_assoc_str.
Qed.

(** The MarkdownV2 composer always writes its header first, so its text is
    never empty and starts with the bell of the header, or with the test
    tube of a test notification; the code after its test [text == ""] is
    never run. *)
Lemma markdown_text_head `{UnicodeTables} (payload : gomap) :
  exists t,
    TrimSpace (MarkdownV2.buildFields payload) =
    (if MarkdownV2.isTest (stringFromMap payload "msg") then "🧪 *" else "🔔 *") +:+ t.
Proof.
  rewrite markdown_buildFields_segments, segmentsText_acc.
  unfold MarkdownV2.header.
  set (rest := segmentsText EmptyString (presentSegments payload)).
  destruct (MarkdownV2.isTest (stringFromMap payload "msg")).
  - destruct (TrimSpace_head_keeps "240"
                (String "159" (String "167" (String "170" " "))) "*"
                ("Uptime Kuma 测试通知*" +:+ nl +:+ nl +:+ rest))
      as [t Ht]; [reflexivity..|].
    exists t. rewrite !app_assoc_str. exact Ht.
  - destruct (TrimSpace_head_keeps "240"
                (String "159" (String "148" (String "148" " "))) "*"
                ("Uptime Kuma 监控通知*" +:+ nl +:+ nl +:+ rest))
      as [t Ht]; [reflexivity..|].
    exists t. rewrite !app_assoc_str. exact Ht.
Qed.

Lemma markdown_text_not_empty `{UnicodeTables} (payload : gomap) :
  isEmpty (TrimSpace (MarkdownV2.buildFields payload)) = false.
Proof.
  destruct (markdown_text_head payload) as [t ->].
  destruct (MarkdownV2.isTest _); reflexivity.
Qed.

Lemma markdown_composed `{UnicodeTables} (payload : gomap) (raw : string) :
  MarkdownV2.buildTelegramMessage payload raw =
  TrimSpace (MarkdownV2.buildFields payload)
  +:+ (if isEmpty (fallbackRaw raw) then EmptyString
       else nl +:+ nl +:+ MarkdownV2.rawSection +:+ fallbackRaw raw +:+ nl +:+ "```").
Proof.
  unfold MarkdownV2.buildTelegramMessage. rewrite markdown_text_not_empty.
  destruct (isEmpty (fallbackRaw raw)); [now rewrite app_empty_r | reflexivity].
Qed.

Lemma composed `{UnicodeTables} (payload : gomap) (raw : string) :
  presentLines payload <> [] ->
  buildTelegramMessage payload raw =
  TrimSpace (buildFields payload)
  +:+ (if isEmpty (fallbackRaw raw) then EmptyString
       else nl +:+ "---" +:+ nl +:+ fallbackRaw raw).
Proof.
  intros Hne. unfold buildTelegramMessage. rewrite (text_not_empty payload Hne).
  destruct (isEmpty (fallbackRaw raw)); [now rewrite app_empty_r | reflexivity].
Qed.

(** The claim as the specification words it fails on [main.go]: a value with
    a special byte (the full stop) is embedded as it is, and the composed
    text holds no backslash at all. *)
Lemma C1_main_go_value_unescaped :
  MarkdownV2.isSpecial "." = true
  /\ (let text := @buildTelegramMessage asciiTables
                    (Some (<["msg" := Str "a.b"]> ∅)) "{}" in
      text = "Reason: a.b" +:+ nl +:+ "---" +:+ nl +:+ "{}"
      /\ strHas (Ascii.eqb MarkdownV2.backslash) text = false)
  /\ escaped "a.b" = false.
Proof. repeat split. Qed.

(** C1 (amended). The composer of [main.go] embeds every extracted value as
    it is (the status in upper case) after its label: it escapes nothing.
    The MarkdownV2 composer escapes field by field: each extracted value
    (the status in upper case) goes through [escapeMarkdown], after which
    each of its special bytes stands right after a backslash and taking the
    backslashes away gives the value back, while the labels and formatting
    marks around it are written as they are, unescaped.  In both, the
    composed text is the text of these lines, trimmed of the white space at
    its ends, followed by the raw section. *)
Theorem C1_values_verbatim_or_escaped `{UnicodeTables} (payload : gomap) :
  (buildFields payload = linesText (presentLines payload)
   /\ Forall (fun f => shown f = value f \/ shown f = ToUpper (value f))
             (presentLines payload)
   /\ (forall raw : string,
          presentLines payload <> [] ->
          buildTelegramMessage payload raw =
          TrimSpace (linesText (presentLines payload))
          +:+ (if isEmpty (fallbackRaw raw) then EmptyString
               else nl +:+ "---" +:+ nl +:+ fallbackRaw raw)))
  /\ (MarkdownV2.buildFields payload =
      segmentsText (MarkdownV2.header (stringFromMap payload "msg"))
                   (presentSegments payload)
      /\ Forall (fun g =>
                   (segShown g = MarkdownV2.escapeMarkdown (segValue g)
                    \/ segShown g = MarkdownV2.escapeMarkdown (ToUpper (segValue g)))
                   /\ escaped (segShown g) = true
                   /\ escaped (segPre g) = false)
                (presentSegments payload)
      /\ (forall raw : string,
             MarkdownV2.buildTelegramMessage payload raw =
             TrimSpace (segmentsText (MarkdownV2.header (stringFromMap payload "msg"))
                                     (presentSegments payload))
             +:+ (if isEmpty (fallbackRaw raw) then EmptyString
                  else nl +:+ nl +:+ MarkdownV2.rawSection +:+ fallbackRaw raw
                       +:+ nl +:+ "```")))
  /\ (forall v : string,
         escaped (MarkdownV2.escapeMarkdown v) = true
         /\ unescapeMarkdown (MarkdownV2.escapeMarkdown v) = v)
  /\ (forall s : string,
         exists w1 w2, spaceOnly w1 /\ spaceOnly w2 /\ s = w1 +:+ TrimSpace s +:+ w2).
Proof.
  split; [|split; [|split]].
  - split; [apply buildFields_lines|]. split.
    + apply List.Forall_forall. intros f Hf.
      apply List.filter_In in Hf as [Hf _]. exact (fieldSlots_shown payload f Hf).
    + intros raw Hne. rewrite <- buildFields_lines. now apply composed.
  - split; [apply markdown_buildFields_segments|]. split.
    + apply List.Forall_forall. intros g Hg.
      apply List.filter_In in Hg as [Hg _].
      pose proof (segmentSlots_shown payload g Hg) as Hshown.
      split; [exact Hshown|]. split; [|exact (segmentSlots_labels payload g Hg)].
      destruct Hshown as [-> | ->]; apply escapeMarkdown_escapedFrom.
    + intros raw. rewrite <- markdown_buildFields_segments. apply markdown_composed.
  - intros v. split; [apply escapeMarkdown_escapedFrom | apply unescape_escapeMarkdown].
  - apply TrimSpace_split.
Qed.

Lemma C1_values_witness :
  presentLines (H := asciiTables) (Some (<["msg" := Str "a.b"]> ∅)) <> []
  /\ @buildTelegramMessage asciiTables (Some (<["msg" := Str "a.b"]> ∅)) "{}"
     = "Reason: a.b" +:+ nl +:+ "---" +:+ nl +:+ "{}"
  /\ @MarkdownV2.buildTelegramMessage asciiTables (Some (<["msg" := Str "a.b"]> ∅)) "{}"
     = "🔔 *Uptime Kuma 监控通知*" +:+ nl +:+ nl
       +:+ "❗ *原因*: a\.b" +:+ nl +:+ nl
       +:+ "📄 *原始数据*:" +:+ nl +:+ "```json" +:+ nl +:+ "{}" +:+ nl +:+ "```".
Proof.
  assert (Hne : presentLines (H := asciiTables) (Some (<["msg" := Str "a.b"]> ∅)) <> [])
    by (vm_compute; discriminate).
  destruct (@C1_values_verbatim_or_escaped asciiTables (Some (<["msg" := Str "a.b"]> ∅)))
    as ((_ & _ & Hmain) & (_ & _ & Hmd) & _).
  split; [exact Hne|]. split.
  - rewrite (Hmain "{}" Hne). vm_compute. reflexivity.
  - rewrite (Hmd "{}"). vm_compute. reflexivity.
Defined.

(** The claim as the specification words it fails on [main.go]: the texts
    composed for the statuses up and down start with the label of the status
    line and hold none of the markers. *)
Lemma C2_main_go_no_marker :
  let text status :=
    @buildTelegramMessage asciiTables (Some (<["status" := Str status]> ∅)) "{}" in
  let named payload := @buildTelegramMessage asciiTables payload demoBody in
  text "up" = "Status: UP" +:+ nl +:+ "---" +:+ nl +:+ "{}"
  /\ text "down" = "Status: DOWN" +:+ nl +:+ "---" +:+ nl +:+ "{}"
  /\ Forall (fun m => Contains (text "up") m = false /\ Contains (text "down") m = false)
            statusMarkers
  /\ Forall (fun payload => strTake 14 (named payload) = "Monitor: Demo" +:+ nl)
            [ demoPayload;
              Some (<["monitor" := Map (Some (<["name" := Str "Demo"]> ∅))]>
                      (<["status" := Str "down"]> ∅));
              Some (<["monitor" := Map (Some (<["name" := Str "Demo"]> ∅))]> ∅) ].
Proof. repeat split; repeat constructor. Qed.

Lemma statusEmoji_other (lowered : string) :
  ~ In lowered ["up"; "down"; "maintenance"; "pending"] ->
  MarkdownV2.statusEmoji lowered = "ℹ️".
Proof.
  intros Hn. unfold MarkdownV2.statusEmoji.
  destruct (String.eqb_spec lowered "up") as [->|_]; [simpl in Hn; tauto|].
  destruct (String.eqb_spec lowered "down") as [->|_]; [simpl in Hn; tauto|].
  destruct (String.eqb_spec lowered "maintenance") as [->|_]; [simpl in Hn; tauto|].
  destruct (String.eqb_spec lowered "pending") as [->|_]; [simpl in Hn; tauto|].
  reflexivity.
Qed.

Lemma statusEmoji_marker (lowered : string) :
  In (MarkdownV2.statusEmoji lowered) statusMarkers.
Proof.
  unfold MarkdownV2.statusEmoji, statusMarkers.
  destruct (String.eqb lowered "up"); [simpl; tauto|].
  destruct (String.eqb lowered "down"); [simpl; tauto|].
  destruct (String.eqb lowered "maintenance"); [simpl; tauto|].
  destruct (String.eqb lowered "pending"); simpl; tauto.
Qed.

Lemma writeLine_extends (builder label v shown : string) :
  exists x, writeLine builder label v shown = builder +:+ x.
Proof.
  unfold writeLine. destruct (isEmpty v).
  - exists EmptyString. now rewrite app_empty_r.
  - exists (label +:+ shown +:+ nl). reflexivity.
Qed.

Lemma writeSegment_extends (builder v pre shown post : string) :
  exists x, MarkdownV2.writeSegment builder v pre shown post = builder +:+ x.
Proof.
  unfold MarkdownV2.writeSegment. destruct (isEmpty v).
  - exists EmptyString. now rewrite app_empty_r.
  - exists (pre +:+ shown +:+ post). reflexivity.
Qed.

Lemma TrimSpace_head_keeps_app (c : ascii) (h p : string) (d : ascii) (s : string) :
  Ascii.is_space c = false -> spaceLead c = false -> keeper d = true ->
  exists t, TrimSpace (String c h +:+ p +:+ String d s) = String c h +:+ p +:+ String d t.
Proof.
  intros Hc Hl Hd.
  destruct (TrimSpace_head_keeps c (h +:+ p) d s Hc Hl Hd) as [t Ht].
  exists t. rewrite !app_cons_str, <- !app_assoc_str. exact Ht.
Qed.

Section StatusLine.
Context `{UnicodeTables}.

(** The status line of [main.go] in the builder: after the monitor line, if
    there is one. *)
Lemma buildFields_status (payload : gomap) :
  stringFromMap payload "status" <> EmptyString ->
  exists rest,
    buildFields payload =
    (if isEmpty (nestedString payload ["monitor"; "name"]) then EmptyString
     else "Monitor: " +:+ nestedString payload ["monitor"; "name"] +:+ nl)
    +:+ "Status: " +:+ ToUpper (stringFromMap payload "status") +:+ nl +:+ rest.
Proof.
  intros Hs. apply isEmpty_false in Hs. unfold buildFields. cbv zeta.
  match goal with |- context [writeLine ?b "Ping: " ?v ?sh] =>
    destruct (writeLine_extends b "Ping: " v sh) as [x1 ->] end.
  match goal with |- context [writeLine ?b "Time: " ?v ?sh] =>
    destruct (writeLine_extends b "Time: " v sh) as [x2 ->] end.
  match goal with |- context [writeLine ?b "URL: " ?v ?sh] =>
    destruct (writeLine_extends b "URL: " v sh) as [x3 ->] end.
  match goal with |- context [writeLine ?b "Reason: " ?v ?sh] =>
    destruct (writeLine_extends b "Reason: " v sh) as [x4 ->] end.
  exists (x4 +:+ x3 +:+ x2 +:+ x1).
  unfold writeLine. rewrite Hs.
  destruct (isEmpty (nestedString payload ["monitor"; "name"]));
    rewrite !app_assoc_str; reflexivity.
Qed.

(** The status line of the MarkdownV2 composer in the builder: after the
    header and the monitor line, if there is one. *)
Lemma markdown_buildFields_status (payload : gomap) :
  stringFromMap payload "status" <> EmptyString ->
  exists rest,
    MarkdownV2.buildFields payload =
    MarkdownV2.header (stringFromMap payload "msg")
    +:+ (if isEmpty (nestedString payload ["monitor"; "name"]) then EmptyString
         else "📊 *监控名称*: `"
              +:+ MarkdownV2.escapeMarkdown (nestedString payload ["monitor"; "name"])
              +:+ "`" +:+ nl)
    +:+ MarkdownV2.statusEmoji (ToLower (stringFromMap payload "status"))
    +:+ " *状态*: *"
    +:+ MarkdownV2.escapeMarkdown (ToUpper (stringFromMap payload "status"))
    +:+ "*" +:+ nl +:+ rest.
Proof.
  intros Hs. apply isEmpty_false in Hs. unfold MarkdownV2.buildFields. cbv zeta.
  match goal with |- context [MarkdownV2.writeSegment ?b ?v "⚡ *响应时间*: `" ?sh ?po] =>
    destruct (writeSegment_extends b v "⚡ *响应时间*: `" sh po) as [x1 ->] end.
  match goal with |- context [MarkdownV2.writeSegment ?b ?v "🕐 *时间*: `" ?sh ?po] =>
    destruct (writeSegment_extends b v "🕐 *时间*: `" sh po) as [x2 ->] end.
  match goal with |- context [MarkdownV2.writeSegment ?b ?v "🔗 *监控地址*: " ?sh ?po] =>
    destruct (writeSegment_extends b v "🔗 *监控地址*: " sh po) as [x3 ->] end.
  match goal with |- context [MarkdownV2.writeSegment ?b ?v "❗ *原因*: " ?sh ?po] =>
    destruct (writeSegment_extends b v "❗ *原因*: " sh po) as [x4 ->] end.
  exists (x4 +:+ x3 +:+ x2 +:+ x1).
  unfold MarkdownV2.writeSegment. rewrite Hs.
  destruct (isEmpty (nestedString payload ["monitor"; "name"]));
    rewrite !app_assoc_str; reflexivity.
Qed.

(** The status line of the MarkdownV2 composer in the composed text: the
    trimming and the raw section leave it where it is. *)
Lemma markdown_status_line (payload : gomap) (raw : string) :
  stringFromMap payload "status" <> EmptyString ->
  exists after,
    MarkdownV2.buildTelegramMessage payload raw =
    MarkdownV2.header (stringFromMap payload "msg")
    +:+ (if isEmpty (nestedString payload ["monitor"; "name"]) then EmptyString
         else "📊 *监控名称*: `"
              +:+ MarkdownV2.escapeMarkdown (nestedString payload ["monitor"; "name"])
              +:+ "`" +:+ nl)
    +:+ MarkdownV2.statusEmoji (ToLower (stringFromMap payload "status"))
    +:+ " *状态*: *"
    +:+ MarkdownV2.escapeMarkdown (ToUpper (stringFromMap payload "status"))
    +:+ "*" +:+ after.
Proof.
  intros Hs. rewrite markdown_composed.
  destruct (markdown_buildFields_status payload Hs) as [rest ->].
  set (name := if isEmpty (nestedString payload ["monitor"; "name"]) then EmptyString
               else _).
  set (marker := MarkdownV2.statusEmoji _).
  set (shownStatus := MarkdownV2.escapeMarkdown _).
  set (tail := if isEmpty (fallbackRaw raw) then EmptyString else _).
  assert (Hh : exists h, MarkdownV2.header (stringFromMap payload "msg") = String "240" h).
  { unfold MarkdownV2.header. destruct (MarkdownV2.isTest _); eexists; reflexivity. }
  destruct Hh as [h ->].
  destruct (TrimSpace_head_keeps_app "240" h (name +:+ marker +:+ " *状态*: *" +:+ shownStatus)
              "*" (nl +:+ rest)) as [t Ht]; [reflexivity..|].
  exists (t +:+ tail).
  assert (Hshape : String "240" h +:+ name +:+ marker +:+ " *状态*: *" +:+ shownStatus
                   +:+ "*" +:+ nl +:+ rest
                   = String "240" h +:+ (name +:+ marker +:+ " *状态*: *" +:+ shownStatus)
                     +:+ String "*" (nl +:+ rest))
    by (rewrite !app_assoc_str; reflexivity).
  rewrite Hshape, Ht, !app_assoc_str. reflexivity.
Qed.
End StatusLine.

(** C2 (amended). The text composed by [main.go] carries no marker: it is
    the raw fallback, or it starts with the label of its first line, and the
    status shows only as the line "Status: " with the status in upper case,
    written after the monitor line, which is absent when the status is.  In
    the MarkdownV2 composer the status line starts with the marker of the
    status, chosen by its lower-cased text among five distinct markers (up,
    down, maintenance, pending, and one for any other status); the line
    stands in the composed text after the header and the monitor line; when
    the status is absent or empty there is no status line and no marker of
    these.  The text as a whole starts with the bell of the header, or with
    the test tube of a test notification, whatever the status is.  In both
    composers the builder is exactly the text of the lines spoken of. *)
Theorem C2_status_line_and_marker `{UnicodeTables} (payload : gomap) (raw : string) :
  let status := stringFromMap payload "status" in
  let name := nestedString payload ["monitor"; "name"] in
  ((presentLines payload = [] /\ buildTelegramMessage payload raw = fallbackRaw raw)
   \/ (exists l rest, In l labelHeads /\ buildTelegramMessage payload raw = l +:+ rest))
  /\ (status <> EmptyString ->
      In {| label := "Status: "; value := status; shown := ToUpper status |}
         (presentLines payload))
  /\ (status = EmptyString ->
      Forall (fun f => label f <> "Status: ") (presentLines payload))
  /\ (status <> EmptyString ->
      In (statusSegment status) (presentSegments payload)
      /\ segPre (statusSegment status) =
         MarkdownV2.statusEmoji (ToLower status) +:+ " *状态*: *")
  /\ (status = EmptyString ->
      Forall (fun g => Forall (fun m => HasPrefix (segPre g) m = false) statusMarkers)
             (presentSegments payload))
  /\ (exists rest,
         MarkdownV2.buildTelegramMessage payload raw =
         (if MarkdownV2.isTest (stringFromMap payload "msg") then "🧪 *" else "🔔 *")
         +:+ rest)
  /\ (MarkdownV2.statusEmoji "up" = "✅"
      /\ MarkdownV2.statusEmoji "down" = "❌"
      /\ MarkdownV2.statusEmoji "maintenance" = "🔧"
      /\ MarkdownV2.statusEmoji "pending" = "⏳"
      /\ (forall lowered, ~ In lowered ["up"; "down"; "maintenance"; "pending"] ->
                          MarkdownV2.statusEmoji lowered = "ℹ️")
      /\ NoDup statusMarkers)
  /\ buildFields payload = linesText (presentLines payload)
  /\ MarkdownV2.buildFields payload =
     segmentsText (MarkdownV2.header (stringFromMap payload "msg"))
                  (presentSegments payload)
  /\ MarkdownV2.buildTelegramMessage payload raw =
     TrimSpace (MarkdownV2.buildFields payload)
     +:+ (if isEmpty (fallbackRaw raw) then EmptyString
          else nl +:+ nl +:+ MarkdownV2.rawSection +:+ fallbackRaw raw +:+ nl +:+ "```")
  /\ (status <> EmptyString ->
      exists rest,
        buildFields payload =
        (if isEmpty name then EmptyString else "Monitor: " +:+ name +:+ nl)
        +:+ "Status: " +:+ ToUpper status +:+ nl +:+ rest)
  /\ (status <> EmptyString ->
      exists rest,
        MarkdownV2.buildFields payload =
        MarkdownV2.header (stringFromMap payload "msg")
        +:+ (if isEmpty name then EmptyString
             else "📊 *监控名称*: `" +:+ MarkdownV2.escapeMarkdown name +:+ "`" +:+ nl)
        +:+ MarkdownV2.statusEmoji (ToLower status) +:+ " *状态*: *"
        +:+ MarkdownV2.escapeMarkdown (ToUpper status) +:+ "*" +:+ nl +:+ rest)
  /\ (status <> EmptyString ->
      exists after,
        MarkdownV2.buildTelegramMessage payload raw =
        MarkdownV2.header (stringFromMap payload "msg")
        +:+ (if isEmpty name then EmptyString
             else "📊 *监控名称*: `" +:+ MarkdownV2.escapeMarkdown name +:+ "`" +:+ nl)
        +:+ MarkdownV2.statusEmoji (ToLower status) +:+ " *状态*: *"
        +:+ MarkdownV2.escapeMarkdown (ToUpper status) +:+ "*" +:+ after).
Proof.
  intros status name.
  split; [|split; [|split; [|split; [|split; [|split; [|split]]]]]].
  - destruct (presentLines payload) as [|f ls] eqn:E.
    + left. split; [reflexivity|].
      unfold buildTelegramMessage. now rewrite (text_empty payload E).
    + right. assert (Hne : presentLines payload <> []) by (rewrite E; discriminate).
      destruct (text_starts_with_label payload Hne) as (l & rest & Hl & Ht).
      pose proof (text_not_empty payload Hne) as Hnot.
      unfold buildTelegramMessage. rewrite Hnot, Ht.
      destruct (isEmpty (fallbackRaw raw)).
      * now exists l, rest.
      * exists l, (rest +:+ nl +:+ "---" +:+ nl +:+ fallbackRaw raw).
        split; [exact Hl|]. now rewrite app_assoc_str.
  - intros Hs. apply List.filter_In. split.
    + unfold fieldSlots. simpl. tauto.
    + unfold present. simpl. apply negb_true_iff. now apply isEmpty_false.
  - intros Hs. apply List.Forall_forall. intros f Hf.
    apply List.filter_In in Hf as [Hf Hp].
    unfold fieldSlots in Hf. each_place Hf; try discriminate.
    unfold present in Hp. simpl in Hp. fold status in Hp. rewrite Hs in Hp. discriminate.
  - intros Hs. split; [|reflexivity]. apply List.filter_In. split.
    + unfold segmentSlots. simpl. tauto.
    + unfold segmentPresent. simpl. apply negb_true_iff. now apply isEmpty_false.
  - intros Hs. apply List.Forall_forall. intros g Hg.
    apply List.filter_In in Hg as [Hg Hp].
    unfold segmentSlots in Hg. each_place Hg; try (solve [repeat constructor]).
    unfold segmentPresent in Hp. simpl in Hp. fold status in Hp. rewrite Hs in Hp.
    discriminate.
  - rewrite markdown_composed. destruct (markdown_text_head payload) as [t ->].
    eexists. now rewrite app_assoc_str.
  - repeat split; try reflexivity; [apply statusEmoji_other|].
    unfold statusMarkers. compute_done.
  - split; [apply buildFields_lines|].
    split; [apply markdown_buildFields_segments|].
    split; [apply markdown_composed|].
    split; [exact (buildFields_status payload)|].
    split; [exact (markdown_buildFields_status payload)|].
    exact (markdown_status_line payload raw).
Qed.

Lemma C2_status_line_witness :
  stringFromMap demoPayload "status" <> EmptyString
  /\ In {| label := "Status: "; value := "up"; shown := "UP" |}
        (presentLines (H := asciiTables) demoPayload)
  /\ In (statusSegment (H := asciiTables) "up")
        (presentSegments (H := asciiTables) demoPayload)
  /\ segPre (statusSegment (H := asciiTables) "up") = "✅ *状态*: *"
  /\ (exists after,
         @MarkdownV2.buildTelegramMessage asciiTables demoPayload demoBody =
         "🔔 *Uptime Kuma 监控通知*" +:+ nl +:+ nl
         +:+ "📊 *监控名称*: `Demo`" +:+ nl
         +:+ "✅ *状态*: *UP*" +:+ after)
  /\ (exists after,
         @MarkdownV2.buildTelegramMessage asciiTables
           (Some (<["status" := Str "Down"]> ∅)) demoBody =
         "🔔 *Uptime Kuma 监控通知*" +:+ nl +:+ nl +:+ "❌ *状态*: *DOWN*" +:+ after)
  /\ (exists after,
         @MarkdownV2.buildTelegramMessage asciiTables
           (Some (<["status" := Str "paused"]> ∅)) demoBody =
         "🔔 *Uptime Kuma 监控通知*" +:+ nl +:+ nl +:+ "ℹ️ *状态*: *PAUSED*" +:+ after).
Proof.
  assert (Hs : stringFromMap demoPayload "status" <> EmptyString) by discriminate.
  destruct (@C2_status_line_and_marker asciiTables demoPayload demoBody)
    as (_ & Hline & _ & Hseg & _ & _ & _ & _ & _ & _ & _ & _ & Hup).
  destruct (@C2_status_line_and_marker asciiTables
              (Some (<["status" := Str "Down"]> ∅)) demoBody)
    as (_ & _ & _ & _ & _ & _ & _ & _ & _ & _ & _ & _ & Hdown).
  destruct (@C2_status_line_and_marker asciiTables
              (Some (<["status" := Str "paused"]> ∅)) demoBody)
    as (_ & _ & _ & _ & _ & _ & _ & _ & _ & _ & _ & _ & Hother).
  split; [exact Hs|]. split; [exact (Hline Hs)|].
  destruct (Hseg Hs) as [Hin Hpre]. split; [exact Hin|]. split; [exact Hpre|].
  split; [|split].
  - destruct (Hup Hs) as [after Ha]. exists after. rewrite Ha. reflexivity.
  - destruct Hdown as [after Ha]; [discriminate|]. exists after. rewrite Ha. reflexivity.
  - destruct Hother as [after Ha]; [discriminate|]. exists after. rewrite Ha. reflexivity.
Defined.

(** ** The raw excerpt *)

(** The claim as the specification words it fails on [main.go]: the text
    composed for the empty object is the excerpt alone, with no template
    around it; and the bound counts bytes, not characters: a body of 1951
    characters is cut, after its first 3900 bytes, in the middle of a
    character of two bytes.  The MarkdownV2 composer does not return its
    empty-payload template either. *)
Lemma C6_no_template_and_cut_in_bytes :
  @buildTelegramMessage asciiTables (Some ∅) "{}" = "{}"
  /\ (let raw := "a" +:+ strRepeat 1950 "é" in
      runeCount raw = 1951%nat
      /\ String.length raw = 3901%nat
      /\ @buildTelegramMessage asciiTables (Some ∅) raw
         = "a" +:+ strRepeat 1949 "é" +:+ String "195" "...")
  /\ @MarkdownV2.buildTelegramMessage asciiTables (Some ∅) "{}"
     <> emptyPayloadTemplate "{}".
Proof.
  split; [reflexivity|]. split.
  - cbv zeta. split; [vm_compute; reflexivity|].
    split; vm_compute; reflexivity.
  - vm_compute. discriminate.
Qed.

(** C6 (amended). When no field could be extracted (the empty JSON object,
    for one), the text composed by [main.go] is the raw excerpt and nothing
    else, no template around it.  The excerpt is the raw payload without
    the white space at its two ends, as it is when it has at most 3900
    bytes, and otherwise its first 3900 bytes (bytes, not characters)
    followed by the marker "..."; it never has more than 3903 bytes.  When
    fields were extracted, the same excerpt follows them as a trailing
    section under the separator line "---", unless the raw payload is
    blank, in which case nothing follows them.  In the MarkdownV2 composer
    the same excerpt is appended, for every payload, in the fenced raw
    section. *)
Theorem C6_raw_fallback_and_excerpt `{UnicodeTables} (payload : gomap) (raw : string) :
  let trimmed := TrimSpace raw in
  let excerpt :=
    if (3900 <? String.length trimmed)%nat then strTake 3900 trimmed +:+ "..."
    else trimmed in
  fallbackRaw raw = excerpt
  /\ (String.length excerpt <= 3903)%nat
  /\ (presentLines payload = [] -> buildTelegramMessage payload raw = excerpt)
  /\ buildTelegramMessage (Some ∅) raw = excerpt
  /\ (presentLines payload <> [] -> trimmed <> EmptyString ->
      buildTelegramMessage payload raw =
      TrimSpace (linesText (presentLines payload)) +:+ nl +:+ "---" +:+ nl +:+ excerpt)
  /\ (presentLines payload <> [] -> trimmed = EmptyString ->
      buildTelegramMessage payload raw = TrimSpace (linesText (presentLines payload)))
  /\ buildFields payload = linesText (presentLines payload)
  /\ (exists w1 w2, spaceOnly w1 /\ spaceOnly w2 /\ raw = w1 +:+ trimmed +:+ w2)
  /\ stuck trimmed = true
  /\ ~ endsInSpace trimmed
  /\ ((String.length trimmed <= 3900)%nat -> excerpt = trimmed)
  /\ ((3900 < String.length trimmed)%nat ->
      exists first rest,
        trimmed = first +:+ rest /\ String.length first = 3900%nat
        /\ rest <> EmptyString /\ excerpt = first +:+ "...")
  /\ MarkdownV2.buildTelegramMessage payload raw =
     TrimSpace (MarkdownV2.buildFields payload)
     +:+ (if isEmpty excerpt then EmptyString
          else nl +:+ nl +:+ MarkdownV2.rawSection +:+ excerpt +:+ nl +:+ "```").
Proof.
  intros trimmed excerpt.
  assert (Hraw : fallbackRaw raw = excerpt).
  { unfold fallbackRaw, excerpt, maxRaw. fold trimmed.
    destruct trimmed as [|a t]; reflexivity. }
  assert (Hnil : forall p, presentLines p = [] -> buildTelegramMessage p raw = excerpt).
  { intros p Hp. unfold buildTelegramMessage. now rewrite (text_empty p Hp). }
  destruct (TrimSpace_fixed_parts trimmed (TrimSpace_idem raw)) as [Hstuck Hright].
  split; [exact Hraw|]. split.
  { unfold excerpt. destruct (3900 <? String.length trimmed)%nat eqn:E.
    - rewrite app_length_str. pose proof (strTake_length_le 3900 trimmed) as Hle.
      change (String.length "...") with 3%nat. lia.
    - apply Nat.ltb_ge in E. lia. }
  split; [apply Hnil|]. split; [now apply Hnil|].
  split.
  { intros Hne Htrim. unfold buildTelegramMessage.
    rewrite (text_not_empty payload Hne), Hraw, <- buildFields_lines.
    assert (He : isEmpty excerpt = false).
    { unfold excerpt. destruct (3900 <? String.length trimmed)%nat.
      - destruct trimmed; [congruence | reflexivity].
      - now apply isEmpty_false. }
    now rewrite He. }
  split.
  { intros Hne Htrim. unfold buildTelegramMessage.
    rewrite (text_not_empty payload Hne), Hraw, <- buildFields_lines.
    unfold excerpt. now rewrite Htrim. }
  split; [apply buildFields_lines|].
  split; [apply TrimSpace_split|].
  split; [exact Hstuck|].
  split; [now apply trimRight_fixed_end|].
  split.
  { intros Hle. unfold excerpt.
    destruct (Nat.ltb_spec 3900 (String.length trimmed)); [lia | reflexivity]. }
  split.
  { intros Hlt. exists (strTake 3900 trimmed), (strDrop 3900 trimmed).
    split; [symmetry; apply strTake_strDrop|].
    split; [apply strTake_length; lia|].
    split.
    - intros Hd. pose proof (strDrop_length 3900 trimmed) as Hl.
      rewrite Hd in Hl. simpl in Hl. lia.
    - unfold excerpt.
      destruct (Nat.ltb_spec 3900 (String.length trimmed)); [reflexivity | lia]. }
  rewrite markdown_composed, Hraw. reflexivity.
Qed.

Lemma C6_raw_fallback_witness :
  presentLines (H := asciiTables) demoPayload <> []
  /\ TrimSpace demoBody <> EmptyString
  /\ @buildTelegramMessage asciiTables demoPayload demoBody =
     "Monitor: Demo" +:+ nl +:+ "Status: UP" +:+ nl +:+ "Reason: All good" +:+ nl
     +:+ "---" +:+ nl +:+ demoBody
  /\ @buildTelegramMessage asciiTables (Some ∅) (blanks +:+ strRepeat 3901 "a" +:+ blanks)
     = strRepeat 3900 "a" +:+ "..."
  /\ @buildTelegramMessage asciiTables demoPayload (blanks +:+ "{}" +:+ blanks) =
     "Monitor: Demo" +:+ nl +:+ "Status: UP" +:+ nl +:+ "Reason: All good" +:+ nl
     +:+ "---" +:+ nl +:+ "{}".
Proof.
  assert (Hp : presentLines (H := asciiTables) demoPayload <> []) by (vm_compute; discriminate).
  assert (Ht : TrimSpace demoBody <> EmptyString) by (vm_compute; discriminate).
  assert (Hb : TrimSpace (blanks +:+ "{}" +:+ blanks) <> EmptyString)
    by (vm_compute; discriminate).
  split; [exact Hp|]. split; [exact Ht|].
  split; [|split].
  - destruct (@C6_raw_fallback_and_excerpt asciiTables demoPayload demoBody)
      as (_ & _ & _ & _ & Hfields & _).
    rewrite (Hfields Hp Ht). vm_compute. reflexivity.
  - destruct (@C6_raw_fallback_and_excerpt asciiTables (Some ∅)
                (blanks +:+ strRepeat 3901 "a" +:+ blanks))
      as (_ & _ & _ & Hempty & _).
    rewrite Hempty. vm_compute. reflexivity.
  - destruct (@C6_raw_fallback_and_excerpt asciiTables demoPayload
                (blanks +:+ "{}" +:+ blanks))
      as (_ & _ & _ & _ & Hfields & _).
    rewrite (Hfields Hp Hb). vm_compute. reflexivity.
Defined.

(** * Further properties of the code *)

(** ** Extraction, once more *)

Lemma descend_reaches (current : any) (keys : list string) (v : any) :
  descend current keys = Some v <-> reaches current keys v.
Proof.
  revert current. induction keys as [|key rest IH]; intros current; simpl.
  - split.
    + intros [= ->]. constructor.
    + intros Hr. inversion Hr. reflexivity.
  - split.
    + destruct current as [| | | | | |[g|]]; try discriminate; simpl.
      destruct (g !! key) as [w|] eqn:Eg; [|discriminate].
      intros Hd. apply IH in Hd. now apply (reaches_step g key w).
    + intros Hr. inversion Hr as [|g k w r u Hg Hrest]; subst. simpl.
      rewrite Hg. now apply IH.
Qed.

(** X1. [stringFromMap] is [nestedString] on a path of one key: the two
    extractors agree on every payload, the nil map included. *)
Theorem X1_stringFromMap_is_nestedString (payload : gomap) (key : string) :
  stringFromMap payload key = nestedString payload [key].
Proof.
  unfold stringFromMap, nestedString. destruct payload as [g|]; simpl; [|reflexivity].
  destruct (g !! key); reflexivity.
Qed.

(** X2. [nestedString] follows the path through nested objects and never
    fails: when every key is found, each in an object, it renders the value
    the path leads to, and when a key is missing or a value on the way is
    no object it returns the empty string.  A result that is not empty
    comes from a string, a number or a float at the end of the path. *)
Theorem X2_nestedString_follows_path (payload : gomap) (keys : list string) :
  (forall v, reaches (Map payload) keys v -> nestedString payload keys = scalarString v)
  /\ ((forall v, ~ reaches (Map payload) keys v) ->
      nestedString payload keys = EmptyString)
  /\ (nestedString payload keys <> EmptyString ->
      exists v, reaches (Map payload) keys v
                /\ ((exists s, v = Str s) \/ (exists lit, v = Number lit)
                    \/ (exists f, v = Float64 f))).
Proof.
  unfold nestedString. split; [|split].
  - intros v Hr. apply descend_reaches in Hr. now rewrite Hr.
  - intros Hno. destruct (descend (Map payload) keys) as [v|] eqn:E; [|reflexivity].
    apply descend_reaches in E. now apply Hno in E.
  - destruct (descend (Map payload) keys) as [v|] eqn:E; [|congruence].
    apply descend_reaches in E. intros Hne. exists v. split; [exact E|].
    destruct v; simpl in Hne; try congruence; eauto.
Qed.

Lemma X2_nestedString_witness :
  reaches (Map demoPayload) ["monitor"; "name"] (Str "Demo")
  /\ nestedString demoPayload ["monitor"; "name"] = "Demo"
  /\ nestedString demoPayload ["status"; "name"] = EmptyString.
Proof.
  assert (Hr : reaches (Map demoPayload) ["monitor"; "name"] (Str "Demo")).
  { apply descend_reaches. reflexivity. }
  destruct (X2_nestedString_follows_path demoPayload ["monitor"; "name"]) as (Hv & _).
  destruct (X2_nestedString_follows_path demoPayload ["status"; "name"]) as (_ & Hno & _).
  split; [exact Hr|]. split; [exact (Hv _ Hr)|].
  apply Hno. intros v Hv'. apply descend_reaches in Hv'. discriminate.
Defined.

(** X3. Whatever [nestedString] extracts that is not the literal of a
    [json.Number] has no white space left at either end: trimming it again
    changes nothing. *)
Theorem X3_extracted_text_is_trimmed (payload : gomap) (keys : list string) :
  (forall lit, ~ reaches (Map payload) keys (Number lit)) ->
  TrimSpace (nestedString payload keys) = nestedString payload keys.
Proof.
  intros Hnum. unfold nestedString.
  destruct (descend (Map payload) keys) as [v|] eqn:E; [|reflexivity].
  apply descend_reaches in E.
  destruct v; simpl; try reflexivity; try apply TrimSpace_idem.
  now apply Hnum in E.
Qed.

Lemma X3_extracted_text_witness :
  (forall lit, ~ reaches (Map paddedPayload)
                         ["msg"] (Number lit))
  /\ nestedString paddedPayload ["msg"] = "x y"
  /\ TrimSpace (nestedString paddedPayload
                             ["msg"])
     = nestedString paddedPayload ["msg"].
Proof.
  assert (Hn : forall lit,
             ~ reaches (Map paddedPayload)
                       ["msg"] (Number lit)).
  { intros lit Hr. apply descend_reaches in Hr. discriminate. }
  split; [exact Hn|]. split; [reflexivity|].
  exact (X3_extracted_text_is_trimmed _ _ Hn).
Defined.

(** ** The composer, once more *)

Lemma fallbackRaw_empty_iff (raw : string) :
  fallbackRaw raw = EmptyString <-> spaceOnly raw.
Proof.
  rewrite <- TrimSpace_empty_iff. unfold fallbackRaw.
  destruct (TrimSpace raw) as [|a t] eqn:E; [tauto|]. simpl isEmpty. cbv iota.
  destruct (maxRaw <? String.length (String a t))%nat; split; discriminate.
Qed.

(** X4. The composer returns the empty text in one case only: no field
    could be extracted and the raw bytes are white space (or none).  In
    every other case there is a text to send. *)
Theorem X4_composed_text_empty_iff `{UnicodeTables} (payload : gomap) (raw : string) :
  buildTelegramMessage payload raw = EmptyString
  <-> presentLines payload = [] /\ spaceOnly raw.
Proof.
  split.
  - intros He. destruct (presentLines payload) as [|f ls] eqn:E.
    + split; [reflexivity|]. apply fallbackRaw_empty_iff.
      unfold buildTelegramMessage in He. now rewrite (text_empty payload E) in He.
    + exfalso. assert (Hne : presentLines payload <> []) by (rewrite E; discriminate).
      rewrite (composed payload raw Hne) in He.
      pose proof (text_not_empty payload Hne) as Hnot.
      destruct (TrimSpace (buildFields payload)); discriminate.
  - intros [Hnil Hs]. unfold buildTelegramMessage. rewrite (text_empty payload Hnil).
    simpl. now apply fallbackRaw_empty_iff.
Qed.

Lemma X4_composed_text_witness :
  @buildTelegramMessage asciiTables (Some ∅) blanks = EmptyString.
Proof.
  apply (@X4_composed_text_empty_iff asciiTables). split; [reflexivity|].
  apply TrimSpace_empty_iff. reflexivity.
Defined.

(** ** The dispatcher, once more *)

Lemma sendMessage_calls `{Runtime} (c : telegramClient) (text : string) :
  (sendMessage c text).2 =
  (if isEmpty (TrimSpace text) || negb (newRequestOK (endpointOf c)) then []
   else [telegramRequest c text]).
Proof.
  unfold sendMessage. fold (endpointOf c).
  destruct (isEmpty (TrimSpace text)); [reflexivity|]. simpl.
  destruct (newRequestOK (endpointOf c)); [|reflexivity]. simpl.
  fold (telegramRequest c text).
  destruct (httpDo (telegramRequest c text)) as [r|]; [|reflexivity].
  destruct (StatusMultipleChoices <=? StatusCode r); [reflexivity|].
  destruct (decodeAPIResponse (respBody r)) as [[[] d]|]; reflexivity.
Qed.

(** X5. [sendMessage] hands at most one request to the HTTP client and never
    tries again: none when the text is blank or the request cannot be
    built, and otherwise exactly the POST to [<base>/bot<token>/sendMessage]
    whose JSON object holds the chat id, the text as given and the flag that
    disables the link preview, and no other key ([parse_mode], for one, is
    not sent). *)
Theorem X5_sendMessage_single_request `{Runtime} (c : telegramClient) (text : string) :
  (sendMessage c text).2 =
  (if isEmpty (TrimSpace text) || negb (newRequestOK (endpointOf c)) then []
   else [telegramRequest c text])
  /\ (forall key,
         ~ In key ["chat_id"; "text"; "disable_web_page_preview"] ->
         reqBody (telegramRequest c text) !! key = None)
  /\ reqBody (telegramRequest c text) !! "text" = Some (Str text).
Proof.
  split; [|split].
  - apply sendMessage_calls.
  - intros key Hk. simpl in Hk. unfold telegramRequest. cbn [reqBody].
    rewrite !lookup_insert_ne by (intros <-; tauto). apply lookup_empty.
  - reflexivity.
Qed.

Lemma X5_sendMessage_witness :
  reqBody (telegramRequest demoClient "hi") !! "parse_mode" = None.
Proof.
  destruct (@X5_sendMessage_single_request providerOK demoClient "hi") as (_ & Hk & _).
  apply Hk. cbn [In]. intros [Hc|[Hc|[Hc|[]]]]; discriminate.
Defined.

Lemma sendMessage_run `{Runtime} (c : telegramClient) (text : string) :
  ~ spaceOnly text -> newRequestOK (endpointOf c) = true ->
  (sendMessage c text).1 =
  match httpDo (telegramRequest c text) with
  | None => Some ErrRequestFailed
  | Some answer =>
      if StatusMultipleChoices <=? StatusCode answer
      then Some (ErrStatus (StatusCode answer)
                           (TrimSpace (strTake 512 (respBody answer))))
      else match decodeAPIResponse (respBody answer) with
           | None => Some ErrDecodeResponse
           | Some (ok, description) =>
               if ok then None
               else Some (ErrAPI (if isEmpty description
                                  then "unknown error" else description))
           end
  end.
Proof.
  intros Hs Hn. unfold sendMessage. fold (endpointOf c).
  destruct (isEmpty (TrimSpace text)) eqn:E.
  { apply isEmpty_true, TrimSpace_empty_iff in E. contradiction. }
  rewrite Hn. simpl. fold (telegramRequest c text).
  destruct (httpDo (telegramRequest c text)) as [r|]; [|reflexivity].
  destruct (StatusMultipleChoices <=? StatusCode r); [reflexivity|].
  destruct (decodeAPIResponse (respBody r)) as [[[] d]|]; reflexivity.
Qed.

Lemma sendMessage_blank `{Runtime} (c : telegramClient) (text : string) :
  spaceOnly text -> (sendMessage c text).1 = Some ErrEmptyMessage.
Proof.
  intros Hs. unfold sendMessage. now rewrite (TrimSpace_spaceOnly _ Hs).
Qed.

(** X6. [sendMessage] returns nil exactly when the text is not blank, the
    request could be built, the provider answered it with a status below
    300, and the answer decoded to an object whose [ok] flag is true. *)
Theorem X6_sendMessage_success_iff `{Runtime} (c : telegramClient) (text : string) :
  (sendMessage c text).1 = None
  <-> ~ spaceOnly text
      /\ newRequestOK (endpointOf c) = true
      /\ exists answer description,
          httpDo (telegramRequest c text) = Some answer
          /\ StatusCode answer < 300
          /\ decodeAPIResponse (respBody answer) = Some (true, description).
Proof.
  split.
  - intros Hok.
    assert (Hs : ~ spaceOnly text).
    { intros Hs. rewrite (sendMessage_blank c text Hs) in Hok. discriminate. }
    assert (Hn : newRequestOK (endpointOf c) = true).
    { destruct (newRequestOK (endpointOf c)) eqn:En; [reflexivity|].
      unfold sendMessage in Hok. fold (endpointOf c) in Hok. rewrite En in Hok.
      destruct (isEmpty (TrimSpace text)); discriminate. }
    split; [exact Hs|]. split; [exact Hn|].
    rewrite (sendMessage_run c text Hs Hn) in Hok.
    destruct (httpDo (telegramRequest c text)) as [r|] eqn:Edo; [|discriminate].
    destruct (Z.leb_spec StatusMultipleChoices (StatusCode r)) as [|Hlt]; [discriminate|].
    destruct (decodeAPIResponse (respBody r)) as [[[] d]|] eqn:Edec; try discriminate.
    exists r, d. split; [reflexivity|]. split; [exact Hlt | exact Edec].
  - intros (Hs & Hn & r & d & Hdo & Hlt & Hdec).
    rewrite (sendMessage_run c text Hs Hn), Hdo.
    destruct (Z.leb_spec StatusMultipleChoices (StatusCode r)) as [Hge|_].
    + unfold StatusMultipleChoices in Hge. lia.
    + now rewrite Hdec.
Qed.

Lemma X6_sendMessage_witness :
  (@sendMessage providerOK demoClient "hi").1 = None /\ ~ spaceOnly "hi".
Proof.
  assert (Hs : (@sendMessage providerOK demoClient "hi").1 = None)
    by (vm_compute; reflexivity).
  split; [exact Hs|].
  apply (@X6_sendMessage_success_iff providerOK demoClient "hi") in Hs as [Hb _].
  exact Hb.
Defined.

Lemma sendMessage_not_created `{Runtime} (c : telegramClient) (text : string) :
  ~ spaceOnly text -> newRequestOK (endpointOf c) = false ->
  (sendMessage c text).1 = Some ErrCreateRequest.
Proof.
  intros Hs Hn. unfold sendMessage. fold (endpointOf c).
  destruct (isEmpty (TrimSpace text)) eqn:E.
  { apply isEmpty_true, TrimSpace_empty_iff in E. contradiction. }
  now rewrite Hn.
Qed.

(** X7. Each error [sendMessage] returns tells what happened: the empty
    text, the request that could not be built, the transport failure, the
    status of 300 or more together with at most 512 bytes of the answer
    (trimmed), the answer that did not decode, or the provider's refusal
    with its description, which is never empty ("unknown error" stands in
    for a missing one). *)
Theorem X7_sendMessage_errors `{Runtime} (c : telegramClient) (text : string)
    (e : sendError) :
  (sendMessage c text).1 = Some e ->
  match e with
  | ErrEmptyMessage => spaceOnly text
  | ErrCreateRequest => ~ spaceOnly text /\ newRequestOK (endpointOf c) = false
  | ErrRequestFailed => httpDo (telegramRequest c text) = None
  | ErrStatus code excerpt =>
      300 <= code /\ (String.length excerpt <= 512)%nat
      /\ exists answer,
          httpDo (telegramRequest c text) = Some answer
          /\ code = StatusCode answer
          /\ excerpt = TrimSpace (strTake 512 (respBody answer))
  | ErrDecodeResponse =>
      exists answer,
        httpDo (telegramRequest c text) = Some answer
        /\ StatusCode answer < 300
        /\ decodeAPIResponse (respBody answer) = None
  | ErrAPI description =>
      description <> EmptyString
      /\ exists answer given,
          httpDo (telegramRequest c text) = Some answer
          /\ StatusCode answer < 300
          /\ decodeAPIResponse (respBody answer) = Some (false, given)
          /\ description = (if isEmpty given then "unknown error" else given)
  end.
Proof.
  intros He.
  destruct (isEmpty (TrimSpace text)) eqn:Eb.
  { apply isEmpty_true, TrimSpace_empty_iff in Eb.
    rewrite (sendMessage_blank c text Eb) in He. injection He as <-. exact Eb. }
  assert (Hs : ~ spaceOnly text).
  { intros Hs. apply TrimSpace_empty_iff in Hs. rewrite Hs in Eb. discriminate. }
  destruct (newRequestOK (endpointOf c)) eqn:En.
  2:{ rewrite (sendMessage_not_created c text Hs En) in He. injection He as <-.
      now split. }
  rewrite (sendMessage_run c text Hs En) in He.
  destruct (httpDo (telegramRequest c text)) as [r|] eqn:Edo.
  2:{ injection He as <-. reflexivity. }
  destruct (Z.leb_spec StatusMultipleChoices (StatusCode r)) as [Hge|Hlt].
  { assert (Heq : ErrStatus (StatusCode r) (TrimSpace (strTake 512 (respBody r))) = e)
      by congruence.
    subst e. split; [exact Hge|]. split.
    - pose proof (TrimSpace_length (strTake 512 (respBody r))).
      pose proof (strTake_length_le 512 (respBody r)). lia.
    - exists r. repeat split. }
  destruct (decodeAPIResponse (respBody r)) as [[[] d]|] eqn:Edec.
  - discriminate.
  - injection He as <-. split.
    + destruct d; discriminate.
    + exists r, d. repeat split; assumption.
  - injection He as <-. exists r. repeat split; assumption.
Qed.

Lemma X7_sendMessage_errors_witness :
  (@sendMessage provider500 demoClient "down").1
  = Some (ErrStatus 500 "Internal Server Error")
  /\ 300 <= 500 /\ (String.length "Internal Server Error" <= 512)%nat.
Proof.
  assert (He : (@sendMessage provider500 demoClient "down").1
               = Some (ErrStatus 500 "Internal Server Error")) by reflexivity.
  split; [exact He|].
  destruct (@X7_sendMessage_errors provider500 demoClient "down" _ He) as (Hc & Hl & _).
  split; [exact Hc | exact Hl].
Defined.

(** ** The handler, once more *)

Lemma respond_calls `{Runtime} (logs : list logEntry) (c : telegramClient)
    (text : string) :
  calls (respond logs (sendMessage c text)) = (sendMessage c text).2
  /\ (Status (resp (respond logs (sendMessage c text))) = 202
      /\ (sendMessage c text).1 = None
      \/ Status (resp (respond logs (sendMessage c text))) = 502
         /\ exists e, (sendMessage c text).1 = Some e).
Proof.
  unfold respond. destruct (sendMessage c text).1 as [e|] eqn:E.
  - split; [reflexivity|]. right. split; [reflexivity|]. now exists e.
  - split; [reflexivity|]. left. now split.
Qed.

Lemma sendMessage_success_calls `{Runtime} (c : telegramClient) (text : string) :
  (sendMessage c text).1 = None -> (sendMessage c text).2 = [telegramRequest c text].
Proof.
  intros Hok. rewrite sendMessage_calls.
  destruct (isEmpty (TrimSpace text)) eqn:Eb.
  { apply isEmpty_true, TrimSpace_empty_iff in Eb.
    rewrite (sendMessage_blank c text Eb) in Hok. discriminate. }
  destruct (newRequestOK (endpointOf c)) eqn:En; [reflexivity|].
  assert (Hs : ~ spaceOnly text).
  { intros Hs. apply TrimSpace_empty_iff in Hs. rewrite Hs in Eb. discriminate. }
  rewrite (sendMessage_not_created c text Hs En) in Hok. discriminate.
Qed.

(** The handler's outcome is one of five. *)
Lemma handler_cases `{UnicodeTables} `{Runtime}
    (cfg : config) (client : telegramClient) (r : request) :
  let o := webhookHandler cfg client r in
  (Status (resp o) = 405 /\ calls o = [] /\ Method r <> "POST")
  \/ (Status (resp o) = 401 /\ calls o = [] /\ Method r = "POST")
  \/ (Status (resp o) = 400 /\ calls o = [] /\ Method r = "POST")
  \/ (exists body text,
         readBody r = Some body /\ body <> EmptyString
         /\ text = buildTelegramMessage (decodedPayload body).1 body
         /\ calls o = (sendMessage client text).2
         /\ (Status (resp o) = 202 /\ (sendMessage client text).1 = None
             \/ Status (resp o) = 502 /\ exists e, (sendMessage client text).1 = Some e)).
Proof.
  intros o. unfold o.
  destruct (String.eqb_spec (Method r) "POST") as [Hm|Hm].
  2:{ left. rewrite (handler_not_post cfg client r Hm). now repeat split. }
  destruct (String.eqb_spec (headerGet (Header r) "Authorization")
                            ("Bearer " +:+ webhookToken cfg)) as [Ha|Ha].
  2:{ right. left. rewrite (handler_unauthorized cfg client r Hm Ha). now repeat split. }
  right. right.
  rewrite (handler_read cfg client r Hm Ha).
  destruct (readBody r) as [body|] eqn:Er.
  2:{ left. now repeat split. }
  destruct body as [|a body]; [left; now repeat split|]. right.
  exists (String a body), (buildTelegramMessage (decodedPayload (String a body)).1
                             (String a body)).
  split; [reflexivity|]. split; [discriminate|]. split; [reflexivity|].
  cbv iota beta. simpl Nat.eqb. cbv iota.
  apply respond_calls.
Qed.

(** X8. Whatever the request and the provider, the handler answers with one
    of the statuses 202, 400, 401, 405 and 502 and makes at most one
    outbound call; it makes none when it answers 400, 401 or 405, and
    exactly one when it answers 202. *)
Theorem X8_handler_statuses_and_calls `{UnicodeTables} `{Runtime}
    (cfg : config) (client : telegramClient) (r : request) :
  let o := webhookHandler cfg client r in
  In (Status (resp o)) [202; 400; 401; 405; 502]
  /\ (length (calls o) <= 1)%nat
  /\ (In (Status (resp o)) [400; 401; 405] -> calls o = [])
  /\ (Status (resp o) = 202 -> length (calls o) = 1%nat).
Proof.
  intros o. unfold o.
  destruct (handler_cases cfg client r)
    as [(Hs & Hc & _)|[(Hs & Hc & _)|[(Hs & Hc & _)|
        (body & text & _ & _ & _ & Hc & Hs)]]].
  1-3: rewrite Hs, Hc; simpl; split; [lia|]; split; [lia|]; split; [reflexivity | lia].
  rewrite Hc. destruct Hs as [[Hs Hok]|[Hs _]]; rewrite Hs.
  - rewrite (sendMessage_success_calls client text Hok). cbn [In length].
    split; [lia|]. split; [lia|]. split; [lia | reflexivity].
  - rewrite sendMessage_calls.
    destruct (isEmpty (TrimSpace text) || negb (newRequestOK (endpointOf client)));
      cbn [In length]; (split; [lia|]; split; [lia|]; split; lia).
Qed.

Lemma X8_handler_witness :
  length (calls (@webhookHandler asciiTables providerOK demoConfig demoClient
                   (postRequest (Some "Bearer tkn") demoBody))) = 1%nat.
Proof.
  destruct (@X8_handler_statuses_and_calls asciiTables providerOK demoConfig demoClient
              (postRequest (Some "Bearer tkn") demoBody)) as (_ & _ & _ & H202).
  apply H202. vm_compute. reflexivity.
Defined.

(** X9. For a POST that passes the authentication and whose body ends in a
    read error: when the error is met, which is when it comes before 1 MiB
    was read, or together with the bytes that make the body exactly 1 MiB
    long, the handler answers 400, logs the failure and makes no outbound
    call; when it is not met, which is when the body is longer than 1 MiB,
    or exactly 1 MiB long with the error left to a later [Read], the limit
    reader never asks for it and the request is handled as if the body read
    well. *)
Theorem X9_read_failure `{UnicodeTables} `{Runtime}
    (cfg : config) (client : telegramClient) (r : request) :
  Method r = "POST" ->
  headerGet (Header r) "Authorization" = "Bearer " +:+ webhookToken cfg ->
  BodyFails r = true ->
  (Z.of_nat (String.length (Body r)) < maxPayloadBytes
   \/ (Z.of_nat (String.length (Body r)) = maxPayloadBytes /\ FailsWithData r = true) ->
   webhookHandler cfg client r =
   {| resp := httpError ∅ "failed to read body" 400;
      logged := [LogReadFailed]; calls := [] |})
  /\ (maxPayloadBytes < Z.of_nat (String.length (Body r))
      \/ (Z.of_nat (String.length (Body r)) = maxPayloadBytes
          /\ FailsWithData r = false) ->
      webhookHandler cfg client r =
      webhookHandler cfg client
        {| Method := Method r; Header := Header r; Body := Body r;
           BodyFails := false; FailsWithData := false |}).
Proof.
  intros Hm Ha Hf. split; intros Hlen.
  - rewrite (handler_read cfg client r Hm Ha). unfold readBody. cbv zeta.
    rewrite Hf, Bool.andb_true_l.
    destruct (Z.ltb_spec maxPayloadBytes (Z.of_nat (String.length (Body r))));
      [lia|].
    destruct (Z.ltb_spec (Z.of_nat (String.length (Body r))) maxPayloadBytes);
      [reflexivity|].
    destruct Hlen as [Hlt|[_ Hw]]; [lia|]. now rewrite Hw.
  - unfold webhookHandler, readBody. cbn [Method Header Body BodyFails FailsWithData].
    cbv zeta. rewrite Hf, Bool.andb_true_l, Bool.andb_false_l.
    destruct (Z.ltb_spec maxPayloadBytes (Z.of_nat (String.length (Body r))));
      [reflexivity|].
    destruct Hlen as [Hlt|[Heq Hw]]; [lia|].
    destruct (Z.ltb_spec (Z.of_nat (String.length (Body r))) maxPayloadBytes);
      [lia|].
    now rewrite Hw.
Qed.

Lemma X9_read_failure_witness :
  @webhookHandler asciiTables providerOK demoConfig demoClient
    {| Method := "POST"; Header := <["Authorization" := "Bearer tkn"]> ∅;
       Body := "{"; BodyFails := true; FailsWithData := false |}
  = {| resp := httpError ∅ "failed to read body" 400;
       logged := [LogReadFailed]; calls := [] |}
  /\ @webhookHandler asciiTables providerOK demoConfig demoClient (cappedRequest true)
     = {| resp := httpError ∅ "failed to read body" 400;
          logged := [LogReadFailed]; calls := [] |}
  /\ @webhookHandler asciiTables providerOK demoConfig demoClient (cappedRequest false)
     = @webhookHandler asciiTables providerOK demoConfig demoClient
         (postRequest (Some "Bearer tkn") (Body (cappedRequest false))).
Proof.
  assert (Hcap : Z.of_nat (String.length (strTake (Z.to_nat maxPayloadBytes) oversizedBody))
                 = maxPayloadBytes) by (vm_compute; reflexivity).
  split; [|split].
  - destruct (@X9_read_failure asciiTables providerOK demoConfig demoClient
                {| Method := "POST"; Header := <["Authorization" := "Bearer tkn"]> ∅;
                   Body := "{"; BodyFails := true; FailsWithData := false |})
      as [Hmet _]; [reflexivity | reflexivity | reflexivity |].
    apply Hmet. left. reflexivity.
  - destruct (@X9_read_failure asciiTables providerOK demoConfig demoClient
                (cappedRequest true)) as [Hmet _];
      [reflexivity | reflexivity | reflexivity |].
    apply Hmet. right. split; [exact Hcap | reflexivity].
  - destruct (@X9_read_failure asciiTables providerOK demoConfig demoClient
                (cappedRequest false)) as [_ Hmissed];
      [reflexivity | reflexivity | reflexivity |].
    apply Hmissed. right. split; [exact Hcap | reflexivity].
Defined.

(** X10. Every outbound call the handler makes carries the text composed
    from the body it read, and that text is never blank; the call goes to
    the endpoint of the client and is the single request of [sendMessage]. *)
Theorem X10_outbound_text `{UnicodeTables} `{Runtime}
    (cfg : config) (client : telegramClient) (r : request) (req : httpRequest) :
  In req (calls (webhookHandler cfg client r)) ->
  exists body,
    readBody r = Some body
    /\ req = telegramRequest client (buildTelegramMessage (decodedPayload body).1 body)
    /\ reqBody req !! "text"
       = Some (Str (buildTelegramMessage (decodedPayload body).1 body))
    /\ ~ spaceOnly (buildTelegramMessage (decodedPayload body).1 body).
Proof.
  intros Hin.
  destruct (handler_cases cfg client r)
    as [(_ & Hc & _)|[(_ & Hc & _)|[(_ & Hc & _)|
        (body & text & Hr & _ & Ht & Hc & _)]]];
    rewrite Hc in Hin; try contradiction.
  rewrite sendMessage_calls in Hin.
  destruct (isEmpty (TrimSpace text)) eqn:Eb; [contradiction|].
  destruct (newRequestOK (endpointOf client)); [|contradiction].
  cbn [In] in Hin. destruct Hin as [<-|[]].
  exists body. subst text. split; [exact Hr|]. split; [reflexivity|].
  split; [reflexivity|].
  intros Hs. apply TrimSpace_empty_iff in Hs. rewrite Hs in Eb. discriminate.
Qed.

Lemma X10_outbound_text_witness :
  In (telegramRequest demoClient
        (@buildTelegramMessage asciiTables demoPayload demoBody))
     (calls (@webhookHandler asciiTables providerOK demoConfig demoClient
               (postRequest (Some "Bearer tkn") demoBody)))
  /\ exists body,
      readBody (postRequest (Some "Bearer tkn") demoBody) = Some body
      /\ ~ spaceOnly (@buildTelegramMessage asciiTables
                        (@decodedPayload providerOK body).1 body).
Proof.
  assert (Hc : calls (@webhookHandler asciiTables providerOK demoConfig demoClient
                        (postRequest (Some "Bearer tkn") demoBody))
               = [telegramRequest demoClient
                    (@buildTelegramMessage asciiTables demoPayload demoBody)])
    by (vm_compute; reflexivity).
  assert (Hin : In (telegramRequest demoClient
                      (@buildTelegramMessage asciiTables demoPayload demoBody))
                   (calls (@webhookHandler asciiTables providerOK demoConfig demoClient
                             (postRequest (Some "Bearer tkn") demoBody)))).
  { rewrite Hc. left. reflexivity. }
  split; [exact Hin|].
  destruct (@X10_outbound_text asciiTables providerOK demoConfig demoClient
              (postRequest (Some "Bearer tkn") demoBody)
              (telegramRequest demoClient
                 (@buildTelegramMessage asciiTables demoPayload demoBody)) Hin)
    as (body & Hr & _ & _ & Hs).
  exists body. split; [exact Hr | exact Hs].
Defined.

(** ** Configuration *)

Lemma Getenv_not_blank (env : gmap string string) (key : string) :
  isEmpty (TrimSpace (Getenv env key)) = false <-> setAndNotBlank env key.
Proof.
  unfold Getenv, setAndNotBlank. split.
  - intros He. destruct (env !! key) as [v|]; [|discriminate].
    exists v. split; [reflexivity|]. intros Hs. simpl in He.
    now rewrite (TrimSpace_spaceOnly _ Hs) in He.
  - intros (v & -> & Hs). simpl. apply isEmpty_false.
    intros He. apply Hs. now apply TrimSpace_empty_iff.
Qed.

Lemma Getenv_blank (env : gmap string string) (key : string) :
  isEmpty (TrimSpace (Getenv env key)) = true <-> ~ setAndNotBlank env key.
Proof.
  rewrite <- Getenv_not_blank. destruct (isEmpty _); split; congruence.
Qed.

Lemma getEnv_Getenv (env : gmap string string) (key fallback : string) :
  getEnv env key fallback =
  if isEmpty (TrimSpace (Getenv env key)) then fallback
  else TrimSpace (Getenv env key).
Proof. unfold getEnv, Getenv. destruct (env !! key); reflexivity. Qed.

Lemma getEnv_not_blank (env : gmap string string) (key fallback : string) :
  ~ spaceOnly fallback -> ~ spaceOnly (getEnv env key fallback).
Proof.
  intros Hf. rewrite getEnv_Getenv.
  destruct (isEmpty (TrimSpace (Getenv env key))) eqn:E; [exact Hf|].
  apply TrimSpace_not_blank. now apply isEmpty_false.
Qed.

(** X11. [getEnv] returns the value of the variable, trimmed, when the
    variable is set to more than white space, and the fallback in every
    other case (unset, empty, blank); with a fallback that is not blank it
    never returns a blank text. *)
Theorem X11_getEnv_fallback (env : gmap string string) (key fallback : string) :
  (forall v, env !! key = Some v -> ~ spaceOnly v ->
             getEnv env key fallback = TrimSpace v
             /\ ~ spaceOnly (getEnv env key fallback))
  /\ (~ setAndNotBlank env key -> getEnv env key fallback = fallback)
  /\ (~ spaceOnly fallback -> ~ spaceOnly (getEnv env key fallback)).
Proof.
  split; [|split].
  - intros v Hv Hs.
    assert (Hset : setAndNotBlank env key) by (exists v; now split).
    apply Getenv_not_blank in Hset.
    rewrite getEnv_Getenv, Hset. unfold Getenv. rewrite Hv. simpl.
    split; [reflexivity|]. apply TrimSpace_not_blank.
    unfold Getenv in Hset. rewrite Hv in Hset. now apply isEmpty_false.
  - intros Hn. apply Getenv_blank in Hn. now rewrite getEnv_Getenv, Hn.
  - apply getEnv_not_blank.
Qed.

Lemma X11_getEnv_witness :
  getEnv (<["LISTEN_ADDR" := blanks]> demoEnv) "LISTEN_ADDR" ":8080" = ":8080"
  /\ getEnv demoEnv "WEBHOOK_AUTH_TOKEN" "none" = "tkn".
Proof.
  destruct (X11_getEnv_fallback (<["LISTEN_ADDR" := blanks]> demoEnv)
              "LISTEN_ADDR" ":8080") as (_ & Hfb & _).
  destruct (X11_getEnv_fallback demoEnv "WEBHOOK_AUTH_TOKEN" "none") as (Hset & _).
  split.
  - apply Hfb. intros (v & Hv & Hs). apply Hs.
    rewrite lookup_insert_eq in Hv. injection Hv as <-.
    apply TrimSpace_empty_iff. reflexivity.
  - destruct (Hset " tkn ") as [-> _]; [reflexivity | | reflexivity].
    intros Hs. apply TrimSpace_empty_iff in Hs. discriminate.
Defined.

Section ConfigFacts.
Context `{Platform}.

Lemma loadConfig_cases (env : gmap string string) :
  loadConfig env =
  if isEmpty (TrimSpace (Getenv env "WEBHOOK_AUTH_TOKEN")) then inr ErrWebhookTokenRequired
  else if isEmpty (TrimSpace (Getenv env "TELEGRAM_BOT_TOKEN")) then inr ErrBotTokenRequired
  else if isEmpty (TrimSpace (Getenv env "TELEGRAM_CHAT_ID")) then inr ErrChatIDRequired
  else
    let cfg timeout :=
      {| listenAddr := getEnv env "LISTEN_ADDR" defaultListenAddr;
         webhookToken := TrimSpace (Getenv env "WEBHOOK_AUTH_TOKEN");
         telegramBotToken := TrimSpace (Getenv env "TELEGRAM_BOT_TOKEN");
         telegramChatID := TrimSpace (Getenv env "TELEGRAM_CHAT_ID");
         telegramBaseURL := getEnv env "TELEGRAM_API_BASE_URL" defaultTelegramAPIURL;
         cfgRequestTimeout := timeout |} in
    if isEmpty (TrimSpace (Getenv env "REQUEST_TIMEOUT"))
    then inl (cfg defaultRequestTimeout)
    else match parseDuration (TrimSpace (Getenv env "REQUEST_TIMEOUT")) with
         | None => inr ErrInvalidTimeout
         | Some timeout =>
             if timeout <=? 0 then inr ErrTimeoutNotPositive else inl (cfg timeout)
         end.
Proof. reflexivity. Qed.

Lemma loadConfig_ext (env1 env2 : gmap string string) :
  (forall key, In key configKeys -> env1 !! key = env2 !! key) ->
  loadConfig env1 = loadConfig env2.
Proof.
  intros Hk. unfold loadConfig, getEnv, Getenv.
  rewrite !(Hk _) by (simpl; tauto). reflexivity.
Qed.
End ConfigFacts.

(** X12. A configuration that [loadConfig] returns is usable: the three
    secrets are the trimmed values of their variables and none is blank,
    the listen address and the base URL are not blank, and the request
    timeout is positive. *)
Theorem X12_loadConfig_postconditions `{Platform} (env : gmap string string)
    (cfg : config) :
  loadConfig env = inl cfg ->
  webhookToken cfg = TrimSpace (Getenv env "WEBHOOK_AUTH_TOKEN")
  /\ telegramBotToken cfg = TrimSpace (Getenv env "TELEGRAM_BOT_TOKEN")
  /\ telegramChatID cfg = TrimSpace (Getenv env "TELEGRAM_CHAT_ID")
  /\ ~ spaceOnly (webhookToken cfg)
  /\ ~ spaceOnly (telegramBotToken cfg)
  /\ ~ spaceOnly (telegramChatID cfg)
  /\ ~ spaceOnly (listenAddr cfg)
  /\ ~ spaceOnly (telegramBaseURL cfg)
  /\ 0 < cfgRequestTimeout cfg.
Proof.
  rewrite loadConfig_cases.
  destruct (isEmpty (TrimSpace (Getenv env "WEBHOOK_AUTH_TOKEN"))) eqn:Ew; [discriminate|].
  destruct (isEmpty (TrimSpace (Getenv env "TELEGRAM_BOT_TOKEN"))) eqn:Eb; [discriminate|].
  destruct (isEmpty (TrimSpace (Getenv env "TELEGRAM_CHAT_ID"))) eqn:Ec; [discriminate|].
  apply isEmpty_false, TrimSpace_not_blank in Ew, Eb, Ec.
  assert (Hl : ~ spaceOnly (getEnv env "LISTEN_ADDR" defaultListenAddr)).
  { apply getEnv_not_blank. intros Hs. apply TrimSpace_empty_iff in Hs.
    vm_compute in Hs. discriminate. }
  assert (Hu : ~ spaceOnly (getEnv env "TELEGRAM_API_BASE_URL" defaultTelegramAPIURL)).
  { apply getEnv_not_blank. intros Hs. apply TrimSpace_empty_iff in Hs.
    vm_compute in Hs. discriminate. }
  cbv zeta.
  destruct (isEmpty (TrimSpace (Getenv env "REQUEST_TIMEOUT"))).
  { intros [= <-]. cbn. repeat split; try assumption. }
  destruct (parseDuration _) as [t|]; [|discriminate].
  destruct (Z.leb_spec t 0) as [|Ht]; [discriminate|].
  intros [= <-]. cbn. repeat split; try assumption.
Qed.

Lemma X12_loadConfig_witness :
  @loadConfig demoPlatform demoEnv
  = inl {| listenAddr := ":8080"; webhookToken := "tkn"; telegramBotToken := "123:abc";
           telegramChatID := "42"; telegramBaseURL := "https://api.telegram.org";
           cfgRequestTimeout := 10000000000 |}
  /\ ~ spaceOnly "tkn".
Proof.
  assert (Hc : @loadConfig demoPlatform demoEnv
               = inl {| listenAddr := ":8080"; webhookToken := "tkn";
                        telegramBotToken := "123:abc"; telegramChatID := "42";
                        telegramBaseURL := "https://api.telegram.org";
                        cfgRequestTimeout := 10000000000 |})
    by (vm_compute; reflexivity).
  split; [exact Hc|].
  destruct (@X12_loadConfig_postconditions demoPlatform demoEnv _ Hc)
    as (_ & _ & _ & Hw & _).
  exact Hw.
Defined.

(** X13. [loadConfig] succeeds exactly when the webhook token, the bot token
    and the chat id are each set to more than white space and the request
    timeout is either left unset (or blank) or parses to a positive
    duration. *)
Theorem X13_loadConfig_success_iff `{Platform} (env : gmap string string) :
  (exists cfg, loadConfig env = inl cfg)
  <-> setAndNotBlank env "WEBHOOK_AUTH_TOKEN"
      /\ setAndNotBlank env "TELEGRAM_BOT_TOKEN"
      /\ setAndNotBlank env "TELEGRAM_CHAT_ID"
      /\ (~ setAndNotBlank env "REQUEST_TIMEOUT"
          \/ exists t, parseDuration (TrimSpace (Getenv env "REQUEST_TIMEOUT")) = Some t
                       /\ 0 < t).
Proof.
  rewrite loadConfig_cases, <- !Getenv_not_blank. cbv zeta.
  destruct (isEmpty (TrimSpace (Getenv env "WEBHOOK_AUTH_TOKEN"))).
  { split; [intros [cfg Hc]; discriminate | intros [Hf _]; discriminate]. }
  destruct (isEmpty (TrimSpace (Getenv env "TELEGRAM_BOT_TOKEN"))).
  { split; [intros [cfg Hc]; discriminate | intros (_ & Hf & _); discriminate]. }
  destruct (isEmpty (TrimSpace (Getenv env "TELEGRAM_CHAT_ID"))).
  { split; [intros [cfg Hc]; discriminate | intros (_ & _ & Hf & _); discriminate]. }
  destruct (isEmpty (TrimSpace (Getenv env "REQUEST_TIMEOUT"))).
  { split; [|intros _; eauto].
    intros _. split; [reflexivity|]. split; [reflexivity|]. split; [reflexivity|].
    left. discriminate. }
  destruct (parseDuration _) as [t|].
  - destruct (Z.leb_spec t 0) as [Hle|Hlt].
    + split; [intros [cfg Hc]; discriminate|].
      intros (_ & _ & _ & [Hf|(t' & Ht' & Ht)]).
      * now contradiction Hf.
      * assert (t' = t) by congruence. lia.
    + split; [|intros _; eauto].
      intros _. split; [reflexivity|]. split; [reflexivity|]. split; [reflexivity|].
      right. exists t. now split.
  - split; [intros [cfg Hc]; discriminate|].
    intros (_ & _ & _ & [Hf|(t' & Hf & _)]); [now contradiction Hf | discriminate].
Qed.

Lemma X13_loadConfig_witness :
  (exists cfg, @loadConfig demoPlatform demoEnv = inl cfg)
  /\ setAndNotBlank demoEnv "TELEGRAM_CHAT_ID".
Proof.
  assert (Hc : exists cfg, @loadConfig demoPlatform demoEnv = inl cfg).
  { eexists. vm_compute. reflexivity. }
  split; [exact Hc|].
  apply (@X13_loadConfig_success_iff demoPlatform demoEnv) in Hc as (_ & _ & Hchat & _).
  exact Hchat.
Defined.

(** X14. The error of [loadConfig] names the first requirement that fails,
    in the order webhook token, bot token, chat id, timeout: an error about
    one of them means that the ones before it are set, and a timeout error
    means that the variable is set to a text that does not parse, or parses
    to a duration that is not positive. *)
Theorem X14_loadConfig_error `{Platform} (env : gmap string string) (e : configError) :
  loadConfig env = inr e ->
  match e with
  | ErrWebhookTokenRequired => ~ setAndNotBlank env "WEBHOOK_AUTH_TOKEN"
  | ErrBotTokenRequired =>
      setAndNotBlank env "WEBHOOK_AUTH_TOKEN"
      /\ ~ setAndNotBlank env "TELEGRAM_BOT_TOKEN"
  | ErrChatIDRequired =>
      setAndNotBlank env "WEBHOOK_AUTH_TOKEN"
      /\ setAndNotBlank env "TELEGRAM_BOT_TOKEN"
      /\ ~ setAndNotBlank env "TELEGRAM_CHAT_ID"
  | ErrInvalidTimeout =>
      setAndNotBlank env "WEBHOOK_AUTH_TOKEN"
      /\ setAndNotBlank env "TELEGRAM_BOT_TOKEN"
      /\ setAndNotBlank env "TELEGRAM_CHAT_ID"
      /\ setAndNotBlank env "REQUEST_TIMEOUT"
      /\ parseDuration (TrimSpace (Getenv env "REQUEST_TIMEOUT")) = None
  | ErrTimeoutNotPositive =>
      setAndNotBlank env "WEBHOOK_AUTH_TOKEN"
      /\ setAndNotBlank env "TELEGRAM_BOT_TOKEN"
      /\ setAndNotBlank env "TELEGRAM_CHAT_ID"
      /\ setAndNotBlank env "REQUEST_TIMEOUT"
      /\ exists t, parseDuration (TrimSpace (Getenv env "REQUEST_TIMEOUT")) = Some t
                   /\ t <= 0
  end.
Proof.
  rewrite loadConfig_cases. cbv zeta.
  destruct (isEmpty (TrimSpace (Getenv env "WEBHOOK_AUTH_TOKEN"))) eqn:Ew.
  { intros [= <-]. now apply Getenv_blank. }
  destruct (isEmpty (TrimSpace (Getenv env "TELEGRAM_BOT_TOKEN"))) eqn:Eb.
  { intros [= <-]. split; [now apply Getenv_not_blank | now apply Getenv_blank]. }
  destruct (isEmpty (TrimSpace (Getenv env "TELEGRAM_CHAT_ID"))) eqn:Ec.
  { intros [= <-]. split; [now apply Getenv_not_blank|].
    split; [now apply Getenv_not_blank | now apply Getenv_blank]. }
  apply Getenv_not_blank in Ew, Eb, Ec.
  destruct (isEmpty (TrimSpace (Getenv env "REQUEST_TIMEOUT"))) eqn:Et; [discriminate|].
  apply Getenv_not_blank in Et.
  destruct (parseDuration _) as [t|] eqn:Ep.
  - destruct (Z.leb_spec t 0) as [Hle|Hlt]; [|discriminate].
    intros [= <-]. repeat split; try assumption. exists t. now split.
  - intros [= <-]. repeat split; assumption.
Qed.

Lemma X14_loadConfig_error_witness :
  @loadConfig demoPlatform (<["REQUEST_TIMEOUT" := "0s"]> demoEnv)
  = inr ErrTimeoutNotPositive
  /\ exists t, demoParseDuration "0s" = Some t /\ t <= 0.
Proof.
  assert (He : @loadConfig demoPlatform (<["REQUEST_TIMEOUT" := "0s"]> demoEnv)
               = inr ErrTimeoutNotPositive) by (vm_compute; reflexivity).
  split; [exact He|].
  destruct (@X14_loadConfig_error demoPlatform _ _ He) as (_ & _ & _ & _ & t & Ht & Hle).
  exists t. split; [exact Ht | exact Hle].
Defined.

(** ** The [.env] file *)

Lemma indexByte_take (c : ascii) (s : string) (n : nat) :
  indexByte c s = Some n -> indexByte c (strTake n s) = None.
Proof.
  revert n. induction s as [|a s IH]; intros n; simpl; [discriminate|].
  destruct (Ascii.eqb a c) eqn:E.
  - intros [= <-]. reflexivity.
  - destruct (indexByte c s) as [m|]; [|discriminate].
    intros [= <-]. simpl. rewrite E. now rewrite (IH m eq_refl).
Qed.

Lemma indexByte_None (c : ascii) (s : string) :
  indexByte c s = None <-> strAll (fun a => negb (Ascii.eqb a c)) s = true.
Proof.
  induction s as [|a s IH]; simpl; [tauto|].
  destruct (Ascii.eqb a c); simpl.
  - split; discriminate.
  - rewrite <- IH. destruct (indexByte c s); simpl; split; congruence.
Qed.

Lemma indexByte_drop (c : ascii) (n : nat) (s : string) :
  indexByte c s = None -> indexByte c (strDrop n s) = None.
Proof.
  revert s. induction n as [|n IH]; intros s; [now destruct s|].
  destruct s as [|a s]; [reflexivity|]. simpl.
  destruct (Ascii.eqb a c); [discriminate|].
  destruct (indexByte c s) eqn:Ei; [discriminate|]. intros _. now apply IH.
Qed.

Lemma indexByte_TrimSpace (c : ascii) (s : string) :
  indexByte c s = None -> indexByte c (TrimSpace s) = None.
Proof. rewrite !indexByte_None. apply TrimSpace_strAll. Qed.

Section DotEnvFacts.
Context `{Platform}.

Lemma loadLines_cons (text : string) (rest : list string) (env : gmap string string) :
  loadLines (text :: rest) env =
  match dotEnvLine text with
  | None => loadLines rest env
  | Some (key, value) =>
      match env !! key with
      | Some _ => loadLines rest env
      | None =>
          if setenvOK key value then loadLines rest (<[key := value]> env)
          else (env, Some (ErrSet key))
      end
  end.
Proof. reflexivity. Qed.

Lemma loadLines_subseteq (lines : list string) (env : gmap string string) :
  env ⊆ (loadLines lines env).1.
Proof.
  revert env. induction lines as [|text rest IH]; intros env; [reflexivity|].
  rewrite loadLines_cons.
  destruct (dotEnvLine text) as [[key value]|]; [|apply IH].
  destruct (env !! key) eqn:Ek; [apply IH|].
  destruct (setenvOK key value); [|reflexivity].
  etransitivity; [|apply IH]. now apply insert_subseteq.
Qed.

Lemma loadLines_lookup (lines : list string) (env : gmap string string) (key : string) :
  (loadLines lines env).2 = None ->
  (loadLines lines env).1 !! key =
  match env !! key with
  | Some v => Some v
  | None => firstAssignment key lines
  end.
Proof.
  revert env. induction lines as [|text rest IH]; intros env.
  { intros _. simpl. now destruct (env !! key). }
  rewrite loadLines_cons. cbn [firstAssignment].
  destruct (dotEnvLine text) as [[k v]|]; [|apply IH].
  destruct (String.eqb_spec k key) as [->|Hne].
  - destruct (env !! key) eqn:Ek.
    + intros He. rewrite (IH env He), Ek. reflexivity.
    + destruct (setenvOK key v); [|discriminate].
      intros He. rewrite (IH _ He), lookup_insert_eq. reflexivity.
  - destruct (env !! k) eqn:Ek; [apply IH|].
    destruct (setenvOK k v); [|discriminate].
    intros He. rewrite (IH _ He), lookup_insert_ne by exact Hne. reflexivity.
Qed.

Lemma loadLines_refused (lines : list string) (env : gmap string string)
    (e : dotEnvError) :
  (loadLines lines env).2 = Some e ->
  exists pre text post key value,
    e = ErrSet key
    /\ lines = pre ++ text :: post
    /\ dotEnvLine text = Some (key, value)
    /\ setenvOK key value = false
    /\ loadLines pre env = ((loadLines lines env).1, None)
    /\ (loadLines lines env).1 !! key = None.
Proof.
  revert env. induction lines as [|text rest IH]; intros env; [discriminate|].
  rewrite loadLines_cons.
  destruct (dotEnvLine text) as [[k v]|] eqn:El.
  - destruct (env !! k) eqn:Ek.
    + intros He. destruct (IH env He) as (pre & t & post & key & value & -> & -> & Ht & Hs & Hp & Hk).
      exists (text :: pre), t, post, key, value.
      rewrite loadLines_cons, El, Ek. auto 10.
    + destruct (setenvOK k v) eqn:Es.
      * intros He.
        destruct (IH _ He) as (pre & t & post & key & value & -> & -> & Ht & Hs & Hp & Hk).
        exists (text :: pre), t, post, key, value.
        rewrite loadLines_cons, El, Ek, Es. auto 10.
      * intros [= <-]. exists [], text, rest, k, v. simpl. auto 10.
  - intros He. destruct (IH env He) as (pre & t & post & key & value & -> & -> & Ht & Hs & Hp & Hk).
    exists (text :: pre), t, post, key, value.
    rewrite loadLines_cons, El. auto 10.
Qed.

Lemma loadLines_settled (lines : list string) (env env' : gmap string string) :
  loadLines lines env = (env', None) ->
  forall later, env' ⊆ later -> loadLines lines later = (later, None).
Proof.
  revert env. induction lines as [|text rest IH]; intros env Hl later Hsub;
    [reflexivity|].
  rewrite loadLines_cons in Hl. rewrite loadLines_cons.
  destruct (dotEnvLine text) as [[k v]|]; [|now apply (IH env)].
  destruct (env !! k) as [u|] eqn:Ek.
  - assert (Hin : env ⊆ env').
    { pose proof (loadLines_subseteq rest env) as Hs. now rewrite Hl in Hs. }
    rewrite (lookup_weaken _ _ _ _ Ek (transitivity Hin Hsub)). now apply (IH env).
  - destruct (setenvOK k v); [|discriminate].
    assert (Hin : <[k := v]> env ⊆ env').
    { pose proof (loadLines_subseteq rest (<[k := v]> env)) as Hs. now rewrite Hl in Hs. }
    rewrite (lookup_weaken _ _ k v (lookup_insert_eq env k v) (transitivity Hin Hsub)).
    now apply (IH (<[k := v]> env)).
Qed.

Lemma loadDotEnv_lines (lines : list string) (scanFails : bool)
    (env : gmap string string) :
  (loadDotEnv (FileLines lines scanFails) env).1 = (loadLines lines env).1
  /\ ((loadDotEnv (FileLines lines scanFails) env).2 = (loadLines lines env).2
      \/ (loadDotEnv (FileLines lines scanFails) env).2 = Some ErrRead
         /\ (loadLines lines env).2 = None).
Proof.
  unfold loadDotEnv. cbv zeta.
  destruct (loadLines lines env) as [env' [e|]]; simpl; [auto|].
  destruct scanFails; simpl; auto.
Qed.
End DotEnvFacts.

(** X15. Whatever the file holds and however the load ends, [loadDotEnv]
    leaves every variable of the process environment with the value it had:
    the file only adds variables. *)
Theorem X15_loadDotEnv_keeps_environment `{Platform} (file : dotEnvFile)
    (env : gmap string string) :
  env ⊆ (loadDotEnv file env).1.
Proof.
  destruct file as [| |lines scanFails]; [reflexivity | reflexivity |].
  destruct (loadDotEnv_lines lines scanFails env) as [-> _].
  apply loadLines_subseteq.
Qed.

Lemma loadDotEnv_set `{Platform} (file : dotEnvFile) (env : gmap string string)
    (key : string) :
  is_Some (env !! key) -> (loadDotEnv file env).1 !! key = env !! key.
Proof.
  intros [v Hv]. rewrite Hv.
  destruct file as [| |lines scanFails]; [exact Hv | exact Hv |].
  destruct (loadDotEnv_lines lines scanFails env) as [-> _].
  exact (lookup_weaken _ _ _ _ Hv (loadLines_subseteq lines env)).
Qed.

(** X16. When no variable is refused, the environment after [loadDotEnv]
    gives a name the value it had before, and a name that was unset the
    value of the first line of the file that assigns it: later lines for
    the same name are without effect, and so is a failing scan after the
    last line. *)
Theorem X16_loadDotEnv_first_assignment `{Platform} (lines : list string)
    (scanFails : bool) (env : gmap string string) (key : string) :
  (forall k, (loadDotEnv (FileLines lines scanFails) env).2 <> Some (ErrSet k)) ->
  (loadDotEnv (FileLines lines scanFails) env).1 !! key =
  match env !! key with
  | Some v => Some v
  | None => firstAssignment key lines
  end.
Proof.
  intros Hok.
  destruct (loadDotEnv_lines lines scanFails env) as [-> He].
  apply loadLines_lookup.
  destruct (loadLines lines env).2 as [e|] eqn:El; [|reflexivity].
  destruct (loadLines_refused _ _ _ El) as (_ & _ & _ & k & _ & -> & _).
  destruct He as [He|[_ He]]; [|discriminate]. now destruct (Hok k).
Qed.

Lemma X16_loadDotEnv_witness :
  (@loadDotEnv demoPlatform demoDotEnv demoEnv).1 !! "REQUEST_TIMEOUT" = Some "5s"
  /\ (@loadDotEnv demoPlatform demoDotEnv demoEnv).1 !! "WEBHOOK_AUTH_TOKEN" = Some " tkn ".
Proof.
  assert (Hok : forall k, (@loadDotEnv demoPlatform demoDotEnv demoEnv).2 <> Some (ErrSet k)).
  { intros k. assert (He : (@loadDotEnv demoPlatform demoDotEnv demoEnv).2 = None)
      by (vm_compute; reflexivity).
    rewrite He. discriminate. }
  split.
  - unfold demoDotEnv in *.
    rewrite (@X16_loadDotEnv_first_assignment demoPlatform _ _ _ "REQUEST_TIMEOUT" Hok).
    vm_compute. reflexivity.
  - unfold demoDotEnv in *.
    rewrite (@X16_loadDotEnv_first_assignment demoPlatform _ _ _ "WEBHOOK_AUTH_TOKEN" Hok).
    vm_compute. reflexivity.
Defined.

(** X17. [loadDotEnv] reports a refused variable only for a line of the file
    that assigns it while it is unset and that [os.Setenv] refuses; the load
    stops there: the environment is the one the lines before it leave, the
    refused name is still unset, and the lines after it are not looked at. *)
Theorem X17_loadDotEnv_refused `{Platform} (file : dotEnvFile)
    (env : gmap string string) (key : string) :
  (loadDotEnv file env).2 = Some (ErrSet key) ->
  exists pre text post scanFails value,
    file = FileLines (pre ++ text :: post) scanFails
    /\ dotEnvLine text = Some (key, value)
    /\ setenvOK key value = false
    /\ loadLines pre env = ((loadDotEnv file env).1, None)
    /\ (loadDotEnv file env).1 !! key = None.
Proof.
  destruct file as [| |lines scanFails]; [discriminate | discriminate |].
  destruct (loadDotEnv_lines lines scanFails env) as [-> He].
  intros Hs. rewrite Hs in He. destruct He as [He|[He _]]; [|discriminate].
  symmetry in He.
  destruct (loadLines_refused _ _ _ He)
    as (pre & text & post & k & value & [= <-] & -> & Ht & Hr & Hp & Hk).
  exists pre, text, post, scanFails, value. auto.
Qed.

Lemma X17_loadDotEnv_refused_witness :
  exists pre text post scanFails value,
    FileLines ["A=1"; String "B" (String "=" (String Ascii.zero "")); "C=3"] false
    = FileLines (pre ++ text :: post) scanFails
    /\ @dotEnvLine nulPlatform text = Some ("B", value)
    /\ @loadLines nulPlatform pre ∅ = (<["A" := "1"]> ∅, None).
Proof.
  assert (He : (@loadDotEnv nulPlatform
                  (FileLines ["A=1"; String "B" (String "=" (String Ascii.zero "")); "C=3"] false)
                  ∅).2 = Some (ErrSet "B")) by (vm_compute; reflexivity).
  destruct (@X17_loadDotEnv_refused nulPlatform _ _ _ He)
    as (pre & text & post & scanFails & value & Hf & Ht & _ & Hp & _).
  exists pre, text, post, scanFails, value.
  split; [exact Hf|]. split; [exact Ht|].
  rewrite Hp. f_equal.
Defined.

(** X18. A load that ended without error has settled the environment:
    loading the same file again, at once or after more variables were set,
    changes nothing and succeeds. *)
Theorem X18_loadDotEnv_settled `{Platform} (file : dotEnvFile)
    (env env' later : gmap string string) :
  loadDotEnv file env = (env', None) ->
  env' ⊆ later ->
  loadDotEnv file later = (later, None).
Proof.
  destruct file as [| |lines scanFails]; [reflexivity | discriminate |].
  unfold loadDotEnv. cbv zeta.
  destruct (loadLines lines env) as [e1 [e|]] eqn:El; simpl; [discriminate|].
  destruct scanFails; [discriminate|].
  intros [= <-] Hsub. now rewrite (loadLines_settled _ _ _ El later Hsub).
Qed.

Lemma X18_loadDotEnv_settled_witness :
  @loadDotEnv demoPlatform demoDotEnv (@loadDotEnv demoPlatform demoDotEnv demoEnv).1
  = ((@loadDotEnv demoPlatform demoDotEnv demoEnv).1, None).
Proof.
  apply (@X18_loadDotEnv_settled demoPlatform demoDotEnv demoEnv
           (@loadDotEnv demoPlatform demoDotEnv demoEnv).1).
  - vm_compute. reflexivity.
  - reflexivity.
Defined.

(** X19. A line of the file that asks for a variable has a definite shape:
    it is not blank, its trimmed text does not start with [#], and it holds
    an [=]; the name taken from it is not empty, has no white space at
    either end and holds no [=]; the value is a trimmed text, or what
    [strconv.Unquote] made of a quoted one. *)
Theorem X19_dotEnvLine_shape `{Platform} (text key value : string) :
  dotEnvLine text = Some (key, value) ->
  ~ spaceOnly text
  /\ HasPrefix (TrimSpace text) "#" = false
  /\ indexByte "=" text <> None
  /\ key <> EmptyString
  /\ TrimSpace key = key
  /\ indexByte "=" key = None
  /\ (TrimSpace value = value
      \/ exists quoted, (1 < String.length quoted)%nat /\ unquote quoted = Some value).
Proof.
  unfold dotEnvLine. cbv zeta.
  destruct (isEmpty (TrimSpace text)) eqn:Ee; [discriminate|].
  destruct (HasPrefix (TrimSpace text) "#") eqn:Eh; [discriminate|].
  rewrite Bool.orb_false_l.
  set (line := if HasPrefix (TrimSpace text) "export "
               then TrimSpace (strDrop 7 (TrimSpace text)) else TrimSpace text).
  destruct (indexByte "=" line) as [sep|] eqn:Ei; [|discriminate].
  destruct (isEmpty (TrimSpace (strTake sep line))) eqn:Ek; [discriminate|].
  set (v := TrimSpace (strDrop (S sep) line)).
  assert (Hv : TrimSpace v = v) by apply TrimSpace_idem.
  clearbody v. intros Hsome.
  assert (Hkey : TrimSpace (strTake sep line) = key) by congruence.
  assert (Hvalue : dotEnvValue v = value) by congruence.
  clear Hsome. rewrite <- Hkey, <- Hvalue.
  split. { intros Hs. apply TrimSpace_empty_iff in Hs. now rewrite Hs in Ee. }
  split; [reflexivity|].
  split.
  { intros Hn. apply indexByte_TrimSpace in Hn.
    assert (Hl : indexByte "=" line = None).
    { subst line. destruct (HasPrefix (TrimSpace text) "export "); [|exact Hn].
      now apply indexByte_TrimSpace, indexByte_drop. }
    congruence. }
  split; [now apply isEmpty_false|].
  split; [apply TrimSpace_idem|].
  split; [now apply indexByte_TrimSpace, indexByte_take|].
  unfold dotEnvValue.
  destruct (Nat.ltb_spec 1 (String.length v)) as [Hlen|Hlen];
    [rewrite Bool.andb_true_l | now left].
  destruct (_ || _); [|now left].
  destruct (unquote v) as [u|] eqn:Eu; [|now left].
  right. now exists v.
Qed.

Lemma X19_dotEnvLine_witness :
  @dotEnvLine demoPlatform
    ("  export LISTEN_ADDR = " +:+ dquote +:+ "0.0.0.0:9000" +:+ dquote +:+ " ")
  = Some ("LISTEN_ADDR", "0.0.0.0:9000")
  /\ @dotEnvLine demoPlatform "LISTEN_ADDR='0.0.0.0:9000'"
     = Some ("LISTEN_ADDR", "'0.0.0.0:9000'")
  /\ indexByte "=" "LISTEN_ADDR" = None
  /\ TrimSpace "'0.0.0.0:9000'" = "'0.0.0.0:9000'".
Proof.
  assert (Hd : @dotEnvLine demoPlatform
                 ("  export LISTEN_ADDR = " +:+ dquote +:+ "0.0.0.0:9000" +:+ dquote +:+ " ")
               = Some ("LISTEN_ADDR", "0.0.0.0:9000")) by (vm_compute; reflexivity).
  assert (Hs : @dotEnvLine demoPlatform "LISTEN_ADDR='0.0.0.0:9000'"
               = Some ("LISTEN_ADDR", "'0.0.0.0:9000'")) by (vm_compute; reflexivity).
  split; [exact Hd|]. split; [exact Hs|].
  destruct (@X19_dotEnvLine_shape demoPlatform _ _ _ Hd) as (_ & _ & _ & _ & _ & Hk & _).
  destruct (@X19_dotEnvLine_shape demoPlatform _ _ _ Hs) as (_ & _ & _ & _ & _ & _ & Hv).
  split; [exact Hk|].
  destruct Hv as [Hv|(quoted & _ & Hq)]; [exact Hv|].
  vm_compute. reflexivity.
Defined.

(** ** Startup *)

(** X20. The environment overrides the file: when the six variables of the
    configuration are all set in the process environment, [main] arrives at
    the same configuration and client, or dies of the same error, whatever
    the [.env] file holds and whether or not it can be read. *)
Theorem X20_environment_overrides_file `{Platform} (file : dotEnvFile)
    (env : gmap string string) :
  (forall key, In key configKeys -> is_Some (env !! key)) ->
  (startup file env).2 = (startup FileNotExist env).2.
Proof.
  intros Hset. unfold startup. cbn [snd fst loadDotEnv].
  rewrite (loadConfig_ext (loadDotEnv file env).1 env); [reflexivity|].
  intros key Hk. apply loadDotEnv_set. now apply Hset.
Qed.

Lemma X20_environment_overrides_witness :
  let env := <["LISTEN_ADDR" := ":9"]> (<["TELEGRAM_API_BASE_URL" := "http://t/"]>
               (<["REQUEST_TIMEOUT" := "3s"]> demoEnv)) in
  (@startup demoPlatform demoDotEnv env).2 = (@startup demoPlatform FileNotExist env).2.
Proof.
  intros env. apply (@X20_environment_overrides_file demoPlatform).
  intros key Hk. cbn [configKeys In] in Hk.
  destruct Hk as [<-|[<-|[<-|[<-|[<-|[<-|[]]]]]]]; vm_compute; eauto.
Defined.

Lemma strTake_app_length (b x : string) : strTake (String.length b) (b +:+ x) = b.
Proof.
  induction b as [|c b IH]; [now destruct x|].
  rewrite app_cons_str. simpl. now rewrite IH.
Qed.

Lemma strDrop_app_length (b x : string) : strDrop (String.length b) (b +:+ x) = x.
Proof.
  induction b as [|c b IH]; [now destruct x|].
  rewrite app_cons_str. simpl. exact IH.
Qed.

Lemma TrimSuffix_app (b x : string) : TrimSuffix (b +:+ x) x = b.
Proof.
  unfold TrimSuffix, HasSuffix. rewrite app_length_str.
  replace (String.length b + String.length x - String.length x)%nat
    with (String.length b) by lia.
  rewrite strDrop_app_length, String.eqb_refl, strTake_app_length.
  destruct (Nat.leb_spec (String.length x) (String.length b + String.length x));
    [reflexivity | lia].
Qed.

(** X21. The client built at startup drops one trailing slash of the base
    URL and no more: a base URL [b/] gives the endpoint
    [b/bot<token>/sendMessage], and a base URL without trailing slash is
    used as it is. *)
Theorem X21_client_endpoint (cfg : config) :
  (forall b, telegramBaseURL cfg = b +:+ "/" ->
             endpointOf (newClient cfg)
             = b +:+ "/bot" +:+ telegramBotToken cfg +:+ "/sendMessage")
  /\ (HasSuffix (telegramBaseURL cfg) "/" = false ->
      endpointOf (newClient cfg)
      = telegramBaseURL cfg +:+ "/bot" +:+ telegramBotToken cfg +:+ "/sendMessage").
Proof.
  unfold endpointOf, newClient. cbn [baseURL botToken]. split.
  - intros b ->. now rewrite TrimSuffix_app.
  - intros Hs. unfold TrimSuffix. now rewrite Hs.
Qed.

Lemma X21_client_endpoint_witness :
  endpointOf (newClient {| listenAddr := ":8080"; webhookToken := "tkn";
                           telegramBotToken := "123:abc"; telegramChatID := "42";
                           telegramBaseURL := "http://t//";
                           cfgRequestTimeout := 1 |})
  = "http://t//bot123:abc/sendMessage".
Proof.
  destruct (X21_client_endpoint
              {| listenAddr := ":8080"; webhookToken := "tkn";
                 telegramBotToken := "123:abc"; telegramChatID := "42";
                 telegramBaseURL := "http://t//"; cfgRequestTimeout := 1 |}) as [Hs _].
  exact (Hs "http://t/" eq_refl).
Defined.

(** ** The composers, once more *)

Lemma trimRight_keeper_tail (p : string) (c : ascii) (s : string) :
  keeper c = true -> trimRight (p +:+ String c s) = p +:+ String c (trimRight s).
Proof.
  intros Hk. induction p as [|a p IH].
  - rewrite !app_nil_str, trimRight_cons. now rewrite (keeper_head_no_rune c _ Hk).
  - rewrite !app_cons_str, trimRight_cons, IH.
    now rewrite (keeper_inside_no_rune a p c _ Hk).
Qed.

Lemma stuck_take (k : nat) (s w : string) :
  stuck s = true -> (3 <= String.length s)%nat ->
  stuck (strTake (S (S (S k))) s +:+ w) = true.
Proof.
  destruct s as [|a [|b [|c s3]]]; simpl String.length; try lia.
  intros Hs _. exact Hs.
Qed.

Lemma maxRaw_three : (3 <= maxRaw)%nat.
Proof. apply Nat.leb_le. reflexivity. Qed.

Lemma fallbackRaw_trimmed (raw : string) : TrimSpace (fallbackRaw raw) = fallbackRaw raw.
Proof.
  unfold fallbackRaw. cbv zeta.
  destruct (isEmpty (TrimSpace raw)); [reflexivity|].
  destruct (Nat.ltb_spec maxRaw (String.length (TrimSpace raw))) as [Hlen|_];
    [|apply TrimSpace_idem].
  destruct (TrimSpace_fixed_parts _ (TrimSpace_idem raw)) as [Hst _].
  apply TrimSpace_fixed.
  - change maxRaw with (S (S (S (maxRaw - 3)))).
    apply stuck_take; [exact Hst|]. pose proof maxRaw_three. lia.
  - pose proof (trimRight_keeper_tail (strTake maxRaw (TrimSpace raw) +:+ "..") "." ""
                  eq_refl) as Hk.
    rewrite !app_assoc_str in Hk. exact Hk.
Qed.

Lemma newline_no_rune (s : string) :
  s <> EmptyString -> isSpaceRune (String "010" s) = false.
Proof. destruct s as [|a [|b [|c s]]]; [congruence | reflexivity..]. Qed.

Lemma trimRight_excerpt (p s : string) :
  s <> EmptyString -> trimRight s = s ->
  trimRight (p +:+ nl +:+ "---" +:+ nl +:+ s) = p +:+ nl +:+ "---" +:+ nl +:+ s.
Proof.
  intros Hne Hs.
  assert (Hshape : p +:+ nl +:+ "---" +:+ nl +:+ s
                   = (p +:+ String "010" "")
                     +:+ String "-" (String "-" (String "-" (String "010" s))))
    by (rewrite app_assoc_str; reflexivity).
  rewrite Hshape, (trimRight_keeper_tail _ "-" _ eq_refl).
  do 2 (rewrite trimRight_cons, (keeper_head_no_rune "-" _ eq_refl)).
  now rewrite trimRight_cons, Hs, (newline_no_rune s Hne).
Qed.

(** X22. What either composer returns has no white space at its ends:
    trimming it again changes nothing, also when the raw excerpt was cut at
    its limit or follows the fields. *)
Theorem X22_composed_text_is_trimmed `{UnicodeTables} (payload : gomap) (raw : string) :
  TrimSpace (buildTelegramMessage payload raw) = buildTelegramMessage payload raw
  /\ TrimSpace (MarkdownV2.buildTelegramMessage payload raw)
     = MarkdownV2.buildTelegramMessage payload raw.
Proof.
  destruct (TrimSpace_fixed_parts _ (fallbackRaw_trimmed raw)) as [_ Hraw].
  split.
  - destruct (presentLines payload) as [|f ls] eqn:E.
    { unfold buildTelegramMessage. rewrite (text_empty payload E).
      apply fallbackRaw_trimmed. }
    assert (Hne : presentLines payload <> []) by (rewrite E; discriminate).
    rewrite (composed payload raw Hne).
    destruct (isEmpty (fallbackRaw raw)) eqn:Ef.
    { rewrite app_empty_r. apply TrimSpace_idem. }
    apply isEmpty_false in Ef.
    destruct (text_starts_with_label payload Hne) as (l & rest & Hl & Ht).
    apply TrimSpace_fixed.
    + rewrite Ht. each_place Hl; reflexivity.
    + now apply trimRight_excerpt.
  - rewrite markdown_composed.
    destruct (isEmpty (fallbackRaw raw)) eqn:Ef.
    { rewrite app_empty_r. apply TrimSpace_idem. }
    destruct (markdown_text_head payload) as [t Ht].
    apply TrimSpace_fixed.
    + rewrite Ht. destruct (MarkdownV2.isTest _); reflexivity.
    + set (text := TrimSpace (MarkdownV2.buildFields payload)).
      assert (Hshape : text +:+ nl +:+ nl +:+ MarkdownV2.rawSection +:+ fallbackRaw raw
                       +:+ nl +:+ "```"
                       = (text +:+ nl +:+ nl +:+ MarkdownV2.rawSection +:+ fallbackRaw raw
                          +:+ nl +:+ "``") +:+ String "`" "")
        by (rewrite !app_assoc_str; reflexivity).
      rewrite Hshape. exact (trimRight_keeper_tail _ "`" "" eq_refl).
Qed.

Lemma HasPrefix_app (s p q : string) :
  HasPrefix s (p +:+ q) = true -> HasPrefix s p = true.
Proof.
  revert s. induction p as [|c p IH]; intros s; [now destruct s|].
  rewrite app_cons_str. destruct s as [|a s]; simpl; [discriminate|].
  destruct (Ascii.eqb a c); [apply IH | discriminate].
Qed.

Lemma Contains_cons (a : ascii) (s x : string) :
  Contains (String a s) x = HasPrefix (String a s) x || Contains s x.
Proof. reflexivity. Qed.

Lemma Contains_app (s p q : string) :
  Contains s (p +:+ q) = true -> Contains s p = true.
Proof.
  induction s as [|a s IH].
  - destruct p as [|c p]; [reflexivity|]. rewrite app_cons_str. discriminate.
  - rewrite !Contains_cons. intros Hc.
    apply orb_prop in Hc as [Hc|Hc]; apply orb_true_intro.
    + left. exact (HasPrefix_app _ _ _ Hc).
    + right. now apply IH.
Qed.

(** X23. The MarkdownV2 composer takes a notification for a test exactly
    when its lower-cased message holds [test]: the search for [testing]
    that the code makes first never decides. *)
Theorem X23_markdown_test_detection `{UnicodeTables} (msg : string) :
  MarkdownV2.isTest msg = Contains (ToLower msg) "test".
Proof.
  unfold MarkdownV2.isTest.
  destruct (Contains (ToLower msg) "testing") eqn:E; [|reflexivity].
  symmetry. exact (Contains_app _ "test" "ing" E).
Qed.

Lemma escapeMarkdown_app (a b : string) :
  MarkdownV2.escapeMarkdown (a +:+ b)
  = MarkdownV2.escapeMarkdown a +:+ MarkdownV2.escapeMarkdown b.
Proof.
  induction a as [|c a IH]; [now rewrite !app_nil_str|].
  rewrite app_cons_str. simpl. destruct (MarkdownV2.isSpecial c);
    rewrite ?app_cons_str, IH; reflexivity.
Qed.

Lemma escapeMarkdown_length (a : string) :
  String.length (MarkdownV2.escapeMarkdown a)
  = (String.length a + strCount MarkdownV2.isSpecial a)%nat.
Proof.
  induction a as [|c a IH]; [reflexivity|].
  simpl. destruct (MarkdownV2.isSpecial c); simpl; rewrite IH; lia.
Qed.

Lemma strCount_zero (p : ascii -> bool) (s : string) :
  strCount p s = 0%nat <-> strHas p s = false.
Proof.
  induction s as [|c s IH]; simpl; [tauto|].
  destruct (p c); simpl; [split; [lia | discriminate] | exact IH].
Qed.

(** X24. [escapeMarkdown] works byte by byte: it is a morphism for
    concatenation, it makes the text longer by exactly one byte for each
    special byte, and it leaves a text as it is exactly when the text holds
    no special byte. *)
Theorem X24_escapeMarkdown_laws (a b : string) :
  MarkdownV2.escapeMarkdown (a +:+ b)
  = MarkdownV2.escapeMarkdown a +:+ MarkdownV2.escapeMarkdown b
  /\ String.length (MarkdownV2.escapeMarkdown a)
     = (String.length a + strCount MarkdownV2.isSpecial a)%nat
  /\ (MarkdownV2.escapeMarkdown a = a <-> strHas MarkdownV2.isSpecial a = false).
Proof.
  split; [apply escapeMarkdown_app|]. split; [apply escapeMarkdown_length|].
  split.
  - intros He. apply strCount_zero.
    pose proof (escapeMarkdown_length a) as Hl. rewrite He in Hl. lia.
  - induction a as [|c a IH]; [reflexivity|]. simpl.
    destruct (MarkdownV2.isSpecial c); simpl; [discriminate|].
    intros Hs. now rewrite (IH Hs).
Qed.

Lemma X24_escapeMarkdown_witness :
  MarkdownV2.escapeMarkdown "All good" = "All good"
  /\ String.length (MarkdownV2.escapeMarkdown "a.b-c") = 7%nat.
Proof.
  destruct (X24_escapeMarkdown_laws "All good" "") as (_ & _ & Hfix).
  destruct (X24_escapeMarkdown_laws "a.b-c" "") as (_ & Hlen & _).
  split; [apply Hfix; reflexivity | rewrite Hlen; reflexivity].
Defined.

(** X25. The MarkdownV2 composer always opens with one of its two headers,
    so the text it tests for emptiness never is empty: the template it
    keeps for a payload without fields is returned for no payload and no
    body. *)
Theorem X25_markdown_template_unreachable `{UnicodeTables} (payload : gomap)
    (raw raw' : string) :
  (exists t, MarkdownV2.buildTelegramMessage payload raw
             = (if MarkdownV2.isTest (stringFromMap payload "msg")
                then "🧪 *" else "🔔 *") +:+ t)
  /\ MarkdownV2.buildTelegramMessage payload raw <> emptyPayloadTemplate raw'.
Proof.
  rewrite markdown_composed.
  destruct (markdown_text_head payload) as [t ->].
  set (tail := if isEmpty (fallbackRaw raw) then EmptyString else _).
  split.
  - exists (t +:+ tail). now rewrite app_assoc_str.
  - intros He. apply (f_equal (strTake 3)) in He.
    destruct (MarkdownV2.isTest _); vm_compute in He; discriminate.
Qed.

(** ** A plain line of the [.env] file *)

Lemma HasPrefix_inv (s p : string) :
  HasPrefix s p = true -> exists r, s = p +:+ r.
Proof.
  revert s. induction p as [|c p IH]; intros s.
  - intros _. now exists s.
  - destruct s as [|a s]; simpl; [discriminate|].
    destruct (Ascii.eqb_spec a c) as [->|]; [|discriminate].
    intros Hp. destruct (IH s Hp) as [r ->]. now exists r.
Qed.

Lemma keepers_no_export (s : string) :
  strAll keeper s = true -> HasPrefix s "export " = false.
Proof.
  intros Hk. destruct (HasPrefix s "export ") eqn:E; [|reflexivity].
  destruct (HasPrefix_inv _ _ E) as [r ->].
  rewrite strAll_app in Hk. apply andb_prop in Hk as [Hk _]. discriminate.
Qed.

Lemma indexByte_app (c : ascii) (k x : string) :
  indexByte c k = None -> indexByte c (k +:+ String c x) = Some (String.length k).
Proof.
  induction k as [|a k IH].
  - intros _. rewrite app_nil_str. simpl. now rewrite Ascii.eqb_refl.
  - rewrite app_cons_str. simpl. destruct (Ascii.eqb a c); [discriminate|].
    destruct (indexByte c k); [discriminate|]. intros _. now rewrite (IH eq_refl).
Qed.

Lemma strDrop_separator (k : string) (c : ascii) (x : string) :
  strDrop (S (String.length k)) (k +:+ String c x) = x.
Proof.
  induction k as [|a k IH]; [now rewrite app_nil_str|].
  rewrite app_cons_str. exact IH.
Qed.

(** X26. A plain line [NAME=value] is read as it is written: when the name
    and the value are made of ASCII bytes other than white space, the name
    is not empty, holds no [=] and does not start with [#], and the value
    does not start with a quote, the line asks for exactly that name with
    exactly that value. *)
Theorem X26_dotEnvLine_plain `{Platform} (key value : string) :
  key <> EmptyString ->
  strAll keeper key = true ->
  indexByte "=" key = None ->
  HasPrefix key "#" = false ->
  strAll keeper value = true ->
  HasPrefix value dquote = false ->
  HasPrefix value "'" = false ->
  dotEnvLine (key +:+ "=" +:+ value) = Some (key, value).
Proof.
  intros Hne Hk Heq Hhash Hv Hq1 Hq2.
  assert (Hline : TrimSpace (key +:+ "=" +:+ value) = key +:+ "=" +:+ value).
  { apply TrimSpace_keepers. rewrite !strAll_app, Hk, Hv. reflexivity. }
  unfold dotEnvLine. cbv zeta. rewrite Hline.
  assert (He : isEmpty (key +:+ "=" +:+ value) = false).
  { destruct key; [congruence | reflexivity]. }
  assert (Hh : HasPrefix (key +:+ "=" +:+ value) "#" = false).
  { destruct key as [|a key]; [congruence|]. rewrite app_cons_str.
    cbn [HasPrefix] in Hhash |- *.
    destruct (Ascii.eqb a "#"); [now destruct key | reflexivity]. }
  rewrite He, Hh, Bool.orb_false_l.
  rewrite keepers_no_export by (rewrite !strAll_app, Hk, Hv; reflexivity).
  change (key +:+ "=" +:+ value) with (key +:+ String "=" value).
  rewrite (indexByte_app "=" key value Heq).
  rewrite strTake_app_length, (TrimSpace_keepers key Hk).
  apply isEmpty_false in Hne. rewrite Hne.
  rewrite strDrop_separator, (TrimSpace_keepers value Hv).
  unfold dotEnvValue. rewrite Hq1, Hq2, !Bool.andb_false_l, Bool.andb_false_r.
  reflexivity.
Qed.

Lemma X26_dotEnvLine_plain_witness :
  @dotEnvLine demoPlatform "TELEGRAM_CHAT_ID=-1001234"
  = Some ("TELEGRAM_CHAT_ID", "-1001234").
Proof.
  apply (@X26_dotEnvLine_plain demoPlatform "TELEGRAM_CHAT_ID" "-1001234");
    [discriminate | reflexivity..].
Defined.
